(** * arxiv-markdown: the batch pipeline controller

    A shallow embedding of [utils/processor.py] (class [ArxivProcessor]) and
    of [utils/conversion.py] ([batch_convert_worker]), with the URL of
    [utils/storage.py] and the steps of [scripts/upload_to_hf.py] that read,
    fetch and enrich.

    Python dictionaries with string keys and string values are finite maps
    [gmap string string]; the paper dictionaries carry the keys
    ["arxiv_id"], ["url"], ["local_path"] and ["temp_dir"], the result
    dictionaries the keys ["arxiv_id"], ["markdown"], ["error"] and
    ["batch_error"].  The two durable files are lists: the checkpoint file
    is the list of its lines, the JSONL dataset the list of the dictionaries
    dumped into it.  A Python string is a [string] whose characters are
    the code points below 256, so that the whitespace of [str.strip()]
    includes U+0085 and U+00A0.  External capabilities (docling, gsutil, the
    file system, the builtin [int]) are Section variables. *)

From Stdlib Require Import ZArith Ascii String List Lia.
From stdpp Require Import gmap strings list fin_maps pretty sorting.

(** ** Python values and string helpers *)

Module Py.

Abbreviation dict := (gmap string string).

(** [k in d] *)
Definition has_key (k : string) (d : dict) : bool :=
  bool_decide (is_Some (d !! k)).

(** [d.get(k, dflt)] *)
Definition get (k dflt : string) (d : dict) : string :=
  default dflt (d !! k).

(** What arrives on the result queue: a list of result dictionaries, or
    anything else ([isinstance(batch_results, list)] is false). *)
Inductive value :=
| List (l : list dict)
| Other.

(** The characters removed by [str.strip()].  A character of a string is a
    code point below 256; of these [str.isspace] holds for 9 to 13, for 28
    to 32, for 133 (U+0085) and for 160 (U+00A0). *)
Definition is_space (c : ascii) : bool :=
  let n := nat_of_ascii c in
  ((9 <=? n)%nat && (n <=? 13)%nat) || ((28 <=? n)%nat && (n <=? 32)%nat)
  || (n =? 133)%nat || (n =? 160)%nat.

Fixpoint lstrip (s : string) : string :=
  match s with
  | String c s' => if is_space c then lstrip s' else s
  | EmptyString => EmptyString
  end.

Fixpoint rstrip (s : string) : string :=
  match s with
  | String c s' =>
      match rstrip s' with
      | EmptyString => if is_space c then EmptyString else String c EmptyString
      | r => String c r
      end
  | EmptyString => EmptyString
  end.

Definition strip (s : string) : string := rstrip (lstrip s).

(** [s.split(sep)] for a one-character separator: never the empty list. *)
Fixpoint split (sep : ascii) (s : string) : list string :=
  match s with
  | EmptyString => [EmptyString]
  | String c s' =>
      if bool_decide (c = sep) then EmptyString :: split sep s'
      else match split sep s' with
           | w :: ws => String c w :: ws
           | [] => [String c EmptyString]
           end
  end.

(** [s.replace('.pdf', '')]: occurrences are removed left to right and
    the text after a removed occurrence is scanned afresh. *)
Fixpoint remove_pdf (s : string) : string :=
  match s with
  | String "."%char (String "p"%char (String "d"%char (String "f"%char rest))) =>
      remove_pdf rest
  | String c s' => String c (remove_pdf s')
  | EmptyString => EmptyString
  end.

(** [s.rsplit('v', 1)] when ['v' in s]: the text before and after the
    last ['v']; [None] when there is no ['v']. *)
Fixpoint rsplit_v (s : string) : option (string * string) :=
  match s with
  | EmptyString => None
  | String c s' =>
      match rsplit_v s' with
      | Some (b, v) => Some (String c b, v)
      | None => if bool_decide (c = "v"%char) then Some (EmptyString, s') else None
      end
  end.

End Py.

(** ** The controller state

    The fields of [ArxivProcessor] that the pipeline reads or writes.  The
    two paths are represented by the contents of the files they name. *)

Record processor := mkProcessor {
  batch_size : Z;
  prefetch_factor : Z;
  batch_timeout : Z;
  checkpoint_file : list string;      (* lines of [checkpoint_path] *)
  dataset_file : list Py.dict;        (* records of [dataset_path] *)
  processed_ids : gset string;
  worker_process_counter : Z
}.

Definition set_checkpoint_file (f : list string) (self : processor) : processor :=
  mkProcessor (batch_size self) (prefetch_factor self) (batch_timeout self)
    f (dataset_file self) (processed_ids self) (worker_process_counter self).

Definition set_dataset_file (d : list Py.dict) (self : processor) : processor :=
  mkProcessor (batch_size self) (prefetch_factor self) (batch_timeout self)
    (checkpoint_file self) d (processed_ids self) (worker_process_counter self).

Definition set_processed_ids (ids : gset string) (self : processor) : processor :=
  mkProcessor (batch_size self) (prefetch_factor self) (batch_timeout self)
    (checkpoint_file self) (dataset_file self) ids (worker_process_counter self).

Definition set_worker_process_counter (n : Z) (self : processor) : processor :=
  mkProcessor (batch_size self) (prefetch_factor self) (batch_timeout self)
    (checkpoint_file self) (dataset_file self) (processed_ids self) n.

(** [load_checkpoint]: [set(line.strip() for line in f)].  A checkpoint file
    that does not exist leaves the empty set, as an empty file does. *)
Definition load_checkpoint (self : processor) : processor :=
  set_processed_ids (list_to_set (map Py.strip (checkpoint_file self))) self.

(** [update_checkpoint]: append one line to the checkpoint file. *)
Definition update_checkpoint (self : processor) (paper_id : string) : processor :=
  set_checkpoint_file (checkpoint_file self ++ [paper_id]) self.

(** [__init__]: the batch timeout is the per-paper timeout scaled by the
    batch size; the checkpoint is loaded once. *)
Definition init (batch_size prefetch_factor timeout : Z)
    (checkpoint : list string) (dataset : list Py.dict) : processor :=
  load_checkpoint
    (mkProcessor batch_size prefetch_factor (timeout * batch_size)
       checkpoint dataset ∅ 0).

(** [queue.Queue(maxsize=prefetch_factor * batch_size)] *)
Definition queue_maxsize (self : processor) : Z :=
  (prefetch_factor self * batch_size self)%Z.

(** ** External capabilities and their outcomes *)

(** The body of the per-paper [try] of the worker (docling conversion, figure
    upload, markdown export): the markdown, or the message of the exception. *)
Inductive conversion :=
| Converted (markdown : string)
| ConversionRaised (msg : string).

(** [subprocess.run("gsutil cp ...", timeout=120)] *)
Inductive cp_outcome :=
| CpExit (returncode : Z) (stderr : string)
| CpTimeoutExpired
| CpRaised (msg : string).

(** How the child process reacts to the termination escalation. *)
Record child := mkChild {
  alive_after_terminate : bool;   (* [proc.is_alive()] after [proc.join(5)] *)
  kill_raises : bool              (* [os.kill(proc.pid, 9)] raises *)
}.

Inductive proc_action :=
| ProcStart
| ProcJoin
| ProcTerminate
| ProcJoinFor (seconds : Z)
| ProcKill (signal : Z).

(** What [result_queue.get(timeout=timeout)] followed by [proc.join()] does. *)
Inductive wait_outcome :=
| Delivered (batch_results : Py.value)
| DeliveredJoinRaised (batch_results : Py.value) (msg : string)
| QueueEmpty
| WaitRaised (msg : string).

Section Embedding.

Variable path_exists : string -> bool.          (* [os.path.exists] *)
Variable convert : string -> string -> conversion.
Variable mkdtemp : string -> string.            (* prefix to directory *)
Variable gsutil_cp : string -> string -> cp_outcome.
Variable py_int : string -> option Z.           (* [int(s)], [None] is ValueError *)

(** *** [batch_convert_worker] (utils/conversion.py) *)

(** One iteration of the [for] loop over the batch: the dictionary that is
    appended to [results_list]. *)
Definition convert_paper (paper_info : Py.dict) : Py.dict :=
  let arxiv_id := Py.get "arxiv_id" "unknown" paper_info in
  match paper_info !! "local_path" with
  | Some local_path =>
      if bool_decide (local_path = "") || negb (path_exists local_path)
      then {[ "arxiv_id" := arxiv_id; "error" := "PDF path missing or invalid." ]}
      else match convert arxiv_id local_path with
           | Converted markdown =>
               {[ "arxiv_id" := arxiv_id; "markdown" := markdown ]}
           | ConversionRaised e =>
               {[ "arxiv_id" := arxiv_id; "error" := e ]}
           end
  | None => {[ "arxiv_id" := arxiv_id; "error" := "PDF path missing or invalid." ]}
  end.

Fixpoint worker_loop (results_list : list Py.dict) (paper_batch_info : list Py.dict)
    : list Py.dict :=
  match paper_batch_info with
  | [] => results_list
  | paper_info :: rest => worker_loop (results_list ++ [convert_paper paper_info]) rest
  end.

(** The outer [try] encloses the initialisation of the converter and the
    loop over the batch, and its handler appends the marker to the results
    gathered so far.  [batch_error] is the exception that reaches that
    handler, if any, with the number of papers whose result had been
    appended when it was raised: [0] when the initialisation of the
    converter fails.  The value is what the worker puts on the result
    queue. *)
Definition batch_convert_worker (batch_error : option (nat * string))
    (paper_batch_info : list Py.dict) : list Py.dict :=
  let results_list := [] in
  match batch_error with
  | None => worker_loop results_list paper_batch_info
  | Some (gathered, batch_e) =>
      let results_list := worker_loop results_list (take gathered paper_batch_info) in
      results_list ++ [ {[ "batch_error" := batch_e ]} ]
  end.

(** *** [_handle_batch_failure] *)

Fixpoint handle_batch_failure_loop (self : processor) (error_result_list : list Py.dict)
    (paper_batch_info : list Py.dict) (error_message : string)
    : processor * list Py.dict :=
  match paper_batch_info with
  | [] => (self, error_result_list)
  | paper_info :: rest =>
      let arxiv_id := Py.get "arxiv_id" "unknown" paper_info in
      handle_batch_failure_loop
        (update_checkpoint self arxiv_id)
        (error_result_list ++ [ {[ "arxiv_id" := arxiv_id; "error" := error_message ]} ])
        rest error_message
  end.

Definition _handle_batch_failure (self : processor)
    (paper_batch_info : list Py.dict) (error_message : string)
    : processor * list Py.dict :=
  handle_batch_failure_loop self [] paper_batch_info error_message.

(** *** [_terminate_process]: the signals and joins, in order *)

Definition _terminate_process (proc : child) : list proc_action :=
  [ProcTerminate; ProcJoinFor 5] ++
  (if alive_after_terminate proc
   then if kill_raises proc then [ProcKill 9] else [ProcKill 9; ProcJoinFor 1]
   else []).

(** *** [convert_batch_with_process_timeout]

    [proc.start()] is outside the [try]: its exception leaves the method.
    The result is the new controller state, the actions performed on the
    child, and either the returned value or the escaping exception. *)
Definition convert_batch_with_process_timeout (self : processor)
    (paper_batch_info : list Py.dict) (timeout : Z)
    (start_error : option string) (proc : child) (w : wait_outcome)
    : processor * list proc_action * (string + Py.value) :=
  let self := set_worker_process_counter (worker_process_counter self + 1) self in
  match start_error with
  | Some e => (self, [], inl e)
  | None =>
      match w with
      | Delivered batch_results =>
          (self, [ProcStart; ProcJoin], inr batch_results)
      | QueueEmpty =>
          let '(self', errs) :=
            _handle_batch_failure self paper_batch_info
              ("Batch timeout after " +:+ pretty timeout +:+ "s") in
          (self', ProcStart :: _terminate_process proc, inr (Py.List errs))
      | DeliveredJoinRaised _ e
      | WaitRaised e =>
          let '(self', errs) :=
            _handle_batch_failure self paper_batch_info
              ("Batch process management error: " +:+ e) in
          (self', ProcStart :: _terminate_process proc, inr (Py.List errs))
      end
  end.

(** *** [_process_batch_results] *)

(** The body of [for result in batch_results]. *)
Definition process_result (acc : processor * Z) (result : Py.dict) : processor * Z :=
  let '(self, processed_in_batch_count) := acc in
  let arxiv_id := Py.get "arxiv_id" "unknown_result" result in
  let '(self, processed_in_batch_count) :=
    if Py.has_key "error" result then (self, processed_in_batch_count)
    else if Py.has_key "markdown" result then
      (set_dataset_file (dataset_file self ++ [result]) self,
       (processed_in_batch_count + 1)%Z)
    else (self, processed_in_batch_count) in
  if Py.has_key "batch_error" result then (self, processed_in_batch_count)
  else (update_checkpoint self arxiv_id, processed_in_batch_count).

Definition _process_batch_results (self : processor) (batch_results : Py.value)
    (current_batch_info : list Py.dict) : processor * Z :=
  match batch_results with
  | Py.Other =>
      (fold_left
         (fun self paper_info =>
            update_checkpoint self (Py.get "arxiv_id" "unknown_batch_error" paper_info))
         current_batch_info self, 0%Z)
  | Py.List results => fold_left process_result results (self, 0%Z)
  end.

(** *** [list_papers] *)

(** The entries of [paper_versions].  The dictionary keeps its keys in
    insertion order, and assigning to a key that is present keeps the key
    where it is: an association list updated in place. *)
Record version_entry := mkEntry {
  version : Z;
  full_id : string;
  url : string
}.

Fixpoint versions_lookup (base_id : string) (paper_versions : list (string * version_entry))
    : option version_entry :=
  match paper_versions with
  | [] => None
  | (k, e) :: rest => if bool_decide (k = base_id) then Some e else versions_lookup base_id rest
  end.

Fixpoint versions_set (base_id : string) (e : version_entry)
    (paper_versions : list (string * version_entry)) : list (string * version_entry) :=
  match paper_versions with
  | [] => [(base_id, e)]
  | (k, e0) :: rest =>
      if bool_decide (k = base_id) then (k, e) :: rest
      else (k, e0) :: versions_set base_id e rest
  end.

(** From a URL to [(base_id, version_num, paper_id)]. *)
Definition parse_url (url : string) : string * Z * string :=
  let filename := List.last (Py.split "/" url) "" in
  let paper_id := Py.remove_pdf filename in
  match Py.rsplit_v paper_id with
  | Some (base_id, version_str) => (base_id, default 1%Z (py_int version_str), paper_id)
  | None => (paper_id, 1%Z, paper_id)
  end.

(** The body of [for url in paper_urls]. *)
Definition record_version (paper_versions : list (string * version_entry)) (url : string)
    : list (string * version_entry) :=
  if bool_decide (url = "") then paper_versions
  else
    let '(base_id, version_num, paper_id) := parse_url url in
    let e := mkEntry version_num paper_id url in
    match versions_lookup base_id paper_versions with
    | None => versions_set base_id e paper_versions
    | Some cur =>
        if bool_decide (version cur < version_num)%Z
        then versions_set base_id e paper_versions
        else paper_versions
    end.

Fixpoint select_new (self : processor) (new_papers : list Py.dict)
    (items : list (string * version_entry)) : list Py.dict :=
  match items with
  | [] => new_papers
  | (_, paper_info) :: rest =>
      if bool_decide (full_id paper_info ∈ processed_ids self)
      then select_new self new_papers rest
      else select_new self
             (new_papers ++ [ {[ "arxiv_id" := full_id paper_info; "url" := url paper_info ]} ])
             rest
  end.

Definition listed_urls (stdout : string) : list string :=
  List.filter (fun url => negb (bool_decide (Py.strip url = "")))
    (Py.split "010"%char (Py.strip stdout)).

(** [returncode] and [stdout] are those of [gsutil ls]. *)
Definition list_papers (self : processor) (returncode : Z) (stdout : string) : list Py.dict :=
  if bool_decide (returncode = 0%Z) then
    let paper_urls := listed_urls stdout in
    let paper_versions := fold_left record_version paper_urls [] in
    select_new self [] paper_versions
  else [].

(** *** [download_paper] and [downloader_thread] *)

(** [None] on every failure: a non-zero exit of gsutil, its timeout, any
    other exception, a missing ["url"].  A paper without ["arxiv_id"] makes
    the handler raise in turn; the loop of [downloader_thread] catches that
    and does what it does for [None], so it is [None] here as well. *)
Definition download_paper (paper : Py.dict) : option Py.dict :=
  match paper !! "arxiv_id" with
  | None => None
  | Some arxiv_id =>
      let paper_dir := mkdtemp (arxiv_id +:+ "_") in
      let pdf_path := paper_dir +:+ "/" +:+ arxiv_id +:+ ".pdf" in
      match paper !! "url" with
      | None => None
      | Some url =>
          match gsutil_cp url pdf_path with
          | CpExit returncode _ =>
              if bool_decide (returncode = 0%Z)
              then Some (<[ "temp_dir" := paper_dir ]> (<[ "local_path" := pdf_path ]> paper))
              else None
          | CpTimeoutExpired => None
          | CpRaised _ => None
          end
      end
  end.

(** The operations of the downloader thread on the state it shares with the
    controller, in program order. *)
Inductive downloader_op :=
| QueuePut (item : option Py.dict)       (* [None] is the sentinel *)
| CheckpointAppend (paper_id : string).

(** The body of [for paper in papers_metadata]. *)
Definition downloader_body (paper : Py.dict) : downloader_op :=
  match download_paper paper with
  | Some paper_data => QueuePut (Some paper_data)
  | None => CheckpointAppend (Py.get "arxiv_id" "unknown" paper)
  end.

Fixpoint downloader_loop (ops : list downloader_op) (papers_metadata : list Py.dict)
    : list downloader_op :=
  match papers_metadata with
  | [] => ops
  | paper :: rest => downloader_loop (ops ++ [downloader_body paper]) rest
  end.

(** The [finally] clause publishes the sentinel after the loop. *)
Definition downloader_thread (papers_metadata : list Py.dict) : list downloader_op :=
  downloader_loop [] papers_metadata ++ [QueuePut None].

(** *** [run]: the controller loop next to the downloader thread

    The downloader thread and the controller share the queue and the
    checkpoint file.  Their interleaving is a sequence of [event]s chosen by
    the scheduler and the environment; [step] is what one event does. *)

(** The isolated executor of one batch, as the controller observes it. *)
Inductive executor :=
| WorkerPuts (batch_error : option (nat * string))  (* the worker's list arrives in time *)
| WorkerPutsJoinRaises (batch_error : option (nat * string)) (msg : string)
| WorkerSilent                                  (* hang or crash: the deadline elapses *)
| ManagementRaises (msg : string).

Definition executor_wait (ex : executor) (paper_batch_info : list Py.dict) : wait_outcome :=
  match ex with
  | WorkerPuts batch_error =>
      Delivered (Py.List (batch_convert_worker batch_error paper_batch_info))
  | WorkerPutsJoinRaises batch_error msg =>
      DeliveredJoinRaised (Py.List (batch_convert_worker batch_error paper_batch_info)) msg
  | WorkerSilent => QueueEmpty
  | ManagementRaises msg => WaitRaised msg
  end.

(** The body of [if current_batch_info:] in [run]: convert the batch, then
    record the results.  [inl e] when [proc.start()] raised [e]. *)
Definition run_batch (self : processor) (current_batch_info : list Py.dict)
    (start_error : option string) (proc : child) (ex : executor)
    : processor * (string + Z) :=
  match convert_batch_with_process_timeout self current_batch_info (batch_timeout self)
          start_error proc (executor_wait ex current_batch_info) with
  | (self, _, inl e) => (self, inl e)
  | (self, _, inr batch_results) =>
      let '(self, processed_count) :=
        _process_batch_results self batch_results current_batch_info in
      (self, inr processed_count)
  end.

(** Where the controller is in [run]. *)
Inductive controller_pc :=
| Gathering (current_batch_info : list Py.dict)   (* in the [while] of [_gather_batch] *)
| TimedOut (current_batch_info : list Py.dict)    (* in its [except queue.Empty] *)
| Gathered (current_batch_info : list Py.dict) (batch_full done_downloading : bool)
| Complete                                        (* [processing_complete] *)
| Crashed (msg : string).                         (* an exception left [run] *)

Record pipeline := mkPipeline {
  controller : processor;
  downloader : list downloader_op;          (* what the thread has still to do *)
  paper_queue : list (option Py.dict);
  pc : controller_pc;
  history : list (list Py.dict * executor)  (* batches submitted so far; not program state *)
}.

Definition submitted (s : pipeline) : list (list Py.dict) := map fst (history s).

Inductive event :=
| Download                  (* the downloader thread performs its next operation *)
| QueueGet                  (* [paper_queue.get(timeout=600)] returns *)
| QueueGetTimeout           (* ... or raises [queue.Empty] *)
| LivenessCheck             (* the test in the handler of [queue.Empty] *)
| RunBody (start_error : option string) (proc : child) (ex : executor).

(** [queue.Queue.put] returns at once unless [0 < maxsize <= qsize]. *)
Definition put_ready (maxsize : Z) (q : list (option Py.dict)) : bool :=
  bool_decide (maxsize <= 0)%Z || bool_decide (Z.of_nat (length q) < maxsize)%Z.

(** The test of [while len(current_batch_info) < self.batch_size]; its
    [else] branch sets [batch_full]. *)
Definition loop_head (self : processor) (current_batch_info : list Py.dict) : controller_pc :=
  if bool_decide (Z.of_nat (length current_batch_info) < batch_size self)%Z
  then Gathering current_batch_info
  else Gathered current_batch_info true false.

Definition step (s : pipeline) (e : event) : option pipeline :=
  match pc s, e with
  | Complete, _ => None
  | Crashed _, _ => None
  | _, Download =>
      match downloader s with
      | QueuePut item :: rest =>
          if put_ready (queue_maxsize (controller s)) (paper_queue s)
          then Some (mkPipeline (controller s) rest (paper_queue s ++ [item]) (pc s) (history s))
          else None
      | CheckpointAppend paper_id :: rest =>
          Some (mkPipeline (update_checkpoint (controller s) paper_id) rest
                  (paper_queue s) (pc s) (history s))
      | [] => None
      end
  | Gathering current_batch_info, QueueGet =>
      match paper_queue s with
      | Some paper_data :: q =>
          Some (mkPipeline (controller s) (downloader s) q
                  (loop_head (controller s) (current_batch_info ++ [paper_data])) (history s))
      | None :: q =>
          Some (mkPipeline (controller s) (downloader s) q
                  (Gathered current_batch_info false true) (history s))
      | [] => None
      end
  | Gathering current_batch_info, QueueGetTimeout =>
      match paper_queue s with
      | [] => Some (mkPipeline (controller s) (downloader s) [] (TimedOut current_batch_info)
                      (history s))
      | _ :: _ => None
      end
  | TimedOut current_batch_info, LivenessCheck =>
      let downloader_alive := negb (bool_decide (downloader s = [])) in
      let queue_empty := bool_decide (paper_queue s = []) in
      Some (mkPipeline (controller s) (downloader s) (paper_queue s)
              (Gathered current_batch_info false (negb downloader_alive && queue_empty))
              (history s))
  | Gathered current_batch_info batch_full done_downloading, RunBody start_error proc ex =>
      let next := if negb batch_full && done_downloading then Complete
                  else loop_head (controller s) [] in
      match current_batch_info with
      | [] => Some (mkPipeline (controller s) (downloader s) (paper_queue s) next (history s))
      | _ :: _ =>
          let h := history s ++ [(current_batch_info, ex)] in
          match run_batch (controller s) current_batch_info start_error proc ex with
          | (self, inl e) =>
              Some (mkPipeline self (downloader s) (paper_queue s) (Crashed e) h)
          | (self, inr _) =>
              Some (mkPipeline self (downloader s) (paper_queue s) next h)
          end
      end
  | _, _ => None
  end.

Fixpoint exec (s : pipeline) (events : list event) : option pipeline :=
  match events with
  | [] => Some s
  | e :: rest =>
      match step s e with
      | Some s' => exec s' rest
      | None => None
      end
  end.

(** [run] after a non-empty [list_papers]: the thread is started and the
    controller enters its first [_gather_batch]. *)
Definition start (self : processor) (papers_metadata : list Py.dict) : pipeline :=
  mkPipeline self (downloader_thread papers_metadata) [] (loop_head self []) [].

End Embedding.

(** ** Vocabulary of the statements *)

(** The identifier the worker and the failure handler read from a paper. *)
Definition paper_id (paper : Py.dict) : string := Py.get "arxiv_id" "unknown" paper.

(** The three shapes of result dictionaries the pipeline produces. *)
Definition success (arxiv_id markdown : string) : Py.dict :=
  {[ "arxiv_id" := arxiv_id; "markdown" := markdown ]}.

Definition failure (arxiv_id reason : string) : Py.dict :=
  {[ "arxiv_id" := arxiv_id; "error" := reason ]}.

Definition batch_marker (reason : string) : Py.dict :=
  {[ "batch_error" := reason ]}.

Definition is_success (result : Py.dict) : bool :=
  Py.has_key "markdown" result && negb (Py.has_key "error" result)
  && negb (Py.has_key "batch_error" result).

Definition is_failure (result : Py.dict) : bool :=
  Py.has_key "error" result && negb (Py.has_key "batch_error" result).

(** The identifiers recorded in the JSONL dataset. *)
Definition logged_ids (dataset : list Py.dict) : list string :=
  omap (fun record => record !! "arxiv_id") dataset.

(** Appending a list of identifiers to the checkpoint file, one call of
    [update_checkpoint] each. *)
Definition checkpoint_all (self : processor) (ids : list string) : processor :=
  fold_left update_checkpoint ids self.

(** How often an identifier occurs among the lines of the checkpoint file. *)
Definition occurrences (paper_id : string) (lines : list string) : nat :=
  length (List.filter (fun line => bool_decide (line = paper_id)) lines).

(** The escalation of [_terminate_process] written out. *)
Definition escalation (proc : child) : list proc_action :=
  if alive_after_terminate proc
  then if kill_raises proc
       then [ProcTerminate; ProcJoinFor 5; ProcKill 9]
       else [ProcTerminate; ProcJoinFor 5; ProcKill 9; ProcJoinFor 1]
  else [ProcTerminate; ProcJoinFor 5].

(** The fields of the controller that no method of the pipeline assigns. *)
Definition same_settings (self self' : processor) : Prop :=
  batch_size self' = batch_size self /\
  prefetch_factor self' = prefetch_factor self /\
  batch_timeout self' = batch_timeout self /\
  processed_ids self' = processed_ids self.

(** The identifiers a result list makes [_process_batch_results] append to
    the checkpoint file, and the records it appends to the dataset. *)
Definition results_checkpointed (results : list Py.dict) : list string :=
  map (Py.get "arxiv_id" "unknown_result")
    (List.filter (fun result => negb (Py.has_key "batch_error" result)) results).

Definition results_logged (results : list Py.dict) : list Py.dict :=
  List.filter (fun result => negb (Py.has_key "error" result) && Py.has_key "markdown" result)
    results.

(** The results the worker and the failure handler build. *)
Definition conversion_result (result : Py.dict) : Prop :=
  (exists arxiv_id markdown, result = success arxiv_id markdown)
  \/ (exists arxiv_id reason, result = failure arxiv_id reason)
  \/ (exists reason, result = batch_marker reason).

(** The items of a batch whose results the worker has delivered: all of
    them, or those whose result had been gathered when the exception that
    ended the batch was raised; and the other items, which get no result. *)
Definition delivered_items (batch_error : option (nat * string)) (batch : list Py.dict)
    : list Py.dict :=
  match batch_error with
  | None => batch
  | Some (gathered, _) => take gathered batch
  end.


(** The lines one batch adds to the checkpoint file, by what its executor
    did: one per delivered result when the worker's list arrived (one per
    item, or, with a batch-level marker, one per result gathered before it),
    and two per item when the failure handler ran, because the handler and
    the processing of the Failures it returns both append. *)
Definition appended_lines (ex : executor) (batch : list Py.dict) : list string :=
  match ex with
  | WorkerPuts batch_error => map paper_id (delivered_items batch_error batch)
  | WorkerPutsJoinRaises _ _ | WorkerSilent | ManagementRaises _ =>
      map paper_id batch ++ map paper_id batch
  end.

(** Where an identifier can be while its paper is in the pipeline: in an
    operation the downloader thread has still to perform, in the queue, or in
    the batch the controller is holding. *)
Definition op_id (op : downloader_op) : option string :=
  match op with
  | QueuePut (Some paper_data) => Some (paper_id paper_data)
  | QueuePut None => None
  | CheckpointAppend arxiv_id => Some arxiv_id
  end.

Definition pc_batch (pc : controller_pc) : list Py.dict :=
  match pc with
  | Gathering current_batch_info => current_batch_info
  | TimedOut current_batch_info => current_batch_info
  | Gathered current_batch_info _ _ => current_batch_info
  | Complete => []
  | Crashed _ => []
  end.






(** The controller has not seen the end of the stream. *)
Definition pc_live (pc : controller_pc) : Prop :=
  match pc with
  | Complete => False
  | Gathered _ false true => False
  | _ => True
  end.

(** What the loop test of [_gather_batch] guarantees about the batch held. *)
Definition pc_sized (self : processor) (pc : controller_pc) : Prop :=
  match pc with
  | Gathering current_batch_info
  | TimedOut current_batch_info
  | Gathered current_batch_info false _ =>
      (Z.of_nat (length current_batch_info) < batch_size self)%Z
  | Gathered current_batch_info true _ =>
      current_batch_info = [] \/ Z.of_nat (length current_batch_info) = batch_size self
  | Complete => True
  | Crashed _ => True
  end.

(** ... and, when no [get] has timed out, about the flags. *)
Definition pc_untimed (pc : controller_pc) : Prop :=
  match pc with
  | TimedOut _ => False
  | Gathered _ false done_downloading => done_downloading = true
  | _ => True
  end.

Definition full_batch (self : processor) (batch : list Py.dict) : Prop :=
  Z.of_nat (length batch) = batch_size self.

(** Every submitted batch is full, except possibly the last one once the
    run has ended. *)
Definition batches_full (self : processor) (pc : controller_pc)
    (batches : list (list Py.dict)) : Prop :=
  match pc with
  | Complete | Crashed _ => Forall (full_batch self) (removelast batches)
  | _ => Forall (full_batch self) batches
  end.


(** The three phases of the stream: the thread is running and has not yet
    published the sentinel; the sentinel is the last entry of the queue; the
    sentinel has been consumed. *)
Definition stream_phase (mkdtemp : string -> string)
    (gsutil_cp : string -> string -> cp_outcome) (s : pipeline) : Prop :=
  (exists rest,
      downloader s = map (downloader_body mkdtemp gsutil_cp) rest ++ [QueuePut None]
      /\ Forall is_Some (paper_queue s) /\ pc_live (pc s))
  \/ (downloader s = []
      /\ (exists q, paper_queue s = q ++ [None] /\ Forall is_Some q)
      /\ pc_live (pc s))
  \/ (downloader s = [] /\ paper_queue s = []).

(** The base identifier [list_papers] derives from a full identifier. *)
Definition base_of (paper_id : string) : string :=
  match Py.rsplit_v paper_id with
  | Some (base_id, _) => base_id
  | None => paper_id
  end.

(** The paper dictionary [list_papers] builds for a kept entry. *)
Definition new_paper (arxiv_id url : string) : Py.dict :=
  {[ "arxiv_id" := arxiv_id; "url" := url ]}.

(** [url] is the entry of [paper_urls] kept for [base_id]: it has that base
    identifier, no entry with the same base identifier has a higher
    version, and those listed before it have a strictly lower one. *)
Definition kept (py_int : string -> option Z) (paper_urls : list string)
    (base_id url : string) (version_num : Z) (paper_id : string) : Prop :=
  exists before after,
    paper_urls = before ++ url :: after
    /\ parse_url py_int url = (base_id, version_num, paper_id)
    /\ (forall url' version' paper_id',
          url' ∈ before ->
          parse_url py_int url' = (base_id, version', paper_id') ->
          (version' < version_num)%Z)
    /\ (forall url' version' paper_id',
          url' ∈ after ->
          parse_url py_int url' = (base_id, version', paper_id') ->
          (version' <= version_num)%Z).

(** [paper_versions] after the loop has gone through [paper_urls]. *)
Definition versions_of (py_int : string -> option Z) (paper_urls : list string)
    (paper_versions : list (string * version_entry)) : Prop :=
  NoDup (map fst paper_versions)
  /\ (forall base_id e,
        versions_lookup base_id paper_versions = Some e ->
        kept py_int paper_urls base_id (url e) (version e) (full_id e))
  /\ (forall url base_id version_num paper_id,
        url ∈ paper_urls ->
        parse_url py_int url = (base_id, version_num, paper_id) ->
        is_Some (versions_lookup base_id paper_versions)).

(** ** Vocabulary of the further properties *)

(** The papers [download_paper] fetches, in the order of the listing. *)
Definition fetched_papers (mkdtemp : string -> string)
    (gsutil_cp : string -> string -> cp_outcome) (papers_metadata : list Py.dict)
    : list Py.dict :=
  omap (download_paper mkdtemp gsutil_cp) papers_metadata.

(** The paper an operation of the downloader thread publishes, if any. *)
Definition op_item (op : downloader_op) : option Py.dict :=
  match op with
  | QueuePut item => item
  | CheckpointAppend _ => None
  end.

(** The fetched papers of a state, oldest first: those already submitted,
    those in the batch being gathered, those in the queue, and those the
    downloader thread has still to publish. *)
Definition in_order (s : pipeline) : list Py.dict :=
  concat (submitted s) ++ pc_batch (pc s)
  ++ omap id (paper_queue s) ++ omap op_item (downloader s).

(** The papers whose results a worker has delivered. *)
Definition converted_papers (history : list (list Py.dict * executor)) : list Py.dict :=
  flat_map (fun entry =>
              match snd entry with
              | WorkerPuts batch_error => delivered_items batch_error (fst entry)
              | _ => []
              end) history.


(** The controller has left its loop. *)
Definition terminal (pc : controller_pc) : bool :=
  match pc with
  | Complete => true
  | Crashed _ => true
  | _ => false
  end.

(** The batches whose executor was started: when [proc.start()] raised, the
    last batch handed to [convert_batch_with_process_timeout] was not. *)
Definition started (s : pipeline) : list (list Py.dict * executor) :=
  match pc s with
  | Crashed _ => removelast (history s)
  | _ => history s
  end.

(** The beginning of [run]: the listing, and the early return when it holds
    no new paper; otherwise the thread is started and the loop is entered. *)
Definition run_begin (mkdtemp : string -> string)
    (gsutil_cp : string -> string -> cp_outcome) (py_int : string -> option Z)
    (self : processor) (returncode : Z) (stdout : string) : option pipeline :=
  match list_papers py_int self returncode stdout with
  | [] => None
  | papers_metadata => Some (start mkdtemp gsutil_cp self papers_metadata)
  end.

(** The records a run has appended to the dataset. *)
Definition appended_records (path_exists : string -> bool)
    (convert : string -> string -> conversion) (s : pipeline) : list Py.dict :=
  results_logged (map (convert_paper path_exists convert) (converted_papers (started s))).

(** ** Figures in the markdown ([utils/conversion.py], [utils/storage.py]) *)

(** [s[n:]] *)
Fixpoint skip (n : nat) (s : string) : string :=
  match n, s with
  | S n', String _ s' => skip n' s'
  | _, _ => s
  end.

(** [s.replace(old, new, 1)]: the leftmost occurrence of [old] is replaced. *)
Fixpoint replace_first (old new s : string) : string :=
  if String.prefix old s then new +:+ skip (String.length old) s
  else match s with
       | EmptyString => EmptyString
       | String c s' => String c (replace_first old new s')
       end.

(** [old in s] *)
Fixpoint contains (old s : string) : bool :=
  String.prefix old s
  || match s with
     | EmptyString => false
     | String _ s' => contains old s'
     end.

(** The placeholder [export_to_markdown] is asked to leave for a picture. *)
Definition image_placeholder : string := "<!-- image -->".

(** [f"![image]({url})"] *)
Definition image_link (url : string) : string := "![image](" +:+ url +:+ ")".

(** The loop over [image_urls] after the export: each URL replaces the
    leftmost placeholder of the markdown as it then is. *)
Definition embed_images (markdown : string) (image_urls : list string) : string :=
  fold_left (fun markdown url => replace_first image_placeholder (image_link url) markdown)
    image_urls markdown.

(** [f"{arxiv_id}-figure-{figure_id}.jpg"] *)
Definition image_filename (arxiv_id figure_id : string) : string :=
  arxiv_id +:+ "-figure-" +:+ figure_id +:+ ".jpg".

(** The public URL [upload_to_r2] returns once the object has been put. *)
Definition upload_to_r2 (filename : string) : string :=
  "https://ac.marcodsn.me/arxiv-markdown-images/" +:+ filename.

(** A markdown text cut at its placeholders: the text after each
    placeholder, with the placeholders filled by the links of [urls] from
    the left as far as they reach. *)
Fixpoint filled (segments urls : list string) : string :=
  match segments with
  | [] => ""
  | segment :: segments' =>
      match urls with
      | [] => image_placeholder +:+ segment +:+ filled segments' []
      | url :: urls' => image_link url +:+ segment +:+ filled segments' urls'
      end
  end.

(** A character occurs in a string. *)
Fixpoint has_char (c : ascii) (s : string) : bool :=
  match s with
  | EmptyString => false
  | String c' s' => bool_decide (c' = c) || has_char c s'
  end.

(** The last character of a string. *)
Fixpoint last_char (s : string) : option ascii :=
  match s with
  | EmptyString => None
  | String c EmptyString => Some c
  | String _ s' => last_char s'
  end.

(** ** The upload script ([scripts/upload_to_hf.py])

    The script reads the JSONL files the pipeline has written, fetches the
    metadata of the papers from the arXiv API in batches, and enriches every
    record with it.  The metadata cache is a finite map from identifiers to
    metadata dictionaries; the API is a function from the identifiers
    requested to what the client returns. *)

Module Upload.

(** The values of the metadata fields: [None], a string, a list of
    strings. *)
Inductive json :=
| JNull
| JStr (s : string)
| JList (l : list string).

Abbreviation metadata := (gmap string json).

(** What the script reads from one result of the arXiv client. *)
Record api_result := mkResult {
  entry_id : string;
  get_short_id : string;
  doi : option string;
  authors : list string;
  published : option string;      (* [published.isoformat()], if any *)
  updated : option string;
  categories : list string;
  title : string;
  summary : string
}.

(** [list(client.results(search))]: the results, or an exception. *)
Inductive api_outcome :=
| ApiResults (results : list api_result)
| ApiRaised.

Definition optional (v : option string) : json :=
  match v with
  | Some s => JStr s
  | None => JNull
  end.

Definition result_metadata (result : api_result) : metadata :=
  {[ "paper_doi" := optional (doi result);
     "paper_authors" := JList (authors result);
     "paper_published_date" := optional (published result);
     "paper_updated_date" := optional (updated result);
     "categories" := JList (categories result);
     "title" := JStr (title result);
     "summary" := JStr (summary result) ]}.

(** The dictionary of a paper without metadata. *)
Definition empty_metadata : metadata :=
  {[ "paper_doi" := JNull;
     "paper_authors" := JList [];
     "paper_published_date" := JNull;
     "paper_updated_date" := JNull;
     "categories" := JList [];
     "title" := JNull;
     "summary" := JNull ]}.

(** [s.split('v')[0]] *)
Definition before_v (s : string) : string := hd "" (Py.split "v" s).

(** [metadata_map[dst] = metadata_map[src]]; [src] is present at every
    call. *)
Definition copy_entry (src dst : string) (metadata_map : gmap string metadata)
    : gmap string metadata :=
  match metadata_map !! src with
  | Some entry => <[ dst := entry ]> metadata_map
  | None => metadata_map
  end.

(** [result.entry_id.split('/')[-1].split('v')[0]] *)
Definition base_key (result : api_result) : string :=
  before_v (List.last (Py.split "/" (entry_id result)) "").

(** The body of [for result in results]. *)
Definition store_result (metadata_map : gmap string metadata) (result : api_result)
    : gmap string metadata :=
  let base_id := base_key result in
  let metadata_map := <[ base_id := result_metadata result ]> metadata_map in
  copy_entry base_id (get_short_id result) metadata_map.

(** The body of the loop in the [except] clause. *)
Definition store_default (metadata_map : gmap string metadata) (an_id : string)
    : gmap string metadata :=
  let base_id := before_v an_id in
  let metadata_map := <[ base_id := empty_metadata ]> metadata_map in
  copy_entry base_id an_id metadata_map.

(** The body of the last loop: every requested identifier gets an entry. *)
Definition ensure_entry (metadata_map : gmap string metadata) (an_id : string)
    : gmap string metadata :=
  let base_id := before_v an_id in
  let metadata_map :=
    if bool_decide (is_Some (metadata_map !! base_id)) then metadata_map
    else <[ base_id := empty_metadata ]> metadata_map in
  if bool_decide (is_Some (metadata_map !! an_id)) then metadata_map
  else copy_entry base_id an_id metadata_map.

(** A key the map has nothing for, or the empty metadata. *)
Definition unset (metadata_map : gmap string metadata) (k : string) : Prop :=
  metadata_map !! k = None \/ metadata_map !! k = Some empty_metadata.

Definition get_arxiv_metadata_batch (outcome : api_outcome) (arxiv_ids : list string)
    : gmap string metadata :=
  let metadata_map :=
    match outcome with
    | ApiResults results => fold_left store_result results ∅
    | ApiRaised => fold_left store_default arxiv_ids ∅
    end in
  fold_left ensure_entry arxiv_ids metadata_map.

(** Step 1.  A line of a JSONL file is a JSON object with string values, as
    the pipeline writes it, or [None] when it is not valid JSON.  A record
    with both keys is kept, with its clean identifier added. *)
Definition read_line (line : option Py.dict) : option Py.dict :=
  match line with
  | Some record =>
      match record !! "arxiv_id", record !! "markdown" with
      | Some arxiv_id, Some _ => Some (<[ "clean_arxiv_id" := before_v arxiv_id ]> record)
      | _, _ => None
      end
  | None => None
  end.

Definition read_records (jsonl_files : list (list (option Py.dict))) : list Py.dict :=
  flat_map (omap read_line) jsonl_files.

(** Step 2.  [sorted(list(set(...)))], strings compared byte by byte. *)
Definition str_le (s1 s2 : string) : Prop := String.leb s1 s2 = true.

#[global] Instance str_le_dec : RelDecision str_le :=
  fun s1 s2 => decide (String.leb s1 s2 = true).

Definition unique_arxiv_ids (all_data : list Py.dict) : list string :=
  merge_sort str_le (remove_dups (omap (fun item => item !! "clean_arxiv_id") all_data)).

Definition missing_ids (all_metadata : gmap string metadata) (ids : list string)
    : list string :=
  List.filter (fun id => negb (bool_decide (is_Some (all_metadata !! id)))) ids.

Definition BATCH_SIZE_ARXIV_API : nat := 100.

(** [range(0, stop, step)] for a positive [step]. *)
Definition py_range (stop step : nat) : list nat :=
  map (fun k => k * step) (seq 0 ((stop + step - 1) / step)).

(** The slices [missing_ids[i:i + BATCH_SIZE_ARXIV_API]] of the fetch loop. *)
Definition id_batches (missing : list string) : list (list string) :=
  map (fun i => take BATCH_SIZE_ARXIV_API (drop i missing))
    (py_range (length missing) BATCH_SIZE_ARXIV_API).

(** The fetch loop: [all_metadata.update(batch_metadata)] for every slice. *)
Definition fetch_missing (api : list string -> api_outcome)
    (all_metadata : gmap string metadata) (missing : list string) : gmap string metadata :=
  fold_left
    (fun all_metadata batch_ids =>
       get_arxiv_metadata_batch (api batch_ids) batch_ids ∪ all_metadata)
    (id_batches missing) all_metadata.

(** Step 3.  [{"arxiv_id": ..., "markdown": ..., **metadata}]: the keys of
    the metadata come last.  [None] is a [KeyError]. *)
Definition enrich (all_metadata : gmap string metadata) (record : Py.dict)
    : option (gmap string json) :=
  match record !! "clean_arxiv_id", record !! "arxiv_id", record !! "markdown" with
  | Some clean_arxiv_id, Some arxiv_id, Some markdown =>
      let metadata := default empty_metadata (all_metadata !! clean_arxiv_id) in
      Some (metadata ∪ {[ "arxiv_id" := JStr arxiv_id; "markdown" := JStr markdown ]})
  | _, _, _ => None
  end.

(** Steps 1 to 3: the metadata after the fetch and the enriched records.
    [None] when the script exits because no record was read, or stops on an
    exception. *)
Definition enriched_data (api : list string -> api_outcome)
    (jsonl_files : list (list (option Py.dict))) (cache : gmap string metadata)
    : option (gmap string metadata * list (gmap string json)) :=
  let all_data := read_records jsonl_files in
  match all_data with
  | [] => None
  | _ =>
      let missing := missing_ids cache (unique_arxiv_ids all_data) in
      let all_metadata := fetch_missing api cache missing in
      enriched ← mapM (enrich all_metadata) all_data;
      Some (all_metadata, enriched)
  end.

End Upload.

(** ** A concrete environment, for closed examples *)

Module Example.

Definition path_exists (path : string) : bool := true.

(** Every paper converts, except ["2101.00005v1"]. *)
Definition convert (arxiv_id local_path : string) : conversion :=
  if bool_decide (arxiv_id = "2101.00005v1") then ConversionRaised "docling failed"
  else Converted ("# " +:+ arxiv_id).

Definition mkdtemp (prefix : string) : string := "/tmp/arxiv_processing_0/" +:+ prefix.

(** Six papers whose download runs into the 120 seconds timeout. *)
Definition stalled : list string :=
  ["2101.90001v1"; "2101.90002v1"; "2101.90003v1";
   "2101.90004v1"; "2101.90005v1"; "2101.90006v1"].

(** Every download succeeds, gsutil reporting on its standard error as it
    does, except the one of [gs://b/2101.00002v1.pdf], which gsutil refuses,
    and those of the [stalled] papers. *)
Definition gsutil_cp (url pdf_path : string) : cp_outcome :=
  if bool_decide (url = "gs://b/2101.00002v1.pdf") then CpExit 1 "No URLs matched"
  else if bool_decide (url ∈ map (fun arxiv_id => "gs://b/" +:+ arxiv_id +:+ ".pdf") stalled)
  then CpTimeoutExpired
  else CpExit 0 "Operation completed over 1 objects.".

Fixpoint digits (acc : Z) (s : string) : option Z :=
  match s with
  | EmptyString => Some acc
  | String c s' =>
      let n := nat_of_ascii c in
      if (48 <=? n)%nat && (n <=? 57)%nat
      then digits (10 * acc + Z.of_nat (n - 48))%Z s'
      else None
  end.

(** [int] on the plain decimal numerals. *)
Definition py_int (s : string) : option Z :=
  match s with
  | EmptyString => None
  | _ => digits 0 s
  end.

Definition paper (arxiv_id : string) : Py.dict :=
  {[ "arxiv_id" := arxiv_id; "url" := "gs://b/" +:+ arxiv_id +:+ ".pdf" ]}.

(** A paper as [download_paper] returns it. *)
Definition fetched (arxiv_id : string) : Py.dict :=
  <[ "temp_dir" := mkdtemp (arxiv_id +:+ "_") ]>
    (<[ "local_path" := mkdtemp (arxiv_id +:+ "_") +:+ "/" +:+ arxiv_id +:+ ".pdf" ]>
       (paper arxiv_id)).

Definition proc : child := mkChild true false.

(** Batch size 2, prefetch factor 1, 300 seconds per paper, empty files. *)
Definition self : processor := init 2 1 300 [] [].

(** Three papers; the download of the second one fails. *)
Definition papers : list Py.dict :=
  [paper "2101.00001v1"; paper "2101.00002v1"; paper "2101.00003v1"].

Definition pipeline_start : pipeline := start mkdtemp gsutil_cp self papers.

(** A complete run: the two fetched papers form one full batch, then the
    sentinel ends the stream. *)
Definition events : list event :=
  [Download; Download; Download; QueueGet; QueueGet;
   RunBody None proc (WorkerPuts None);
   Download; QueueGet; RunBody None proc (WorkerPuts None)].

Definition pipeline_end : pipeline :=
  Eval vm_compute in default pipeline_start (exec path_exists convert pipeline_start events).

(** The state after the three downloads: the queue holds two papers. *)
Definition pipeline_full : pipeline :=
  Eval vm_compute in
    default pipeline_start
      (exec path_exists convert pipeline_start [Download; Download; Download]).

(** A run in which a [get] on the empty queue times out while the downloader
    is still alive: after the first paper, five downloads in a row time out
    after 120 seconds each, so nothing is put for 600 seconds. *)
Definition papers_slow : list Py.dict :=
  paper "2101.00001v1" :: map paper stalled
  ++ [paper "2101.00003v1"; paper "2101.00004v1"].

Definition events_slow : list event :=
  [Download; QueueGet;
   Download; Download; Download; Download; Download;
   QueueGetTimeout; LivenessCheck;
   RunBody None proc (WorkerPuts None);
   Download; Download; Download; QueueGet; QueueGet;
   RunBody None proc (WorkerPuts None);
   Download; QueueGet; RunBody None proc (WorkerPuts None)].


(** A run of [papers] whose worker delivers the result of the first paper
    of its batch and a batch-level error marker: an exception was raised
    after that result had been gathered, outside the conversion of the
    second paper. *)
Definition events_partial : list event :=
  [Download; Download; Download; QueueGet; QueueGet;
   RunBody None proc (WorkerPuts (Some (1%nat, "[Errno 32] Broken pipe")));
   Download; QueueGet; RunBody None proc (WorkerPuts None)].

Definition pipeline_partial_end : pipeline :=
  Eval vm_compute in
    default pipeline_start (exec path_exists convert pipeline_start events_partial).

(** Five papers that all download, and their run in three batches, in
    which no [get] on the queue times out. *)
Definition papers_many : list Py.dict :=
  map paper ["2101.00001v1"; "2101.00003v1"; "2101.00004v1"; "2101.00005v1"; "2101.00006v1"].

Definition events_many : list event :=
  [Download; Download; QueueGet; QueueGet; RunBody None proc (WorkerPuts None);
   Download; Download; QueueGet; QueueGet; RunBody None proc (WorkerPuts None);
   Download; Download; QueueGet; QueueGet; RunBody None proc (WorkerPuts None)].

Definition pipeline_many_end : pipeline :=
  Eval vm_compute in
    default (start mkdtemp gsutil_cp self papers_many)
      (exec path_exists convert (start mkdtemp gsutil_cp self papers_many) events_many).

(** The output of [gsutil ls]: two versions of one paper, and a file name
    without a version. *)
Definition newline : string := String "010"%char EmptyString.

Definition listing : string :=
  "gs://b/2101.00001v1.pdf" +:+ newline +:+
  "gs://b/2101.00001v2.pdf" +:+ newline +:+
  "gs://b/2101.00007.pdf" +:+ newline.

(** A controller that starts from a checkpoint holding the first version,
    and its run over what [list_papers] returns for [listing]. *)
Definition resumed : processor := init 2 1 300 ["2101.00001v1"] [].

Definition resumed_start : pipeline :=
  start mkdtemp gsutil_cp resumed (list_papers py_int resumed 0 listing).

Definition events_resumed : list event :=
  [Download; Download; QueueGet; QueueGet;
   RunBody None proc (WorkerPuts None);
   Download; QueueGet; RunBody None proc (WorkerPuts None)].

Definition resumed_end : pipeline :=
  Eval vm_compute in
    default resumed_start (exec path_exists convert resumed_start events_resumed).

End Example.

(** ** Further concrete inputs *)

Module Scenario.

(** A controller started with [--batch-size 0], and its state after two
    downloads and two passes through the loop of [run]. *)
Definition idle : processor := init 0 3 300 [] [].

Definition events_idle : list event :=
  [Download; RunBody None Example.proc (WorkerPuts None);
   Download; RunBody None Example.proc (WorkerPuts None)].

Definition idle_end : pipeline :=
  Eval vm_compute in
    default (start Example.mkdtemp Example.gsutil_cp idle Example.papers)
      (exec Example.path_exists Example.convert
         (start Example.mkdtemp Example.gsutil_cp idle Example.papers) events_idle).

(** A listing whose first line ends with a blank, and a checkpoint file
    that holds the identifier cut out of that line, and a second identifier
    followed by a no-break space (U+00A0). *)
Definition spaced_listing : string :=
  "gs://b/2101.00001v1.pdf " +:+ Example.newline +:+ "gs://b/2101.00003v1.pdf".

Definition nbsp : string := String "160"%char EmptyString.

Definition spaced : processor :=
  mkProcessor 2 1 600 ["2101.00001v1 "; "2101.00003v1" +:+ nbsp] [] ∅ 0.

(** A markdown text with two placeholders, and the URL of one figure. *)
Definition figure_url : string :=
  upload_to_r2 (image_filename "2101.00001v1" "0b9f6c1e").

(** One result of the arXiv client, for the second version of a paper. *)
Definition api_result : Upload.api_result :=
  Upload.mkResult "http://arxiv.org/abs/2101.00001v2" "2101.00001v2"
    None ["A. Author"] (Some "2021-01-01T00:00:00+00:00") None ["cs.CL"]
    "A title" "A summary".

(** A client that raises for every request. *)
Definition api_down (arxiv_ids : list string) : Upload.api_outcome := Upload.ApiRaised.

(** A JSONL file with one record of the pipeline and one damaged line. *)
Definition jsonl_files : list (list (option Py.dict)) :=
  [[Some (success "2101.00001v1" "# 2101.00001v1"); None]].

End Scenario.

(** * Properties *)

Section Properties.

Variable path_exists : string -> bool.
Variable convert : string -> string -> conversion.
Variable mkdtemp : string -> string.
Variable gsutil_cp : string -> string -> cp_outcome.
Variable py_int : string -> option Z.

Set Default Proof Using "Type".

(** ** The checkpoint store *)

Lemma same_settings_refl self : same_settings self self.
Proof. by repeat split. Qed.

Lemma same_settings_trans self1 self2 self3 :
  same_settings self1 self2 -> same_settings self2 self3 -> same_settings self1 self3.
Proof.
  intros (A1 & A2 & A3 & A4) (B1 & B2 & B3 & B4).
  repeat split; congruence.
Qed.

Lemma update_checkpoint_settings self paper_id :
  same_settings self (update_checkpoint self paper_id).
Proof. by repeat split. Qed.

Lemma checkpoint_all_snoc self ids paper_id :
  checkpoint_all self (ids ++ [paper_id]) = update_checkpoint (checkpoint_all self ids) paper_id.
Proof. unfold checkpoint_all. by rewrite fold_left_app. Qed.

Lemma checkpoint_all_file self ids :
  checkpoint_file (checkpoint_all self ids) = checkpoint_file self ++ ids.
Proof.
  revert self. induction ids as [|i ids IH]; intros self; simpl.
  - by rewrite app_nil_r.
  - rewrite IH. simpl. by rewrite <- app_assoc.
Qed.

Lemma checkpoint_all_dataset self ids :
  dataset_file (checkpoint_all self ids) = dataset_file self.
Proof.
  revert self. induction ids as [|i ids IH]; intros self; simpl; [done|].
  by rewrite IH.
Qed.

Lemma checkpoint_all_counter self ids :
  worker_process_counter (checkpoint_all self ids) = worker_process_counter self.
Proof.
  revert self. induction ids as [|i ids IH]; intros self; simpl; [done|].
  by rewrite IH.
Qed.

Lemma checkpoint_all_settings self ids : same_settings self (checkpoint_all self ids).
Proof.
  revert self. induction ids as [|i ids IH]; intros self; simpl.
  - apply same_settings_refl.
  - eapply same_settings_trans; [apply update_checkpoint_settings | apply IH].
Qed.

(** ** The failure handler and the termination escalation *)

Lemma handle_batch_failure_loop_spec self errs batch msg :
  handle_batch_failure_loop self errs batch msg
  = (checkpoint_all self (map paper_id batch),
     errs ++ map (fun paper_info => failure (paper_id paper_info) msg) batch).
Proof.
  revert self errs. induction batch as [|paper_info batch IH]; intros self errs; simpl.
  - by rewrite app_nil_r.
  - rewrite IH. by rewrite <- app_assoc.
Qed.

Lemma handle_batch_failure_spec self batch msg :
  _handle_batch_failure self batch msg
  = (checkpoint_all self (map paper_id batch),
     map (fun paper_info => failure (paper_id paper_info) msg) batch).
Proof. unfold _handle_batch_failure. by rewrite handle_batch_failure_loop_spec. Qed.

Lemma terminate_process_escalation proc :
  _terminate_process proc = escalation proc.
Proof.
  unfold _terminate_process, escalation.
  by destruct (alive_after_terminate proc), (kill_raises proc).
Qed.

(** ** The worker *)

Lemma worker_loop_spec results_list batch :
  worker_loop path_exists convert results_list batch
  = results_list ++ map (convert_paper path_exists convert) batch.
Proof.
  revert results_list. induction batch as [|paper_info batch IH]; intros results_list; simpl.
  - by rewrite app_nil_r.
  - rewrite IH. by rewrite <- app_assoc.
Qed.

Lemma convert_paper_shape paper_info :
  (exists markdown, convert_paper path_exists convert paper_info
                    = success (paper_id paper_info) markdown)
  \/ (exists reason, convert_paper path_exists convert paper_info
                     = failure (paper_id paper_info) reason).
Proof.
  unfold convert_paper, success, failure, paper_id.
  destruct (paper_info !! "local_path") as [local_path|]; [|right; eauto].
  destruct (bool_decide (local_path = "") || negb (path_exists local_path)); [right; eauto|].
  destruct (convert _ local_path); [left|right]; eauto.
Qed.

(** ** The shapes of results *)

Lemma success_keys arxiv_id markdown :
  Py.has_key "error" (success arxiv_id markdown) = false
  /\ Py.has_key "markdown" (success arxiv_id markdown) = true
  /\ Py.has_key "batch_error" (success arxiv_id markdown) = false
  /\ success arxiv_id markdown !! "arxiv_id" = Some arxiv_id.
Proof. by vm_compute. Qed.

Lemma failure_keys arxiv_id reason :
  Py.has_key "error" (failure arxiv_id reason) = true
  /\ Py.has_key "batch_error" (failure arxiv_id reason) = false
  /\ failure arxiv_id reason !! "arxiv_id" = Some arxiv_id.
Proof. by vm_compute. Qed.

Lemma batch_marker_keys reason :
  Py.has_key "error" (batch_marker reason) = false
  /\ Py.has_key "markdown" (batch_marker reason) = false
  /\ Py.has_key "batch_error" (batch_marker reason) = true
  /\ batch_marker reason !! "arxiv_id" = None.
Proof. by vm_compute. Qed.

(** ** [_process_batch_results] *)

Lemma process_result_spec self n result :
  let out := process_result (self, n) result in
  checkpoint_file (fst out) = checkpoint_file self ++ results_checkpointed [result]
  /\ dataset_file (fst out) = dataset_file self ++ results_logged [result]
  /\ snd out = (n + Z.of_nat (length (results_logged [result])))%Z
  /\ same_settings self (fst out)
  /\ worker_process_counter (fst out) = worker_process_counter self.
Proof.
  unfold process_result, results_checkpointed, results_logged, same_settings; simpl.
  destruct (Py.has_key "error" result), (Py.has_key "markdown" result),
    (Py.has_key "batch_error" result); simpl;
    rewrite ?app_nil_r, ?Z.add_0_r; repeat split; reflexivity.
Qed.

Lemma results_checkpointed_app results1 results2 :
  results_checkpointed (results1 ++ results2)
  = results_checkpointed results1 ++ results_checkpointed results2.
Proof. unfold results_checkpointed. by rewrite List.filter_app, map_app. Qed.

Lemma results_logged_app results1 results2 :
  results_logged (results1 ++ results2) = results_logged results1 ++ results_logged results2.
Proof. unfold results_logged. by rewrite List.filter_app. Qed.

Lemma process_results_spec results self n :
  let out := fold_left process_result results (self, n) in
  checkpoint_file (fst out) = checkpoint_file self ++ results_checkpointed results
  /\ dataset_file (fst out) = dataset_file self ++ results_logged results
  /\ snd out = (n + Z.of_nat (length (results_logged results)))%Z
  /\ same_settings self (fst out)
  /\ worker_process_counter (fst out) = worker_process_counter self.
Proof.
  revert self n. induction results as [|result results IH]; intros self n.
  - simpl. rewrite !app_nil_r, Z.add_0_r. repeat split; reflexivity.
  - cbn [fold_left].
    destruct (process_result (self, n) result) as [self1 n1] eqn:E.
    pose proof (process_result_spec self n result) as S1. rewrite E in S1.
    cbn [fst snd] in S1. destruct S1 as (C1 & D1 & N1 & F1 & W1).
    specialize (IH self1 n1). cbn zeta in IH |- *.
    destruct IH as (C2 & D2 & N2 & F2 & W2).
    change (result :: results) with ([result] ++ results).
    rewrite results_checkpointed_app, results_logged_app, length_app, Nat2Z.inj_add.
    destruct F1 as (? & ? & ? & ?), F2 as (? & ? & ? & ?).
    unfold same_settings. split_and!; try congruence.
    + by rewrite C2, C1, <- app_assoc.
    + by rewrite D2, D1, <- app_assoc.
    + rewrite N2, N1. lia.
Qed.

Lemma process_batch_results_other self batch :
  _process_batch_results self Py.Other batch
  = (checkpoint_all self (map (Py.get "arxiv_id" "unknown_batch_error") batch), 0%Z).
Proof.
  unfold _process_batch_results, checkpoint_all. f_equal.
  revert self. induction batch as [|paper_info batch IH]; intros self; simpl; [done|].
  by rewrite IH.
Qed.

Lemma batch_convert_worker_spec batch_error batch :
  batch_convert_worker path_exists convert batch_error batch
  = map (convert_paper path_exists convert) (delivered_items batch_error batch)
    ++ match batch_error with
       | None => []
       | Some (_, batch_e) => [batch_marker batch_e]
       end.
Proof.
  unfold batch_convert_worker. destruct batch_error as [[gathered batch_e]|]; cbn zeta;
    rewrite worker_loop_spec; cbn [app delivered_items]; [done|by rewrite app_nil_r].
Qed.

(** C4 (as amended): with the converter initialised the worker emits one
    result per item of the batch, in batch order, each decided by its own
    item alone: a Success carrying the markdown when the conversion of that
    item returns, a Failure carrying the captured error when it raises, and a
    Failure for a missing PDF when the item has no path, an empty path or a
    path that does not exist; so a failing item does not stop the items
    after it.  When an exception reaches the outer handler the worker emits
    the results gathered so far, which are those of the first items of the
    batch, followed by one batch-level error marker carrying the error: when
    the initialisation of the converter fails, the marker alone. *)
Theorem batch_convert_worker_results (batch : list Py.dict) :
  batch_convert_worker path_exists convert None batch
  = map (convert_paper path_exists convert) batch
  /\ (forall paper_info local_path,
        paper_info !! "local_path" = Some local_path ->
        local_path <> "" ->
        path_exists local_path = true ->
        convert_paper path_exists convert paper_info
        = match convert (paper_id paper_info) local_path with
          | Converted markdown => success (paper_id paper_info) markdown
          | ConversionRaised e => failure (paper_id paper_info) e
          end)
  /\ (forall paper_info,
        paper_info !! "local_path" = None
        \/ paper_info !! "local_path" = Some ""
        \/ (exists local_path,
              paper_info !! "local_path" = Some local_path
              /\ path_exists local_path = false) ->
        convert_paper path_exists convert paper_info
        = failure (paper_id paper_info) "PDF path missing or invalid.")
  /\ (forall batch_e,
        batch_convert_worker path_exists convert (Some (0%nat, batch_e)) batch
        = [batch_marker batch_e])
  /\ (forall gathered batch_e,
        batch_convert_worker path_exists convert (Some (gathered, batch_e)) batch
        = map (convert_paper path_exists convert) (take gathered batch)
          ++ [batch_marker batch_e]).
Proof.
  split_and!.
  - unfold batch_convert_worker. by rewrite worker_loop_spec.
  - intros paper_info local_path Hpath Hne Hex.
    unfold convert_paper. rewrite Hpath, Hex.
    rewrite bool_decide_eq_false_2 by done. simpl.
    by destruct (convert _ local_path).
  - intros paper_info [Hnone|[Hempty|(local_path & Hpath & Hex)]]; unfold convert_paper.
    + by rewrite Hnone.
    + by rewrite Hempty.
    + rewrite Hpath, Hex. by rewrite orb_true_r.
  - intros batch_e. by rewrite batch_convert_worker_spec.
  - intros gathered batch_e. by rewrite batch_convert_worker_spec.
Qed.

Lemma convert_batch_cases self batch timeout proc :
  let self1 := set_worker_process_counter (worker_process_counter self + 1) self in
  let failures reason :=
    Py.List (map (fun paper_info => failure (paper_id paper_info) reason) batch) in
  convert_batch_with_process_timeout self batch timeout None proc QueueEmpty
  = (checkpoint_all self1 (map paper_id batch), ProcStart :: escalation proc,
     inr (failures ("Batch timeout after " +:+ pretty timeout +:+ "s")))
  /\ (forall e,
        convert_batch_with_process_timeout self batch timeout None proc (WaitRaised e)
        = (checkpoint_all self1 (map paper_id batch), ProcStart :: escalation proc,
           inr (failures ("Batch process management error: " +:+ e))))
  /\ (forall batch_results e,
        convert_batch_with_process_timeout self batch timeout None proc
          (DeliveredJoinRaised batch_results e)
        = (checkpoint_all self1 (map paper_id batch), ProcStart :: escalation proc,
           inr (failures ("Batch process management error: " +:+ e))))
  /\ (forall batch_results,
        convert_batch_with_process_timeout self batch timeout None proc
          (Delivered batch_results)
        = (self1, [ProcStart; ProcJoin], inr batch_results)).
Proof.
  cbn zeta. unfold convert_batch_with_process_timeout.
  split_and!; intros;
    rewrite ?handle_batch_failure_spec, ?terminate_process_escalation; reflexivity.
Qed.

(** C3 (as amended): when the deadline elapses without a result, the
    controller terminates the executor, joins it for 5 seconds, kills it if
    it is still alive, and returns exactly one Failure per item of the
    batch, in batch order, with the reason "Batch timeout after <timeout>s";
    an exception raised while waiting for the result or while joining the
    executor leads to the same escalation and to one Failure per item with a
    process management reason.  A result that arrives in time is returned
    as the executor delivered it. *)
Theorem convert_batch_with_process_timeout_outcomes
    (self : processor) (batch : list Py.dict) (timeout : Z) (proc : child) :
  let self1 := set_worker_process_counter (worker_process_counter self + 1) self in
  let failures reason :=
    Py.List (map (fun paper_info => failure (paper_id paper_info) reason) batch) in
  convert_batch_with_process_timeout self batch timeout None proc QueueEmpty
  = (checkpoint_all self1 (map paper_id batch), ProcStart :: escalation proc,
     inr (failures ("Batch timeout after " +:+ pretty timeout +:+ "s")))
  /\ (forall e,
        convert_batch_with_process_timeout self batch timeout None proc (WaitRaised e)
        = (checkpoint_all self1 (map paper_id batch), ProcStart :: escalation proc,
           inr (failures ("Batch process management error: " +:+ e))))
  /\ (forall batch_results e,
        convert_batch_with_process_timeout self batch timeout None proc
          (DeliveredJoinRaised batch_results e)
        = (checkpoint_all self1 (map paper_id batch), ProcStart :: escalation proc,
           inr (failures ("Batch process management error: " +:+ e))))
  /\ (forall batch_results,
        convert_batch_with_process_timeout self batch timeout None proc
          (Delivered batch_results)
        = (self1, [ProcStart; ProcJoin], inr batch_results)).
Proof.
  cbn zeta. unfold convert_batch_with_process_timeout. split_and!.
  - rewrite handle_batch_failure_spec, terminate_process_escalation. reflexivity.
  - intros e. rewrite handle_batch_failure_spec, terminate_process_escalation.
    reflexivity.
  - intros batch_results e.
    rewrite handle_batch_failure_spec, terminate_process_escalation. reflexivity.
  - intros batch_results. reflexivity.
Qed.

Lemma results_logged_cons result results :
  results_logged (result :: results)
  = (if negb (Py.has_key "error" result) && Py.has_key "markdown" result
     then [result] else []) ++ results_logged results.
Proof.
  unfold results_logged. cbn [List.filter].
  by destruct (negb (Py.has_key "error" result) && Py.has_key "markdown" result).
Qed.

Lemma results_checkpointed_cons result results :
  results_checkpointed (result :: results)
  = (if Py.has_key "batch_error" result then []
     else [Py.get "arxiv_id" "unknown_result" result]) ++ results_checkpointed results.
Proof.
  unfold results_checkpointed. cbn [List.filter].
  by destruct (Py.has_key "batch_error" result).
Qed.

Lemma logged_ids_app dataset1 dataset2 :
  logged_ids (dataset1 ++ dataset2) = logged_ids dataset1 ++ logged_ids dataset2.
Proof. unfold logged_ids. apply omap_app. Qed.

Lemma conversion_result_logged_checkpointed results :
  Forall conversion_result results ->
  logged_ids (results_logged results) ⊆ results_checkpointed results.
Proof.
  induction 1 as [|result results Hshape _ IH]; [done|].
  rewrite results_logged_cons, results_checkpointed_cons, logged_ids_app.
  destruct Hshape as [(arxiv_id & markdown & ->)|[(arxiv_id & reason & ->)|(reason & ->)]].
  - destruct (success_keys arxiv_id markdown) as (-> & -> & -> & Hid).
    unfold Py.get, logged_ids. cbn [negb andb omap list_omap]. rewrite Hid.
    cbn [default app]. fold (logged_ids (results_logged results)).
    intros x Hx. apply elem_of_cons in Hx as [->|Hx]; [left|right; auto].
  - destruct (failure_keys arxiv_id reason) as (-> & -> & Hid).
    cbn [negb andb]. unfold logged_ids at 1. cbn [omap list_omap app].
    intros x Hx. right. auto.
  - destruct (batch_marker_keys reason) as (-> & -> & -> & Hid).
    cbn [negb andb]. unfold logged_ids at 1. cbn [omap list_omap app].
    exact IH.
Qed.

Lemma converted_results_shape batch :
  Forall conversion_result (map (convert_paper path_exists convert) batch).
Proof.
  apply Forall_forall. intros result Hin.
  apply list_elem_of_fmap in Hin as (paper_info & -> & _).
  destruct (convert_paper_shape paper_info) as [(markdown & ->)|(reason & ->)].
  - left. eauto.
  - right; left. eauto.
Qed.

Lemma worker_results_shape batch_error batch :
  Forall conversion_result (batch_convert_worker path_exists convert batch_error batch).
Proof.
  rewrite batch_convert_worker_spec. apply Forall_app_2; [apply converted_results_shape|].
  destruct batch_error as [[gathered batch_e]|]; [|constructor].
  constructor; [|constructor]. right; right. by exists batch_e.
Qed.

(** C5: a Success result is appended to the dataset and its identifier to the
    checkpoint file; a Failure that is not a batch-level marker only has its
    identifier appended to the checkpoint file.  So processing the results of
    a batch keeps every identifier of the dataset among the lines of the
    checkpoint file, while a checkpointed identifier need not be in the
    dataset. *)
Theorem process_batch_results_commits (self : processor) :
  (forall n result,
     is_success result = true ->
     process_result (self, n) result
     = (update_checkpoint (set_dataset_file (dataset_file self ++ [result]) self)
          (Py.get "arxiv_id" "unknown_result" result), (n + 1)%Z))
  /\ (forall n result,
        is_failure result = true ->
        process_result (self, n) result
        = (update_checkpoint self (Py.get "arxiv_id" "unknown_result" result), n))
  /\ (forall results batch,
        Forall conversion_result results ->
        logged_ids (dataset_file self) ⊆ checkpoint_file self ->
        let self' := fst (_process_batch_results self (Py.List results) batch) in
        logged_ids (dataset_file self') ⊆ checkpoint_file self')
  /\ (let self' :=
        fst (_process_batch_results Example.self
               (Py.List [failure "2101.00005v1" "docling failed"]) []) in
      "2101.00005v1" ∈ checkpoint_file self'
      /\ ("2101.00005v1" ∉ logged_ids (dataset_file self'))).
Proof.
  split_and!.
  - intros n result Hs. unfold is_success in Hs.
    apply andb_prop in Hs as [Hs Hb]. apply andb_prop in Hs as [Hm He].
    apply negb_true_iff in He, Hb.
    unfold process_result. by rewrite He, Hm, Hb.
  - intros n result Hf. unfold is_failure in Hf.
    apply andb_prop in Hf as [He Hb]. apply negb_true_iff in Hb.
    unfold process_result. by rewrite He, Hb.
  - intros results batch Hshape Hinv. cbn zeta.
    unfold _process_batch_results.
    destruct (process_results_spec results self 0) as (-> & -> & _).
    rewrite logged_ids_app.
    pose proof (conversion_result_logged_checkpointed results Hshape) as Hnew.
    intros x Hx. apply elem_of_app. apply elem_of_app in Hx as [Hx|Hx]; auto.
  - cbn zeta. split.
    + vm_compute. left.
    + vm_compute. apply not_elem_of_nil.
Qed.

(** ** One batch: conversion, then the result sink *)

Lemma convert_paper_checkpointed batch :
  results_checkpointed (map (convert_paper path_exists convert) batch) = map paper_id batch.
Proof.
  induction batch as [|paper_info batch IH]; [done|].
  cbn [map]. rewrite results_checkpointed_cons, IH.
  destruct (convert_paper_shape paper_info) as [(markdown & ->)|(reason & ->)].
  - destruct (success_keys (paper_id paper_info) markdown) as (_ & _ & -> & Hid).
    unfold Py.get. by rewrite Hid.
  - destruct (failure_keys (paper_id paper_info) reason) as (_ & -> & Hid).
    unfold Py.get. by rewrite Hid.
Qed.

Lemma failures_checkpointed reason batch :
  results_checkpointed (map (fun paper_info => failure (paper_id paper_info) reason) batch)
  = map paper_id batch.
Proof.
  induction batch as [|paper_info batch IH]; [done|].
  cbn [map]. rewrite results_checkpointed_cons, IH.
  destruct (failure_keys (paper_id paper_info) reason) as (_ & -> & Hid).
  unfold Py.get. by rewrite Hid.
Qed.

Lemma failures_logged reason batch :
  results_logged (map (fun paper_info => failure (paper_id paper_info) reason) batch) = [].
Proof.
  induction batch as [|paper_info batch IH]; [done|].
  cbn [map]. rewrite results_logged_cons, IH.
  by destruct (failure_keys (paper_id paper_info) reason) as (-> & _).
Qed.

Lemma marker_checkpointed batch_e : results_checkpointed [batch_marker batch_e] = [].
Proof. done. Qed.

Lemma marker_logged batch_e : results_logged [batch_marker batch_e] = [].
Proof. done. Qed.

Lemma run_batch_spawn_failure self batch e proc ex :
  run_batch path_exists convert self batch (Some e) proc ex
  = (set_worker_process_counter (worker_process_counter self + 1) self, inl e).
Proof. reflexivity. Qed.

Lemma run_batch_spec self batch proc ex :
  exists self' processed_count,
    run_batch path_exists convert self batch None proc ex = (self', inr processed_count)
    /\ checkpoint_file self' = checkpoint_file self ++ appended_lines ex batch
    /\ dataset_file self'
       = dataset_file self ++
         match ex with
         | WorkerPuts batch_error =>
             results_logged
               (map (convert_paper path_exists convert) (delivered_items batch_error batch))
         | _ => []
         end
    /\ same_settings self self'.
Proof.
  set (self1 := set_worker_process_counter (worker_process_counter self + 1) self).
  assert (Hfail : forall reason,
    let out := _process_batch_results (checkpoint_all self1 (map paper_id batch))
                 (Py.List (map (fun p => failure (paper_id p) reason) batch)) batch in
    checkpoint_file (fst out)
    = checkpoint_file self ++ map paper_id batch ++ map paper_id batch
    /\ dataset_file (fst out) = dataset_file self ++ []
    /\ same_settings self (fst out)).
  { intros reason. cbn zeta. unfold _process_batch_results.
    destruct (process_results_spec
                (map (fun p => failure (paper_id p) reason) batch)
                (checkpoint_all self1 (map paper_id batch)) 0) as (-> & -> & _ & F & _).
    rewrite failures_checkpointed, failures_logged, checkpoint_all_file,
      checkpoint_all_dataset, <- app_assoc.
    split_and!; try done.
    eapply same_settings_trans; [|exact F].
    eapply same_settings_trans; [|apply checkpoint_all_settings].
    by repeat split. }
  destruct (convert_batch_cases self batch (batch_timeout self) proc)
    as (Hempty & Hraised & Hjoin & Hdelivered).
  fold self1 in Hempty, Hraised, Hjoin, Hdelivered.
  unfold run_batch.
  destruct ex as [batch_error|batch_error msg| |msg]; cbn [executor_wait].
  - rewrite Hdelivered. unfold _process_batch_results.
    destruct (fold_left process_result _ _) as [self' n] eqn:E.
    pose proof (process_results_spec
                  (batch_convert_worker path_exists convert batch_error batch) self1 0) as S.
    rewrite E in S. cbn [fst snd] in S. destruct S as (C & D & _ & F & _).
    exists self', n. split; [done|]. rewrite C, D.
    rewrite batch_convert_worker_spec, results_checkpointed_app, results_logged_app,
      convert_paper_checkpointed.
    cbn [appended_lines].
    destruct batch_error as [[gathered batch_e]|]; split_and!; try done;
      by rewrite ?marker_checkpointed, ?marker_logged, ?app_nil_r.
  - rewrite Hjoin.
    destruct (_process_batch_results _ _ _) as [self' n] eqn:E.
    pose proof (Hfail ("Batch process management error: " +:+ msg)) as S.
    cbn zeta in S. rewrite E in S. exists self', n. by split.
  - rewrite Hempty.
    destruct (_process_batch_results _ _ _) as [self' n] eqn:E.
    pose proof (Hfail ("Batch timeout after " +:+ pretty (batch_timeout self) +:+ "s")) as S.
    cbn zeta in S. rewrite E in S. exists self', n. by split.
  - rewrite Hraised.
    destruct (_process_batch_results _ _ _) as [self' n] eqn:E.
    pose proof (Hfail ("Batch process management error: " +:+ msg)) as S.
    cbn zeta in S. rewrite E in S. exists self', n. by split.
Qed.

Lemma run_batch_settings self batch start_error proc ex self' r :
  run_batch path_exists convert self batch start_error proc ex = (self', r) ->
  same_settings self self'.
Proof.
  destruct start_error as [e|].
  - rewrite run_batch_spawn_failure. intros [= <- <-]. by repeat split.
  - destruct (run_batch_spec self batch proc ex) as (self1 & n & -> & _ & _ & F).
    by intros [= <- <-].
Qed.

(** C2 (as amended): one call of [update_checkpoint] appends one line, whether
    or not the identifier is already in the file.  Processing a batch
    therefore makes the checkpoint file grow by one line per item when the
    worker delivered per-item results; by one line per result gathered when
    the worker delivered a batch-level error marker, which is no line when
    the initialisation of the converter failed; and by two lines per item
    when the batch timed out or the management of the executor raised: the
    failure handler appends every identifier and the processing of the
    Failures it returns appends every identifier again. *)
Theorem run_batch_checkpoint_growth
    (self : processor) (batch : list Py.dict) (proc : child) (ex : executor) :
  let self' := fst (run_batch path_exists convert self batch None proc ex) in
  checkpoint_file self' = checkpoint_file self ++ appended_lines ex batch
  /\ appended_lines ex batch
     = match ex with
       | WorkerPuts None => map paper_id batch
       | WorkerPuts (Some (gathered, _)) => map paper_id (take gathered batch)
       | WorkerPutsJoinRaises _ _ | WorkerSilent | ManagementRaises _ =>
           map paper_id batch ++ map paper_id batch
       end
  /\ length (checkpoint_file self')
     = length (checkpoint_file self) +
       match ex with
       | WorkerPuts None => length batch
       | WorkerPuts (Some (gathered, _)) => Nat.min gathered (length batch)
       | WorkerPutsJoinRaises _ _ | WorkerSilent | ManagementRaises _ => 2 * length batch
       end
  /\ (forall paper_id,
        checkpoint_file (update_checkpoint self paper_id) = checkpoint_file self ++ [paper_id]).
Proof.
  cbn zeta.
  destruct (run_batch_spec self batch proc ex) as (self' & n & -> & C & _).
  cbn [fst]. split; [done|]. split_and!.
  - by destruct ex as [[[gathered batch_e]|]|batch_error msg| |msg].
  - rewrite C, length_app. f_equal.
    destruct ex as [[[gathered batch_e]|]|batch_error msg| |msg];
      cbn [appended_lines delivered_items];
      rewrite ?length_app, ?length_map, ?length_take; cbn [length]; lia.
  - done.
Qed.

(** ** The pipeline: properties of every reachable state *)

Lemma exec_app s events1 events2 :
  exec path_exists convert s (events1 ++ events2)
  = exec path_exists convert s events1 ≫= fun s1 => exec path_exists convert s1 events2.
Proof.
  revert s. induction events1 as [|e events1 IH]; intros s; [done|].
  cbn [app exec]. destruct (step path_exists convert s e) as [s1|]; [apply IH|done].
Qed.

Lemma exec_invariant (P : pipeline -> Prop) :
  (forall s e s', P s -> step path_exists convert s e = Some s' -> P s') ->
  forall events s s', P s -> exec path_exists convert s events = Some s' -> P s'.
Proof.
  intros Hstep. induction events as [|e events IH]; intros s s' HP Hexec.
  - by injection Hexec as <-.
  - cbn [exec] in Hexec.
    destruct (step path_exists convert s e) as [s1|] eqn:E; [|done].
    eapply IH; [|exact Hexec]. eapply Hstep; eauto.
Qed.

Lemma step_settings s e s' :
  step path_exists convert s e = Some s' ->
  same_settings (controller s) (controller s').
Proof.
  unfold step. intros H.
  repeat (case_match; simplify_eq); cbn [controller];
    eauto using same_settings_refl, update_checkpoint_settings, run_batch_settings.
Qed.

Lemma exec_settings self events s s' :
  same_settings self (controller s) ->
  exec path_exists convert s events = Some s' ->
  same_settings self (controller s').
Proof.
  intros Hs Hexec.
  refine (exec_invariant (fun s => same_settings self (controller s)) _ events s s' Hs Hexec).
  intros s1 e s2 H1 Hstep.
  eapply same_settings_trans; [exact H1|]. by eapply step_settings.
Qed.

(** C10: [update_checkpoint] appends one line to the checkpoint file and
    leaves every other field as it is, the in-memory set [processed_ids]
    included; in every state the pipeline reaches, [processed_ids] is still
    the set that [load_checkpoint] built from the checkpoint file at
    construction. *)
Theorem update_checkpoint_leaves_processed_ids :
  (forall self paper_id,
     checkpoint_file (update_checkpoint self paper_id) = checkpoint_file self ++ [paper_id]
     /\ processed_ids (update_checkpoint self paper_id) = processed_ids self
     /\ dataset_file (update_checkpoint self paper_id) = dataset_file self)
  /\ (forall batch_size prefetch_factor timeout checkpoint dataset papers_metadata events s,
        exec path_exists convert
          (start mkdtemp gsutil_cp
             (init batch_size prefetch_factor timeout checkpoint dataset) papers_metadata)
          events = Some s ->
        processed_ids (controller s) = list_to_set (map Py.strip checkpoint)).
Proof.
  split; [done|].
  intros bs pf t checkpoint dataset papers events s Hexec.
  eapply exec_settings in Hexec; [|apply same_settings_refl].
  by destruct Hexec as (_ & _ & _ & ->).
Qed.

Lemma queue_maxsize_settings self self' :
  same_settings self self' -> queue_maxsize self' = queue_maxsize self.
Proof. intros (Hb & Hp & _). unfold queue_maxsize. by rewrite Hb, Hp. Qed.

Lemma step_queue_bound s e s' :
  (0 < queue_maxsize (controller s))%Z ->
  (Z.of_nat (length (paper_queue s)) <= queue_maxsize (controller s))%Z ->
  step path_exists convert s e = Some s' ->
  (Z.of_nat (length (paper_queue s')) <= queue_maxsize (controller s))%Z.
Proof.
  intros Hpos Hlen. unfold step, put_ready. intros H.
  repeat (case_match; simplify_eq); cbn [paper_queue length] in *; try lia.
  all: rewrite length_app; cbn [length].
  all: match goal with
       | H : _ || _ = true |- _ =>
           apply orb_prop in H as [H|H]; apply bool_decide_eq_true in H
       end; lia.
Qed.

(** C8 (as amended): when prefetch-factor x batch-size is positive, the
    queue never holds more than that many entries, the sentinel counted, in
    any state the pipeline reaches: it is constructed with that capacity, and
    a [put] of the downloader thread does not go through while the queue
    holds that many.  (With a product of zero or less Python's [Queue] is
    unbounded.) *)
Theorem paper_queue_bounded
    (self : processor) (papers_metadata : list Py.dict) (events : list event) (s : pipeline) :
  (0 < prefetch_factor self * batch_size self)%Z ->
  exec path_exists convert (start mkdtemp gsutil_cp self papers_metadata) events = Some s ->
  (Z.of_nat (length (paper_queue s)) <= prefetch_factor self * batch_size self)%Z
  /\ (forall item rest,
        downloader s = QueuePut item :: rest ->
        Z.of_nat (length (paper_queue s)) = (prefetch_factor self * batch_size self)%Z ->
        step path_exists convert s Download = None).
Proof.
  intros Hpos Hexec. change (0 < queue_maxsize self)%Z in Hpos.
  assert (Hinv : same_settings self (controller s)
                 /\ (Z.of_nat (length (paper_queue s)) <= queue_maxsize self)%Z).
  { refine (exec_invariant
              (fun s => same_settings self (controller s)
                        /\ (Z.of_nat (length (paper_queue s)) <= queue_maxsize self)%Z)
              _ events _ s _ Hexec).
    - intros s1 e s2 [Hset Hlen] Hstep. split.
      + eapply same_settings_trans; [exact Hset|]. by eapply step_settings.
      + pose proof (queue_maxsize_settings _ _ Hset) as Hq.
        rewrite <- Hq. eapply step_queue_bound; [| |exact Hstep]; rewrite Hq; done.
    - split; [apply same_settings_refl|]. cbn [start paper_queue length]. lia. }
  destruct Hinv as [Hset Hlen]. split; [exact Hlen|].
  intros item rest Hop Hfull. unfold step. rewrite Hop.
  rewrite (queue_maxsize_settings _ _ Hset). unfold put_ready.
  change (prefetch_factor self * batch_size self)%Z with (queue_maxsize self) in Hfull.
  rewrite bool_decide_eq_false_2 by lia. rewrite bool_decide_eq_false_2 by lia.
  by destruct (pc s).
Qed.

(** ** Batch sizes *)

Ltac step_cases H :=
  unfold step in H; repeat (case_match; simplify_eq);
  cbn [controller downloader paper_queue pc history] in *; subst.

Lemma exec_invariant_on (A : event -> Prop) (P : pipeline -> Prop) :
  (forall s e s', A e -> P s -> step path_exists convert s e = Some s' -> P s') ->
  forall events s s',
    Forall A events -> P s -> exec path_exists convert s events = Some s' -> P s'.
Proof.
  intros Hstep. induction events as [|e events IH]; intros s s' HA HP Hexec.
  - by injection Hexec as <-.
  - cbn [exec] in Hexec. apply Forall_cons in HA as [Ae HA].
    destruct (step path_exists convert s e) as [s1|] eqn:E; [|done].
    eapply IH; [exact HA| |exact Hexec]. eapply Hstep; eauto.
Qed.

Lemma loop_head_sized self self' batch :
  batch_size self' = batch_size self ->
  batch = [] \/ (Z.of_nat (length batch) <= batch_size self)%Z ->
  pc_sized self (loop_head self' batch).
Proof.
  intros Hb Hlen. unfold loop_head. rewrite Hb. case_bool_decide; cbn; [done|].
  destruct Hlen; [by left|right; lia].
Qed.

Lemma loop_head_cases self batch :
  loop_head self batch = Gathering batch \/ loop_head self batch = Gathered batch true false.
Proof. unfold loop_head. case_bool_decide; auto. Qed.

Lemma submitted_snoc s batch ex self d q p :
  submitted (mkPipeline self d q p (history s ++ [(batch, ex)])) = submitted s ++ [batch].
Proof. unfold submitted. cbn. by rewrite map_app. Qed.

Lemma step_sized self s e s' :
  same_settings self (controller s) ->
  pc_sized self (pc s) ->
  step path_exists convert s e = Some s' ->
  pc_sized self (pc s').
Proof.
  intros (Hb & _) Hsz H. step_cases H; try done.
  - apply loop_head_sized; [done|]. right. rewrite length_app.
    cbn in Hsz |- *. lia.
  - apply loop_head_sized; [done|by left].
  - apply loop_head_sized; [done|by left].
Qed.

Lemma step_submitted_sized self s e s' :
  same_settings self (controller s) ->
  pc_sized self (pc s) ->
  Forall (fun batch => (1 <= length batch)%nat
                       /\ (Z.of_nat (length batch) <= batch_size self)%Z) (submitted s) ->
  step path_exists convert s e = Some s' ->
  Forall (fun batch => (1 <= length batch)%nat
                       /\ (Z.of_nat (length batch) <= batch_size self)%Z) (submitted s').
Proof.
  intros (Hb & _) Hsz Hsub H. step_cases H; try done.
  all: rewrite submitted_snoc; apply Forall_app_2; [done|].
  all: constructor; [|done].
  all: destruct batch_full; cbn in Hsz |- *; [destruct Hsz; [done|lia]|lia].
Qed.

Lemma Forall_removelast {A} (P : A -> Prop) (l : list A) :
  Forall P l -> Forall P (removelast l).
Proof.
  induction 1 as [|x l Hx Hl IH]; [done|].
  cbn [removelast]. destruct l; [done|]. by constructor.
Qed.

Lemma step_submitted_full self s e s' :
  e <> QueueGetTimeout ->
  same_settings self (controller s) ->
  pc_sized self (pc s) ->
  pc_untimed (pc s) /\ batches_full self (pc s) (submitted s) ->
  step path_exists convert s e = Some s' ->
  pc_untimed (pc s') /\ batches_full self (pc s') (submitted s').
Proof.
  intros He (Hb & _) Hsz [Hun Hfull] H. step_cases H; try done.
  - by destruct (loop_head_cases (controller s) (current_batch_info ++ [g])) as [->| ->].
  - split; [done|]. by apply Forall_removelast.
  - by destruct (loop_head_cases (controller s) []) as [->| ->].
  - split; [done|]. cbn [batches_full]. by rewrite submitted_snoc, removelast_last.
  - split; [done|]. cbn [batches_full]. by rewrite submitted_snoc, removelast_last.
  - assert (Hg : full_batch self (g :: l)).
    { destruct batch_full, done_downloading; cbn in *; try done.
      all: by destruct Hsz. }
    rewrite submitted_snoc.
    destruct (loop_head_cases (controller s) []) as [->| ->]; (split; [done|]);
      cbn [batches_full]; apply Forall_app_2; auto.
Qed.

(** C6 (as amended): every batch submitted to the executor holds at least
    one and at most batch-size items.  A [get] on the queue that times out
    ends the batch being gathered, so a batch that is not the last may be
    smaller than batch-size; in a run in which no [get] times out, every
    submitted batch but the last is full. *)
Theorem submitted_batch_sizes
    (self : processor) (papers_metadata : list Py.dict) (events : list event) (s : pipeline) :
  exec path_exists convert (start mkdtemp gsutil_cp self papers_metadata) events = Some s ->
  Forall (fun batch => (1 <= length batch)%nat
                       /\ (Z.of_nat (length batch) <= batch_size self)%Z) (submitted s)
  /\ (QueueGetTimeout ∉ events ->
      Forall (fun batch => Z.of_nat (length batch) = batch_size self)
        (removelast (submitted s))).
Proof.
  intros Hexec.
  set (sized := fun s : pipeline =>
         same_settings self (controller s) /\ pc_sized self (pc s)
         /\ Forall (fun batch => (1 <= length batch)%nat
                                 /\ (Z.of_nat (length batch) <= batch_size self)%Z)
              (submitted s)).
  assert (Hstart : sized (start mkdtemp gsutil_cp self papers_metadata)).
  { split_and!; [apply same_settings_refl| |by constructor].
    apply loop_head_sized; [done|by left]. }
  assert (Hstep : forall s1 e s2,
            sized s1 -> step path_exists convert s1 e = Some s2 -> sized s2).
  { intros s1 e s2 (Hset & Hsz & Hsub) H. split_and!.
    - eapply same_settings_trans; [exact Hset|]. by eapply step_settings.
    - by eapply step_sized.
    - by eapply step_submitted_sized. }
  split.
  - by apply (exec_invariant sized Hstep events _ s Hstart Hexec).
  - intros Hno.
    assert (Hfull : sized s /\ pc_untimed (pc s) /\ batches_full self (pc s) (submitted s)).
    { refine (exec_invariant_on (fun e => e <> QueueGetTimeout)
                (fun s => sized s /\ pc_untimed (pc s)
                          /\ batches_full self (pc s) (submitted s))
                _ events _ s _ _ Hexec).
      - intros s1 e s2 He [Hsized Hrest] H. split; [by eapply Hstep|].
        destruct Hsized as (Hset & Hsz & _). by eapply step_submitted_full.
      - apply Forall_forall. intros e He ->. by apply Hno.
      - split; [exact Hstart|]. cbn [start pc submitted].
        destruct (loop_head_cases self []) as [->| ->]; (split; [done|constructor]). }
    destruct Hfull as (_ & _ & Hfull). unfold batches_full in Hfull.
    destruct (pc s); try exact Hfull; by apply Forall_removelast.
Qed.

(** ** The downloader thread *)

Lemma downloader_loop_spec ops papers_metadata :
  downloader_loop mkdtemp gsutil_cp ops papers_metadata
  = ops ++ map (downloader_body mkdtemp gsutil_cp) papers_metadata.
Proof.
  revert ops. induction papers_metadata as [|paper rest IH]; intros ops; simpl.
  - by rewrite app_nil_r.
  - rewrite IH. by rewrite <- app_assoc.
Qed.

Lemma downloader_thread_spec papers_metadata :
  downloader_thread mkdtemp gsutil_cp papers_metadata
  = map (downloader_body mkdtemp gsutil_cp) papers_metadata ++ [QueuePut None].
Proof. unfold downloader_thread. by rewrite downloader_loop_spec. Qed.

Lemma download_paper_id paper paper_data :
  download_paper mkdtemp gsutil_cp paper = Some paper_data ->
  paper_id paper_data = paper_id paper.
Proof.
  unfold download_paper. intros H.
  repeat (case_match; simplify_eq).
  unfold paper_id, Py.get. by rewrite !lookup_insert_ne.
Qed.

Lemma downloader_body_cases paper :
  (exists paper_data,
      download_paper mkdtemp gsutil_cp paper = Some paper_data
      /\ downloader_body mkdtemp gsutil_cp paper = QueuePut (Some paper_data))
  \/ (download_paper mkdtemp gsutil_cp paper = None
      /\ downloader_body mkdtemp gsutil_cp paper = CheckpointAppend (paper_id paper)).
Proof.
  unfold downloader_body.
  destruct (download_paper mkdtemp gsutil_cp paper) as [paper_data|]; [left|right]; eauto.
Qed.

Lemma downloader_body_id paper :
  op_id (downloader_body mkdtemp gsutil_cp paper) = Some (paper_id paper).
Proof.
  destruct (downloader_body_cases paper) as [(paper_data & Hd & ->)|(_ & ->)]; cbn; [|done].
  by rewrite (download_paper_id _ _ Hd).
Qed.

Lemma downloader_thread_ids papers_metadata :
  omap op_id (downloader_thread mkdtemp gsutil_cp papers_metadata)
  = map paper_id papers_metadata.
Proof.
  rewrite downloader_thread_spec, omap_app. cbn. rewrite app_nil_r.
  induction papers_metadata as [|paper rest IH]; [done|].
  cbn [map omap list_omap]. rewrite downloader_body_id. cbn. by f_equal.
Qed.

Lemma run_batch_checkpoint_grows self batch start_error proc ex self' r line :
  run_batch path_exists convert self batch start_error proc ex = (self', r) ->
  line ∈ checkpoint_file self ->
  line ∈ checkpoint_file self'.
Proof.
  destruct start_error as [e|].
  - rewrite run_batch_spawn_failure. by intros [= <- <-].
  - destruct (run_batch_spec self batch proc ex) as (self1 & n & -> & C & _).
    intros [= <- <-] Hin. rewrite C. apply elem_of_app. by left.
Qed.

Lemma step_checkpoint_grows s e s' line :
  step path_exists convert s e = Some s' ->
  line ∈ checkpoint_file (controller s) ->
  line ∈ checkpoint_file (controller s').
Proof.
  destruct s as [self d q p h]. cbn [controller]. intros H Hin.
  step_cases H; eauto using run_batch_checkpoint_grows.
  all: cbn; apply elem_of_app; by left.
Qed.

Lemma step_failed_download s e s' arxiv_id :
  step path_exists convert s e = Some s' ->
  CheckpointAppend arxiv_id ∈ downloader s \/ arxiv_id ∈ checkpoint_file (controller s) ->
  CheckpointAppend arxiv_id ∈ downloader s' \/ arxiv_id ∈ checkpoint_file (controller s').
Proof.
  intros H [Hop|Hin]; [|right; by eapply step_checkpoint_grows].
  destruct s as [self d q p h]. step_cases H; try (by left).
  all: cbn [downloader controller] in Hop |- *;
    apply elem_of_cons in Hop as [Heq|Hop]; [|by left]; try discriminate.
  all: injection Heq as ->; right; cbn; apply elem_of_app; right; left.
Qed.

(** C7: the downloader thread performs exactly one operation per paper, in
    list order: a [put] of the fetched paper when the fetch succeeded, and
    otherwise an append of the paper's identifier to the checkpoint file,
    with no [put] of that paper and no second fetch.  A fetch succeeds
    exactly when gsutil exits with code 0, whatever it wrote to its standard
    error, and the paper put is then the listed paper with the path of the
    downloaded file and its temporary directory added; a timeout, an
    exception and a non-zero exit all count as failures.  After the last
    paper the thread puts the sentinel, once, and that is its last
    operation.  Once the thread has finished, the identifier of every paper
    whose fetch failed is a line of the checkpoint file. *)
Theorem downloader_thread_operations (papers_metadata : list Py.dict) :
  downloader_thread mkdtemp gsutil_cp papers_metadata
  = map (fun paper =>
           match download_paper mkdtemp gsutil_cp paper with
           | Some paper_data => QueuePut (Some paper_data)
           | None => CheckpointAppend (paper_id paper)
           end) papers_metadata
    ++ [QueuePut None]
  /\ (forall paper arxiv_id url stderr,
        paper !! "arxiv_id" = Some arxiv_id ->
        paper !! "url" = Some url ->
        gsutil_cp url (mkdtemp (arxiv_id +:+ "_") +:+ "/" +:+ arxiv_id +:+ ".pdf")
        = CpExit 0 stderr ->
        download_paper mkdtemp gsutil_cp paper
        = Some (<[ "temp_dir" := mkdtemp (arxiv_id +:+ "_") ]>
                  (<[ "local_path" := mkdtemp (arxiv_id +:+ "_") +:+ "/" +:+ arxiv_id +:+ ".pdf" ]>
                     paper)))
  /\ (forall paper paper_data,
        download_paper mkdtemp gsutil_cp paper = Some paper_data ->
        exists arxiv_id url stderr,
          paper !! "arxiv_id" = Some arxiv_id
          /\ paper !! "url" = Some url
          /\ gsutil_cp url (mkdtemp (arxiv_id +:+ "_") +:+ "/" +:+ arxiv_id +:+ ".pdf")
             = CpExit 0 stderr
          /\ paper_id paper_data = arxiv_id
          /\ paper_data
             = <[ "temp_dir" := mkdtemp (arxiv_id +:+ "_") ]>
                 (<[ "local_path" := mkdtemp (arxiv_id +:+ "_") +:+ "/" +:+ arxiv_id +:+ ".pdf" ]>
                    paper))
  /\ (forall paper, downloader_body mkdtemp gsutil_cp paper <> QueuePut None)
  /\ (forall self events s paper,
        exec path_exists convert (start mkdtemp gsutil_cp self papers_metadata) events
        = Some s ->
        downloader s = [] ->
        paper ∈ papers_metadata ->
        download_paper mkdtemp gsutil_cp paper = None ->
        paper_id paper ∈ checkpoint_file (controller s)).
Proof.
  split_and!.
  - apply downloader_thread_spec.
  - intros paper arxiv_id url stderr Ha Hu Hcp. unfold download_paper.
    by rewrite Ha, Hu, Hcp.
  - intros paper paper_data H. pose proof (download_paper_id _ _ H) as Hid.
    unfold download_paper in H.
    destruct (paper !! "arxiv_id") as [arxiv_id|] eqn:Ha; [|done].
    destruct (paper !! "url") as [url|] eqn:Hu; [|done].
    destruct (gsutil_cp url _) as [returncode stderr| |] eqn:Hcp; try done.
    case_bool_decide as Hrc; [|done]. subst returncode. injection H as <-.
    exists arxiv_id, url, stderr. split_and!; try done.
    rewrite Hid. unfold paper_id, Py.get. by rewrite Ha.
  - intros paper.
    by destruct (downloader_body_cases paper) as [(paper_data & _ & ->)|(_ & ->)].
  - intros self events s paper Hexec Hdone Hpaper Hfail.
    assert (Hinv : CheckpointAppend (paper_id paper) ∈ downloader s
                   \/ paper_id paper ∈ checkpoint_file (controller s)).
    { refine (exec_invariant
                (fun s => CheckpointAppend (paper_id paper) ∈ downloader s
                          \/ paper_id paper ∈ checkpoint_file (controller s))
                _ events _ s _ Hexec).
      - intros s1 e s2 H1 Hstep. by eapply step_failed_download.
      - left. cbn [start downloader]. rewrite downloader_thread_spec.
        apply elem_of_app. left. apply list_elem_of_fmap. exists paper.
        split; [|done].
        destruct (downloader_body_cases paper) as [(paper_data & Hd & _)|(_ & ->)];
          [by rewrite Hfail in Hd|done]. }
    destruct Hinv as [Hop|Hin]; [|done].
    rewrite Hdone in Hop. by apply elem_of_nil in Hop.
Qed.

(** ** Every identifier is accounted for *)




Lemma loop_head_live self batch : pc_live (loop_head self batch).
Proof. by destruct (loop_head_cases self batch) as [->| ->]. Qed.

Lemma phase_put self self' h h' item l q p :
  stream_phase mkdtemp gsutil_cp (mkPipeline self (QueuePut item :: l) q p h) ->
  stream_phase mkdtemp gsutil_cp (mkPipeline self' l (q ++ [item]) p h').
Proof.
  unfold stream_phase. cbn [downloader paper_queue pc].
  intros [(rest & Hd & Hq & Hp)|[(Hd & _)|(Hd & _)]]; try discriminate.
  destruct rest as [|paper rest]; cbn [map app] in Hd.
  - injection Hd as -> <-. right; left. split_and!; [done| |done]. by exists q.
  - injection Hd as Hitem ->.
    destruct (downloader_body_cases paper) as [(paper_data & _ & Hb)|(_ & Hb)];
      rewrite Hb in Hitem; [|discriminate].
    injection Hitem as ->. left. exists rest. split_and!; [done| |done].
    apply Forall_app_2; [done|]. by repeat constructor.
Qed.

Lemma phase_checkpoint self self' h h' arxiv_id l q p :
  stream_phase mkdtemp gsutil_cp (mkPipeline self (CheckpointAppend arxiv_id :: l) q p h) ->
  stream_phase mkdtemp gsutil_cp (mkPipeline self' l q p h').
Proof.
  unfold stream_phase. cbn [downloader paper_queue pc].
  intros [(rest & Hd & Hq & Hp)|[(Hd & _)|(Hd & _)]]; try discriminate.
  destruct rest as [|paper rest]; cbn [map app] in Hd; [discriminate|].
  injection Hd as _ ->. left. by exists rest.
Qed.

Lemma phase_live self self' h h' d q p p' :
  pc_live p' ->
  stream_phase mkdtemp gsutil_cp (mkPipeline self d q p h) ->
  stream_phase mkdtemp gsutil_cp (mkPipeline self' d q p' h').
Proof.
  unfold stream_phase. cbn [downloader paper_queue pc].
  intros Hlive [(rest & Hd & Hq & Hp)|[(Hd & Hq & Hp)|(Hd & Hq)]]; eauto 10.
Qed.

Lemma phase_ended self self' h h' d q current_batch_info p' :
  stream_phase mkdtemp gsutil_cp
    (mkPipeline self d q (Gathered current_batch_info false true) h) ->
  stream_phase mkdtemp gsutil_cp (mkPipeline self' d q p' h').
Proof.
  unfold stream_phase. cbn [downloader paper_queue pc pc_live].
  intros [(rest & Hd & Hq & [])|[(Hd & Hq & [])|(Hd & Hq)]]; eauto.
Qed.

Lemma phase_get_item self self' h h' d paper_data q p p' :
  pc_live p' ->
  stream_phase mkdtemp gsutil_cp (mkPipeline self d (Some paper_data :: q) p h) ->
  stream_phase mkdtemp gsutil_cp (mkPipeline self' d q p' h').
Proof.
  unfold stream_phase. cbn [downloader paper_queue pc].
  intros Hlive [(rest & Hd & Hq & Hp)|[(Hd & (q0 & Hq & Hq0) & Hp)|(Hd & Hq)]];
    try discriminate.
  - left. exists rest. apply Forall_cons in Hq as [_ Hq]. done.
  - right; left. destruct q0 as [|x q0]; [discriminate|]. injection Hq as _ ->.
    apply Forall_cons in Hq0 as [_ Hq0]. split_and!; [done| |done]. by exists q0.
Qed.

Lemma phase_get_sentinel self self' h h' d q p p' :
  stream_phase mkdtemp gsutil_cp (mkPipeline self d (None :: q) p h) ->
  stream_phase mkdtemp gsutil_cp (mkPipeline self' d q p' h').
Proof.
  unfold stream_phase. cbn [downloader paper_queue pc].
  intros [(rest & Hd & Hq & Hp)|[(Hd & (q0 & Hq & Hq0) & Hp)|(Hd & Hq)]];
    try discriminate.
  - apply Forall_cons in Hq as [[x Hx] _]. discriminate.
  - right; right. split; [done|]. destruct q0 as [|x q0].
    + by injection Hq as ->.
    + injection Hq as <- _. apply Forall_cons in Hq0 as [[x Hx] _]. discriminate.
Qed.

Lemma phase_liveness_check self self' h h' d q p current_batch_info :
  stream_phase mkdtemp gsutil_cp (mkPipeline self d q p h) ->
  stream_phase mkdtemp gsutil_cp
    (mkPipeline self' d q
       (Gathered current_batch_info false
          (negb (negb (bool_decide (d = []))) && bool_decide (q = []))) h').
Proof.
  intros Hphase.
  destruct (negb (negb (bool_decide (d = []))) && bool_decide (q = [])) eqn:E.
  - apply andb_prop in E as [Ed Eq]. rewrite negb_involutive in Ed.
    apply bool_decide_eq_true in Ed, Eq. right; right. by split.
  - by eapply phase_live; [|exact Hphase].
Qed.

Lemma step_stream_phase s e s' :
  stream_phase mkdtemp gsutil_cp s ->
  step path_exists convert s e = Some s' ->
  stream_phase mkdtemp gsutil_cp s'.
Proof.
  destruct s as [self d q p h].
  intros Hphase H. step_cases H;
    eauto using phase_put, phase_checkpoint, phase_get_item, phase_get_sentinel,
      phase_liveness_check, loop_head_live.
  all: try (eapply phase_live; [|exact Hphase]; first [apply loop_head_live|exact I]).
  all: match goal with
       | H : negb _ && _ = true |- _ =>
           apply andb_prop in H as [Hf Hd]; apply negb_true_iff in Hf; subst
       end; by eapply phase_ended.
Qed.

Lemma pc_batch_loop_head self batch : pc_batch (loop_head self batch) = batch.
Proof. by destruct (loop_head_cases self batch) as [->| ->]. Qed.


Lemma run_batch_logged self batch start_error proc ex self' r :
  run_batch path_exists convert self batch start_error proc ex = (self', r) ->
  logged_ids (dataset_file self) ⊆ checkpoint_file self ->
  logged_ids (dataset_file self') ⊆ checkpoint_file self'.
Proof.
  destruct start_error as [e|].
  - rewrite run_batch_spawn_failure. by intros [= <- <-].
  - destruct (run_batch_spec self batch proc ex) as (self1 & n & -> & C & D & _).
    intros [= <- <-] Hinv. rewrite C, D, logged_ids_app.
    intros x Hx. apply elem_of_app. apply elem_of_app in Hx as [Hx|Hx]; [left; auto|].
    right. destruct ex as [batch_error|batch_error msg| |msg];
      try (by apply elem_of_nil in Hx).
    cbn [appended_lines]. rewrite <- convert_paper_checkpointed.
    apply conversion_result_logged_checkpointed; [apply converted_results_shape|done].
Qed.

Lemma step_logged s e s' :
  logged_ids (dataset_file (controller s)) ⊆ checkpoint_file (controller s) ->
  step path_exists convert s e = Some s' ->
  logged_ids (dataset_file (controller s')) ⊆ checkpoint_file (controller s').
Proof.
  destruct s as [self d q p h]. intros Hinv H. step_cases H;
    eauto using run_batch_logged.
  all: intros x Hx; cbn; apply elem_of_app; left; auto.
Qed.



Lemma start_stream_phase self papers_metadata :
  stream_phase mkdtemp gsutil_cp (start mkdtemp gsutil_cp self papers_metadata).
Proof.
  left. exists papers_metadata. cbn [start downloader paper_queue pc].
  split_and!; [apply downloader_thread_spec|constructor|apply loop_head_live].
Qed.

(** ** Strings *)

Lemma string_app_cons (c : ascii) (s r : string) : String c s +:+ r = String c (s +:+ r).
Proof. done. Qed.

Lemma string_app_nil_l (s : string) : "" +:+ s = s.
Proof. done. Qed.

Lemma string_app_assoc (s1 s2 s3 : string) : (s1 +:+ s2) +:+ s3 = s1 +:+ s2 +:+ s3.
Proof. induction s1 as [|c s1 IH]; [done|]. rewrite !string_app_cons. by f_equal. Qed.

Lemma string_app_nil_r (s : string) : s +:+ "" = s.
Proof. induction s as [|c s IH]; [done|]. rewrite string_app_cons. by f_equal. Qed.

Lemma prefix_refl (s : string) : String.prefix s s = true.
Proof.
  induction s as [|c s IH]; [done|]. cbn. by destruct (ascii_dec c c).
Qed.

Lemma prefix_app_self (s r : string) : String.prefix s (s +:+ r) = true.
Proof.
  induction s as [|c s IH]; [by destruct r|]. rewrite string_app_cons. cbn.
  by destruct (ascii_dec c c).
Qed.

Lemma skip_app (s r : string) : skip (String.length s) (s +:+ r) = r.
Proof.
  induction s as [|c s IH]; [by destruct r|]. rewrite string_app_cons. cbn. exact IH.
Qed.

Lemma prefix_nil_r (s : string) : String.prefix s "" = true -> s = "".
Proof. by destruct s. Qed.

Lemma prefix_app_cases (p t s : string) :
  String.prefix p (t +:+ s) = true ->
  String.prefix p t = true \/ exists q, p = t +:+ q /\ String.prefix q s = true.
Proof.
  revert t. induction p as [|a p IH]; intros t Hp; [left; by destruct t|].
  destruct t as [|b t].
  - right. by exists (String a p).
  - rewrite string_app_cons in Hp. cbn in Hp |- *.
    destruct (ascii_dec a b) as [->|]; [|done].
    destruct (IH t Hp) as [Hl|(q & -> & Hq)]; [by left|]. right. by exists q.
Qed.

Lemma contains_cons (old : string) (c : ascii) (s : string) :
  contains old (String c s) = String.prefix old (String c s) || contains old s.
Proof. done. Qed.

Lemma has_char_append (c : ascii) (s r : string) :
  has_char c (s +:+ r) = has_char c s || has_char c r.
Proof.
  induction s as [|c' s IH]; [done|]. rewrite string_app_cons. cbn [has_char].
  by rewrite IH, orb_assoc.
Qed.

(** *** The string operations of [list_papers] *)

Lemma split_whole (sep : ascii) (s : string) :
  has_char sep s = false -> Py.split sep s = [s].
Proof.
  induction s as [|c s IH]; [done|]. cbn [has_char Py.split]. intros H.
  apply orb_false_elim in H as [Hc Hs]. by rewrite Hc, (IH Hs).
Qed.

(** [(dir + sep + filename).split(sep)[-1]] *)
Lemma split_last (sep : ascii) (dir filename : string) :
  has_char sep filename = false ->
  List.last (Py.split sep (dir +:+ String sep filename)) "" = filename.
Proof.
  intros Hf.
  assert (H : exists w front, Py.split sep (dir +:+ String sep filename)
                              = (w :: front) ++ [filename]).
  { induction dir as [|c dir (w & front & IH)].
    - rewrite string_app_nil_l. cbn [Py.split]. rewrite bool_decide_eq_true_2 by done.
      rewrite (split_whole _ _ Hf). by exists "", [].
    - rewrite string_app_cons. cbn [Py.split]. rewrite IH. case_bool_decide.
      + by exists "", (w :: front).
      + by exists (String c w), front. }
  destruct H as (w & front & ->). apply last_last.
Qed.

Lemma remove_pdf_eq (s : string) :
  Py.remove_pdf s
  = if String.prefix ".pdf" s then Py.remove_pdf (skip 4 s)
    else match s with
         | EmptyString => EmptyString
         | String c s' => String c (Py.remove_pdf s')
         end.
Proof.
  destruct s as [|c1 s]; [done|].
  destruct (ascii_dec c1 ".") as [->|H1];
    [|by destruct c1 as [[] [] [] [] [] [] [] []]].
  destruct s as [|c2 s]; [done|].
  destruct (ascii_dec c2 "p") as [->|H2];
    [|by destruct c2 as [[] [] [] [] [] [] [] []]].
  destruct s as [|c3 s]; [done|].
  destruct (ascii_dec c3 "d") as [->|H3];
    [|by destruct c3 as [[] [] [] [] [] [] [] []]].
  destruct s as [|c4 s]; [done|].
  destruct (ascii_dec c4 "f") as [->|H4];
    [|by destruct c4 as [[] [] [] [] [] [] [] []]].
  by destruct s.
Qed.

Lemma prefix_pdf_end (c : ascii) (s : string) :
  String.prefix ".pdf" (String c s) = false ->
  String.prefix ".pdf" (String c s +:+ ".pdf") = false.
Proof.
  intros Hp. destruct (String.prefix ".pdf" (String c s +:+ ".pdf")) eqn:E; [|done].
  apply prefix_app_cases in E as [E|(q & Hq & Hpre)]; [congruence|].
  rewrite string_app_cons in Hq. injection Hq as <- Hq.
  destruct s as [|c2 [|c3 [|c4 [|c5 r]]]];
    rewrite ?string_app_cons, ?string_app_nil_l in Hq; simplify_eq; done.
Qed.

(** [(stem + '.pdf').replace('.pdf', '')] *)
Lemma remove_pdf_suffix (stem : string) :
  contains ".pdf" stem = false -> Py.remove_pdf (stem +:+ ".pdf") = stem.
Proof.
  induction stem as [|c stem IH]; [done|]. intros H.
  rewrite contains_cons in H. apply orb_false_elim in H as [Hp Hc].
  rewrite remove_pdf_eq, (prefix_pdf_end _ _ Hp), string_app_cons. by rewrite (IH Hc).
Qed.

Lemma rsplit_v_absent (s : string) : has_char "v" s = false -> Py.rsplit_v s = None.
Proof.
  induction s as [|c s IH]; [done|]. cbn [has_char Py.rsplit_v]. intros H.
  apply orb_false_elim in H as [Hc Hs]. by rewrite (IH Hs), Hc.
Qed.

(** [(base + 'v' + version).rsplit('v', 1)] *)
Lemma rsplit_v_last (base_id version_str : string) :
  has_char "v" version_str = false ->
  Py.rsplit_v (base_id +:+ String "v" version_str) = Some (base_id, version_str).
Proof.
  intros Hv. induction base_id as [|c base_id IH].
  - rewrite string_app_nil_l. cbn [Py.rsplit_v]. by rewrite (rsplit_v_absent _ Hv).
  - rewrite string_app_cons. cbn [Py.rsplit_v]. by rewrite IH.
Qed.

Lemma parse_url_stem (dir stem : string) :
  has_char "/" stem = false -> contains ".pdf" stem = false ->
  parse_url py_int (dir +:+ String "/" (stem +:+ ".pdf"))
  = match Py.rsplit_v stem with
    | Some (base_id, version_str) => (base_id, default 1%Z (py_int version_str), stem)
    | None => (stem, 1%Z, stem)
    end.
Proof.
  intros Hs Hc. unfold parse_url. rewrite split_last, remove_pdf_suffix; [done|done|].
  by rewrite has_char_append, Hs.
Qed.

Lemma new_paper_inj (arxiv_id1 url1 arxiv_id2 url2 : string) :
  new_paper arxiv_id1 url1 = new_paper arxiv_id2 url2 -> arxiv_id1 = arxiv_id2 /\ url1 = url2.
Proof.
  intros H.
  assert (Ha : new_paper arxiv_id1 url1 !! "arxiv_id" = new_paper arxiv_id2 url2 !! "arxiv_id")
    by (by rewrite H).
  assert (Hu : new_paper arxiv_id1 url1 !! "url" = new_paper arxiv_id2 url2 !! "url")
    by (by rewrite H).
  vm_compute in Ha, Hu. by simplify_eq.
Qed.

(** ** [list_papers] *)

Lemma versions_lookup_set_eq base_id e paper_versions :
  versions_lookup base_id (versions_set base_id e paper_versions) = Some e.
Proof.
  induction paper_versions as [|[k e0] rest IH]; cbn.
  - by rewrite bool_decide_eq_true_2.
  - case_bool_decide as Hk; cbn; [by rewrite bool_decide_eq_true_2|].
    by rewrite bool_decide_eq_false_2.
Qed.

Lemma versions_lookup_set_ne base_id base_id' e paper_versions :
  base_id <> base_id' ->
  versions_lookup base_id' (versions_set base_id e paper_versions)
  = versions_lookup base_id' paper_versions.
Proof.
  intros Hne. induction paper_versions as [|[k e0] rest IH]; cbn.
  - by rewrite bool_decide_eq_false_2.
  - repeat (case_bool_decide; simplify_eq; cbn); try done.
    all: repeat (case_bool_decide; simplify_eq; cbn); done.
Qed.

Lemma versions_lookup_None base_id paper_versions :
  versions_lookup base_id paper_versions = None <-> base_id ∉ map fst paper_versions.
Proof.
  induction paper_versions as [|[k e0] rest IH]; cbn.
  - split; [intros _; apply not_elem_of_nil|done].
  - rewrite not_elem_of_cons. case_bool_decide as Hk.
    + split; [done|]. intros [Hne _]. by subst.
    + rewrite IH. split; [by split|by intros [_ ?]].
Qed.

Lemma versions_lookup_elem base_id e paper_versions :
  NoDup (map fst paper_versions) ->
  versions_lookup base_id paper_versions = Some e <-> (base_id, e) ∈ paper_versions.
Proof.
  induction paper_versions as [|[k e0] rest IH]; cbn; intros Hnd.
  - split; [done|]. intros H. by apply elem_of_nil in H.
  - apply NoDup_cons in Hnd as [Hk Hnd]. rewrite elem_of_cons.
    case_bool_decide as Hkb.
    + subst k. split.
      * intros [= ->]. by left.
      * intros [[= ->]|Hin]; [done|]. exfalso. apply Hk.
        apply list_elem_of_fmap. by exists (base_id, e).
    + rewrite (IH Hnd). split; [by right|].
      intros [[= -> ->]|Hin]; [done|done].
Qed.

Lemma versions_set_keys base_id e paper_versions :
  map fst (versions_set base_id e paper_versions)
  = if bool_decide (base_id ∈ map fst paper_versions) then map fst paper_versions
    else map fst paper_versions ++ [base_id].
Proof.
  induction paper_versions as [|[k e0] rest IH]; cbn [versions_set map fst].
  - rewrite bool_decide_eq_false_2; [done|apply not_elem_of_nil].
  - destruct (decide (k = base_id)) as [->|Hk].
    + rewrite (bool_decide_eq_true_2 (base_id = base_id)) by done.
      rewrite bool_decide_eq_true_2; [done|left].
    + rewrite (bool_decide_eq_false_2 (k = base_id)) by done.
      cbn [map fst]. rewrite IH.
      destruct (decide (base_id ∈ map fst rest)) as [Hin|Hin].
      * rewrite (bool_decide_eq_true_2 _ Hin).
        rewrite bool_decide_eq_true_2; [done|by right].
      * rewrite (bool_decide_eq_false_2 _ Hin).
        rewrite bool_decide_eq_false_2; [done|].
        rewrite not_elem_of_cons. by split.
Qed.

Lemma versions_set_NoDup base_id e paper_versions :
  NoDup (map fst paper_versions) ->
  NoDup (map fst (versions_set base_id e paper_versions)).
Proof.
  intros Hnd. rewrite versions_set_keys. case_bool_decide as Hin; [done|].
  apply NoDup_app. split_and!; [done| |apply NoDup_singleton].
  intros x Hx Hx'. apply list_elem_of_singleton in Hx'. by subst.
Qed.

Lemma kept_bound paper_urls base_id url version_num arxiv_id url' version' arxiv_id' :
  kept py_int paper_urls base_id url version_num arxiv_id ->
  url' ∈ paper_urls ->
  parse_url py_int url' = (base_id, version', arxiv_id') ->
  (version' <= version_num)%Z.
Proof.
  intros (before & after & -> & Hp & Hb & Ha) Hin Hp'.
  apply elem_of_app in Hin as [Hin|Hin].
  - specialize (Hb _ _ _ Hin Hp'). lia.
  - apply elem_of_cons in Hin as [->|Hin].
    + rewrite Hp in Hp'. injection Hp' as <- _. lia.
    + by eapply Ha.
Qed.

Lemma kept_snoc_other paper_urls base_id url version_num arxiv_id url' :
  kept py_int paper_urls base_id url version_num arxiv_id ->
  (forall version' arxiv_id',
     parse_url py_int url' = (base_id, version', arxiv_id') -> (version' <= version_num)%Z) ->
  kept py_int (paper_urls ++ [url']) base_id url version_num arxiv_id.
Proof.
  intros (before & after & -> & Hp & Hb & Ha) Hle.
  exists before, (after ++ [url']). split_and!; [by rewrite <- app_assoc|done|done|].
  intros url'' version' arxiv_id' Hin Hp'. apply elem_of_app in Hin as [Hin|Hin].
  - by eapply Ha.
  - apply list_elem_of_singleton in Hin as ->. by eapply Hle.
Qed.

Lemma kept_new paper_urls base_id url version_num arxiv_id :
  parse_url py_int url = (base_id, version_num, arxiv_id) ->
  (forall url' version' arxiv_id',
     url' ∈ paper_urls ->
     parse_url py_int url' = (base_id, version', arxiv_id') -> (version' < version_num)%Z) ->
  kept py_int (paper_urls ++ [url]) base_id url version_num arxiv_id.
Proof.
  intros Hp Hlt. exists paper_urls, []. split_and!; [done|done|done|].
  intros url' version' arxiv_id' Hin. by apply elem_of_nil in Hin.
Qed.

Lemma record_version_step paper_urls url paper_versions :
  url <> "" ->
  versions_of py_int paper_urls paper_versions ->
  versions_of py_int (paper_urls ++ [url]) (record_version py_int paper_versions url).
Proof.
  intros Hne (Hnd & Hkept & Hall).
  destruct (parse_url py_int url) as [[base_id version_num] arxiv_id] eqn:Hp.
  unfold record_version. rewrite bool_decide_eq_false_2 by done. rewrite Hp.
  set (e := mkEntry version_num arxiv_id url).
  assert (Hset : (forall url' version' arxiv_id',
                    url' ∈ paper_urls ->
                    parse_url py_int url' = (base_id, version', arxiv_id') ->
                    (version' < version_num)%Z) ->
                 versions_of py_int (paper_urls ++ [url])
                   (versions_set base_id e paper_versions)).
  { intros Hlt. split_and!.
    - by apply versions_set_NoDup.
    - intros base_id' e' Hl. destruct (decide (base_id = base_id')) as [<-|Hb].
      + rewrite versions_lookup_set_eq in Hl. injection Hl as <-. by apply kept_new.
      + rewrite versions_lookup_set_ne in Hl by done.
        apply kept_snoc_other; [by apply Hkept|].
        intros version' arxiv_id' Hp'. rewrite Hp in Hp'. by injection Hp' as -> _ _.
    - intros url' base_id' version' arxiv_id' Hin Hp'.
      destruct (decide (base_id = base_id')) as [<-|Hb].
      + by rewrite versions_lookup_set_eq.
      + rewrite versions_lookup_set_ne by done.
        apply elem_of_app in Hin as [Hin|Hin]; [by eapply Hall|].
        apply list_elem_of_singleton in Hin as ->. rewrite Hp in Hp'.
        by injection Hp' as -> _ _. }
  destruct (versions_lookup base_id paper_versions) as [cur|] eqn:Hl.
  - case_bool_decide as Hv.
    + apply Hset. intros url' version' arxiv_id' Hin Hp'.
      pose proof (kept_bound _ _ _ _ _ _ _ _ (Hkept _ _ Hl) Hin Hp'). lia.
    + split_and!; [done| |].
      * intros base_id' e' Hl'. apply kept_snoc_other; [by apply Hkept|].
        intros version' arxiv_id' Hp'. rewrite Hp in Hp'. injection Hp' as -> -> _.
        rewrite Hl in Hl'. injection Hl' as <-. lia.
      * intros url' base_id' version' arxiv_id' Hin Hp'.
        apply elem_of_app in Hin as [Hin|Hin]; [by eapply Hall|].
        apply list_elem_of_singleton in Hin as ->. rewrite Hp in Hp'.
        injection Hp' as <- _ _. by rewrite Hl.
  - apply Hset. intros url' version' arxiv_id' Hin Hp'.
    destruct (Hall _ _ _ _ Hin Hp') as [cur Hcur]. by rewrite Hl in Hcur.
Qed.

Lemma record_versions_spec seen paper_urls paper_versions :
  Forall (fun url => url <> "") paper_urls ->
  versions_of py_int seen paper_versions ->
  versions_of py_int (seen ++ paper_urls)
    (fold_left (record_version py_int) paper_urls paper_versions).
Proof.
  intros Hne. revert seen paper_versions.
  induction Hne as [|url paper_urls Hurl _ IH]; intros seen paper_versions Hv; cbn.
  - by rewrite app_nil_r.
  - rewrite (cons_middle url seen paper_urls), app_assoc.
    apply IH. by apply record_version_step.
Qed.

Lemma versions_of_nil : versions_of py_int [] [].
Proof.
  split_and!; [constructor|done|].
  intros url base_id version_num arxiv_id Hin. by apply elem_of_nil in Hin.
Qed.

Lemma strip_empty : Py.strip "" = "".
Proof. reflexivity. Qed.

Lemma listed_urls_nonempty stdout : Forall (fun url => url <> "") (listed_urls stdout).
Proof.
  apply Forall_forall. intros url Hin ->.
  apply list_elem_of_In, filter_In in Hin as [_ Hf].
  by rewrite strip_empty in Hf.
Qed.

Lemma select_new_elem self new_papers items paper :
  paper ∈ select_new self new_papers items
  <-> paper ∈ new_papers
      \/ exists base_id e,
           (base_id, e) ∈ items /\ (full_id e ∉ processed_ids self)
           /\ paper = new_paper (full_id e) (url e).
Proof.
  revert new_papers. induction items as [|[base_id e] items IH]; intros new_papers; cbn.
  - split; [by left|]. intros [H|(b & e & H & _)]; [done|]. by apply elem_of_nil in H.
  - case_bool_decide as Hin; rewrite IH.
    + split.
      * intros [H|(b & e' & H & Hrest)]; [by left|].
        right. exists b, e'. split; [by right|done].
      * intros [H|(b & e' & H & Hn & Hp)]; [by left|].
        apply elem_of_cons in H as [[= -> ->]|H]; [done|].
        right. by exists b, e'.
    + rewrite elem_of_app, list_elem_of_singleton. split.
      * intros [[H|H]|(b & e' & H & Hrest)]; [by left| |].
        { right. exists base_id, e. split; [left|done]. }
        { right. exists b, e'. split; [by right|done]. }
      * intros [H|(b & e' & H & Hn & Hp)]; [by left; left|].
        apply elem_of_cons in H as [[= -> ->]|H]; [by left; right|].
        right. by exists b, e'.
Qed.

Lemma kept_unique paper_urls base_id url1 version1 arxiv_id1 url2 version2 arxiv_id2 :
  kept py_int paper_urls base_id url1 version1 arxiv_id1 ->
  kept py_int paper_urls base_id url2 version2 arxiv_id2 ->
  url1 = url2 /\ version1 = version2 /\ arxiv_id1 = arxiv_id2.
Proof.
  intros (b1 & a1 & -> & Hp1 & Hb1 & Ha1) (b2 & a2 & Heq & Hp2 & Hb2 & Ha2).
  apply app_eq_app in Heq as [l [[Hb Ha]|[Hb Ha]]]; destruct l as [|x l].
  - cbn in Ha. injection Ha as <- _. rewrite Hp1 in Hp2. by injection Hp2 as <- <-.
  - cbn in Ha. injection Ha as <- ->. subst b1.
    assert (version2 < version1)%Z.
    { eapply Hb1; [|exact Hp2]. apply elem_of_app. right. left. }
    assert (version1 <= version2)%Z.
    { eapply Ha2; [|exact Hp1]. apply elem_of_app. right. left. }
    lia.
  - cbn in Ha. injection Ha as <- _. rewrite Hp1 in Hp2. by injection Hp2 as <- <-.
  - cbn in Ha. injection Ha as <- ->. subst b2.
    assert (version1 < version2)%Z.
    { eapply Hb2; [|exact Hp1]. apply elem_of_app. right. left. }
    assert (version2 <= version1)%Z.
    { eapply Ha1; [|exact Hp2]. apply elem_of_app. right. left. }
    lia.
Qed.

Lemma parse_url_base url base_id version_num arxiv_id :
  parse_url py_int url = (base_id, version_num, arxiv_id) -> base_id = base_of arxiv_id.
Proof.
  unfold parse_url, base_of.
  destruct (Py.rsplit_v _) as [[b v]|] eqn:E; intros [= <- _ <-]; by rewrite E.
Qed.

Lemma new_paper_id arxiv_id url : paper_id (new_paper arxiv_id url) = arxiv_id.
Proof. by vm_compute. Qed.

Lemma select_new_ids self new_papers items :
  map paper_id (select_new self new_papers items)
  = map paper_id new_papers
    ++ map (fun item => full_id (snd item))
         (List.filter
            (fun item => negb (bool_decide (full_id (snd item) ∈ processed_ids self)))
            items).
Proof.
  revert new_papers. induction items as [|[base_id e] items IH]; intros new_papers.
  - cbn. by rewrite app_nil_r.
  - cbn [select_new List.filter snd]. case_bool_decide as Hin; cbn [negb]; rewrite IH.
    + done.
    + rewrite map_app. cbn [map]. fold (new_paper (full_id e) (url e)).
      rewrite new_paper_id, <- app_assoc. done.
Qed.

Lemma NoDup_map_filter {A B} (g : A -> B) (f : A -> bool) (l : list A) :
  NoDup (map g l) -> NoDup (map g (List.filter f l)).
Proof.
  induction l as [|a l IH]; [done|]. cbn [map List.filter]. intros Hnd.
  apply NoDup_cons in Hnd as [Ha Hnd]. destruct (f a); [|by apply IH].
  cbn [map]. apply NoDup_cons. split; [|by apply IH].
  intros Hin. apply Ha. apply list_elem_of_fmap in Hin as (x & -> & Hx).
  apply list_elem_of_fmap. exists x. split; [done|].
  apply list_elem_of_In. apply list_elem_of_In, filter_In in Hx. tauto.
Qed.

Lemma versions_full_ids_NoDup paper_urls paper_versions :
  versions_of py_int paper_urls paper_versions ->
  NoDup (map (fun item => full_id (snd item)) paper_versions).
Proof.
  intros (Hnd & Hkept & _).
  assert (Hbase : forall base_id e,
            (base_id, e) ∈ paper_versions -> base_id = base_of (full_id e)).
  { intros base_id e Hin. apply versions_lookup_elem in Hin; [|done].
    destruct (Hkept _ _ Hin) as (before & after & _ & Hp & _).
    by eapply parse_url_base. }
  clear Hkept. induction paper_versions as [|[base_id e] rest IH]; [constructor|].
  cbn [map fst snd] in Hnd |- *. apply NoDup_cons in Hnd as [Hfresh Hnd].
  apply NoDup_cons. split.
  - intros Hin. apply Hfresh. apply list_elem_of_fmap in Hin as ([b' e'] & Heq & Hin').
    cbn [snd] in Heq. apply list_elem_of_fmap. exists (b', e'). split; [|done].
    cbn [fst]. rewrite (Hbase base_id e) by left.
    rewrite (Hbase b' e') by (by right). by rewrite Heq.
  - apply IH; [done|]. intros b' e' Hin. apply Hbase. by right.
Qed.

Lemma list_papers_versions self stdout :
  exists paper_versions,
    versions_of py_int (listed_urls stdout) paper_versions
    /\ list_papers py_int self 0 stdout = select_new self [] paper_versions.
Proof.
  exists (fold_left (record_version py_int) (listed_urls stdout) []). split; [|done].
  apply (record_versions_spec [] (listed_urls stdout) []);
    [apply listed_urls_nonempty|apply versions_of_nil].
Qed.

(** C9: [list_papers] returns a paper for an entry of the listing exactly
    when that entry is the one kept for its base identifier and its full,
    versioned identifier is not in [processed_ids], and it returns no
    identifier twice.  The entry kept for a base identifier is unique: it has
    the highest version among the entries with that base identifier, and the
    first such entry wins a tie, so an entry is not returned when the
    listing holds an entry with the same base identifier and a higher
    version.  The full identifier is the file name of the URL without
    [.pdf]; the base identifier is its text before the last ['v'] and the
    version the integer after it.  An identifier without ['v'], or whose
    text after the last ['v'] does not parse as an integer, counts as
    version 1.  Only the full identifier of the kept entry is compared with
    the checkpoint, so a checkpointed earlier version does not hide a new
    one. *)
Theorem list_papers_latest_versions (self : processor) (stdout : string) :
  (forall paper,
     paper ∈ list_papers py_int self 0 stdout
     <-> exists base_id url version_num arxiv_id,
           kept py_int (listed_urls stdout) base_id url version_num arxiv_id
           /\ (arxiv_id ∉ processed_ids self)
           /\ paper = new_paper arxiv_id url)
  /\ (forall url base_id version_num arxiv_id,
        url ∈ listed_urls stdout ->
        parse_url py_int url = (base_id, version_num, arxiv_id) ->
        exists url' version' arxiv_id',
          kept py_int (listed_urls stdout) base_id url' version' arxiv_id'
          /\ (version_num <= version')%Z)
  /\ (forall base_id url1 version1 arxiv_id1 url2 version2 arxiv_id2,
        kept py_int (listed_urls stdout) base_id url1 version1 arxiv_id1 ->
        kept py_int (listed_urls stdout) base_id url2 version2 arxiv_id2 ->
        url1 = url2 /\ version1 = version2 /\ arxiv_id1 = arxiv_id2)
  /\ NoDup (map paper_id (list_papers py_int self 0 stdout))
  /\ (forall url,
        let arxiv_id := Py.remove_pdf (List.last (Py.split "/" url) "") in
        parse_url py_int url
        = match Py.rsplit_v arxiv_id with
          | Some (base_id, version_str) =>
              (base_id, match py_int version_str with Some n => n | None => 1%Z end, arxiv_id)
          | None => (arxiv_id, 1%Z, arxiv_id)
          end)
  /\ (forall dir base_id version_str,
        has_char "v" version_str = false ->
        has_char "/" (base_id +:+ String "v" version_str) = false ->
        contains ".pdf" (base_id +:+ String "v" version_str) = false ->
        parse_url py_int (dir +:+ String "/" ((base_id +:+ String "v" version_str) +:+ ".pdf"))
        = (base_id, match py_int version_str with Some n => n | None => 1%Z end,
           base_id +:+ String "v" version_str))
  /\ (forall dir stem,
        has_char "v" stem = false ->
        has_char "/" stem = false ->
        contains ".pdf" stem = false ->
        parse_url py_int (dir +:+ String "/" (stem +:+ ".pdf")) = (stem, 1%Z, stem))
  /\ (forall url1 url2 base_id version1 version2 arxiv_id1 arxiv_id2,
        url1 ∈ listed_urls stdout ->
        url2 ∈ listed_urls stdout ->
        parse_url py_int url1 = (base_id, version1, arxiv_id1) ->
        parse_url py_int url2 = (base_id, version2, arxiv_id2) ->
        (version1 < version2)%Z ->
        new_paper arxiv_id1 url1 ∉ list_papers py_int self 0 stdout).
Proof.
  destruct (list_papers_versions self stdout) as (paper_versions & Hv & ->).
  pose proof Hv as (Hnd & Hkept & Hall).
  split_and!.
  - intros paper. rewrite select_new_elem. split.
    + intros [H|(base_id & e & Hin & Hnew & ->)]; [by apply elem_of_nil in H|].
      exists base_id, (url e), (version e), (full_id e). split_and!; [|done|done].
      apply Hkept. by apply versions_lookup_elem.
    + intros (base_id & url & version_num & arxiv_id & Hk & Hnew & ->). right.
      destruct Hk as (before & after & Hsplit & Hp & Hk).
      assert (Hin : url ∈ listed_urls stdout).
      { rewrite Hsplit. apply elem_of_app. right. left. }
      destruct (Hall _ _ _ _ Hin Hp) as [e He].
      destruct (kept_unique _ _ _ _ _ _ _ _ (Hkept _ _ He)
                  (ex_intro _ before (ex_intro _ after (conj Hsplit (conj Hp Hk)))))
        as (Hu & _ & Hid).
      exists base_id, e. rewrite Hu, Hid. split_and!; [|done|done].
      by apply versions_lookup_elem.
  - intros u base_id version_num arxiv_id Hin Hp.
    destruct (Hall _ _ _ _ Hin Hp) as [e He].
    exists (url e), (version e), (full_id e). split; [by apply Hkept|].
    by eapply kept_bound; [apply Hkept| |].
  - intros base_id url1 version1 arxiv_id1 url2 version2 arxiv_id2. apply kept_unique.
  - rewrite select_new_ids. cbn [map app]. apply NoDup_map_filter.
    by eapply versions_full_ids_NoDup.
  - intros url. cbn zeta. unfold parse_url.
    destruct (Py.rsplit_v _) as [[base_id version_str]|]; [|done].
    by destruct (py_int version_str).
  - intros dir base_id version_str Hver Hs Hc.
    rewrite (parse_url_stem _ _ Hs Hc), (rsplit_v_last _ _ Hver).
    by destruct (py_int version_str).
  - intros dir stem Hver Hs Hc.
    by rewrite (parse_url_stem _ _ Hs Hc), (rsplit_v_absent _ Hver).
  - intros url1 url2 base_id version1 version2 arxiv_id1 arxiv_id2 Hin1 Hin2 Hp1 Hp2 Hlt Hin.
    apply select_new_elem in Hin as [Hin|(base_id' & e & Hin & _ & Heq)];
      [by apply elem_of_nil in Hin|].
    apply new_paper_inj in Heq as [-> ->].
    apply versions_lookup_elem, Hkept in Hin; [|done].
    pose proof Hin as (before & after & _ & Hp & _).
    rewrite Hp1 in Hp. injection Hp as <- Hversion.
    pose proof (kept_bound _ _ _ _ _ _ _ _ Hin Hin2 Hp2). lia.
Qed.

(** * Further properties of the pipeline *)

(** ** Fetched papers reach the executor once, in order *)

Lemma in_order_step s e s' :
  step path_exists convert s e = Some s' -> in_order s' = in_order s.
Proof.
  destruct s as [self d q p h]. intros H. step_cases H; unfold in_order, submitted;
    cbn [controller downloader paper_queue pc history pc_batch omap list_omap op_item];
    rewrite ?pc_batch_loop_head, ?omap_app, ?map_app, ?concat_app;
    cbn [omap list_omap op_item concat map fst id];
    rewrite ?app_nil_r, <- ?app_assoc; try done.
  all: by destruct item.
Qed.

Lemma op_item_body paper :
  op_item (downloader_body mkdtemp gsutil_cp paper) = download_paper mkdtemp gsutil_cp paper.
Proof.
  by destruct (downloader_body_cases paper) as [(paper_data & -> & ->)|(-> & ->)].
Qed.

Lemma in_order_start self papers_metadata :
  in_order (start mkdtemp gsutil_cp self papers_metadata)
  = fetched_papers mkdtemp gsutil_cp papers_metadata.
Proof.
  unfold in_order, submitted, fetched_papers. cbn [start history downloader paper_queue pc].
  rewrite pc_batch_loop_head, downloader_thread_spec, omap_app. cbn.
  rewrite app_nil_r. induction papers_metadata as [|paper rest IH]; [done|].
  cbn [map omap list_omap]. by rewrite op_item_body, IH.
Qed.

Lemma exec_stream_phase self papers_metadata events s :
  exec path_exists convert (start mkdtemp gsutil_cp self papers_metadata) events = Some s ->
  stream_phase mkdtemp gsutil_cp s.
Proof.
  intros Hexec.
  refine (exec_invariant (stream_phase mkdtemp gsutil_cp) _ events _ s _ Hexec).
  - intros s1 e s2 H1 Hstep. by eapply step_stream_phase.
  - apply start_stream_phase.
Qed.

Lemma complete_drained s :
  stream_phase mkdtemp gsutil_cp s -> pc s = Complete ->
  downloader s = [] /\ paper_queue s = [].
Proof.
  unfold stream_phase. intros Hphase Hpc. rewrite Hpc in Hphase. cbn [pc_live] in Hphase.
  by destruct Hphase as [(_ & _ & _ & [])|[(_ & _ & [])|(Hd & Hq)]].
Qed.

(** X1: the fetched papers go through the pipeline in first-in first-out
    order, without loss or duplication: in every state the pipeline reaches,
    the submitted batches, the batch being gathered, the queue and the
    papers still to be published, read in that order, are the papers
    [download_paper] fetches in the order of the listing.  When the run is
    complete, the submitted batches are exactly those papers. *)
Theorem pipeline_first_in_first_out
    (self : processor) (papers_metadata : list Py.dict) (events : list event) (s : pipeline) :
  exec path_exists convert (start mkdtemp gsutil_cp self papers_metadata) events = Some s ->
  in_order s = fetched_papers mkdtemp gsutil_cp papers_metadata
  /\ (pc s = Complete ->
      concat (submitted s) = fetched_papers mkdtemp gsutil_cp papers_metadata).
Proof.
  intros Hexec.
  assert (Hin : in_order s = fetched_papers mkdtemp gsutil_cp papers_metadata).
  { refine (exec_invariant
              (fun s => in_order s = fetched_papers mkdtemp gsutil_cp papers_metadata)
              _ events _ s _ Hexec).
    - intros s1 e s2 H1 Hstep. by rewrite (in_order_step _ _ _ Hstep).
    - apply in_order_start. }
  split; [exact Hin|]. intros Hpc. rewrite <- Hin.
  destruct (complete_drained s (exec_stream_phase _ _ _ _ Hexec) Hpc) as [Hd Hq].
  unfold in_order. rewrite Hd, Hq, Hpc. cbn. by rewrite app_nil_r.
Qed.

(** ** What a run writes *)

Lemma convert_paper_logged paper_data :
  Py.has_key "error" (convert_paper path_exists convert paper_data) = false ->
  exists local_path markdown,
    paper_data !! "local_path" = Some local_path
    /\ convert (paper_id paper_data) local_path = Converted markdown
    /\ convert_paper path_exists convert paper_data = success (paper_id paper_data) markdown.
Proof.
  unfold convert_paper. fold (paper_id paper_data).
  fold (failure (paper_id paper_data) "PDF path missing or invalid.").
  destruct (paper_data !! "local_path") as [local_path|];
    [|by destruct (failure_keys (paper_id paper_data) "PDF path missing or invalid.")
         as (-> & _)].
  destruct (bool_decide (local_path = "") || negb (path_exists local_path));
    [by destruct (failure_keys (paper_id paper_data) "PDF path missing or invalid.")
        as (-> & _)|].
  destruct (convert (paper_id paper_data) local_path) as [markdown|e] eqn:E.
  - intros _. by exists local_path, markdown.
  - fold (failure (paper_id paper_data) e).
    by destruct (failure_keys (paper_id paper_data) e) as (-> & _).
Qed.

Lemma results_logged_elem result results :
  result ∈ results_logged results ->
  result ∈ results /\ Py.has_key "error" result = false.
Proof.
  unfold results_logged. intros Hin.
  apply list_elem_of_In, filter_In in Hin as [Hin Hc].
  apply andb_prop in Hc as [He _]. apply negb_true_iff in He.
  split; [by apply list_elem_of_In|done].
Qed.

Lemma results_logged_sublist results : results_logged results `sublist_of` results.
Proof.
  induction results as [|result results IH]; [done|].
  rewrite results_logged_cons.
  destruct (negb (Py.has_key "error" result) && Py.has_key "markdown" result); cbn [app].
  - by apply sublist_skip.
  - by apply sublist_cons.
Qed.

Lemma logged_ids_sublist dataset1 dataset2 :
  dataset1 `sublist_of` dataset2 -> logged_ids dataset1 `sublist_of` logged_ids dataset2.
Proof.
  unfold logged_ids. induction 1 as [|record l1 l2 _ IH|record l1 l2 _ IH];
    cbn [omap list_omap]; [done| |].
  - destruct (record !! "arxiv_id"); [by apply sublist_skip|done].
  - destruct (record !! "arxiv_id"); [by apply sublist_cons|done].
Qed.

Lemma logged_ids_converted batch :
  logged_ids (map (convert_paper path_exists convert) batch) = map paper_id batch.
Proof.
  induction batch as [|paper_data batch IH]; [done|].
  cbn [map]. unfold logged_ids in *. cbn [omap list_omap]. rewrite IH.
  destruct (convert_paper_shape paper_data) as [(markdown & ->)|(reason & ->)].
  - by destruct (success_keys (paper_id paper_data) markdown) as (_ & _ & _ & ->).
  - by destruct (failure_keys (paper_id paper_data) reason) as (_ & _ & ->).
Qed.

Lemma fetched_ids_sublist papers_metadata :
  map paper_id (fetched_papers mkdtemp gsutil_cp papers_metadata)
  `sublist_of` map paper_id papers_metadata.
Proof.
  unfold fetched_papers. induction papers_metadata as [|paper rest IH]; [done|].
  cbn [map omap list_omap].
  destruct (download_paper mkdtemp gsutil_cp paper) as [paper_data|] eqn:E.
  - cbn [map]. rewrite (download_paper_id _ _ E). by apply sublist_skip.
  - by apply sublist_cons.
Qed.

Lemma fetched_papers_elem papers_metadata paper_data :
  paper_data ∈ fetched_papers mkdtemp gsutil_cp papers_metadata ->
  exists paper,
    paper ∈ papers_metadata /\ download_paper mkdtemp gsutil_cp paper = Some paper_data.
Proof.
  unfold fetched_papers. intros Hin.
  apply list_elem_of_omap in Hin as (paper & Hin & Hd). eauto.
Qed.

Lemma converted_papers_snoc history batch ex :
  converted_papers (history ++ [(batch, ex)])
  = converted_papers history
    ++ match ex with WorkerPuts batch_error => delivered_items batch_error batch | _ => [] end.
Proof. unfold converted_papers. rewrite flat_map_app. cbn. by rewrite app_nil_r. Qed.

Lemma delivered_items_sublist batch_error batch :
  delivered_items batch_error batch `sublist_of` batch.
Proof. destruct batch_error as [[gathered batch_e]|]; cbn; [apply sublist_take|done]. Qed.

Lemma run_batch_dataset self batch start_error proc ex self' r :
  run_batch path_exists convert self batch start_error proc ex = (self', r) ->
  dataset_file self'
  = dataset_file self ++
    match r, ex with
    | inr _, WorkerPuts batch_error =>
        results_logged
          (map (convert_paper path_exists convert) (delivered_items batch_error batch))
    | _, _ => []
    end.
Proof.
  destruct start_error as [e|].
  - rewrite run_batch_spawn_failure. intros [= <- <-]. cbn. by rewrite app_nil_r.
  - destruct (run_batch_spec self batch proc ex) as (self1 & n & -> & _ & D & _).
    by intros [= <- <-].
Qed.

Lemma step_dataset ds0 s e s' :
  dataset_file (controller s) = ds0 ++ appended_records path_exists convert s ->
  step path_exists convert s e = Some s' ->
  dataset_file (controller s') = ds0 ++ appended_records path_exists convert s'.
Proof.
  destruct s as [self d q p h]. intros Hinv H.
  unfold appended_records, started in Hinv. cbn [controller pc history] in Hinv.
  step_cases H; unfold appended_records, started; cbn [controller pc history];
    repeat match goal with
      | |- context [loop_head ?s ?b] => destruct (loop_head_cases s b) as [-> | ->]
      end; try exact Hinv.
  all: match goal with
       | Hr : run_batch _ _ _ _ _ _ _ = _ |- _ => apply run_batch_dataset in Hr; rewrite Hr
       end.
  all: rewrite ?removelast_last, ?converted_papers_snoc, ?map_app, ?results_logged_app, Hinv,
         <- ?app_assoc; try done.
  - by rewrite app_nil_r.
  - by destruct ex as [?|? ?| |?].
  - by destruct ex as [?|? ?| |?].
  - by destruct ex as [?|? ?| |?].
Qed.

Lemma exec_dataset self papers_metadata events s :
  exec path_exists convert (start mkdtemp gsutil_cp self papers_metadata) events = Some s ->
  dataset_file (controller s) = dataset_file self ++ appended_records path_exists convert s.
Proof.
  intros Hexec.
  refine (exec_invariant
            (fun s => dataset_file (controller s)
                      = dataset_file self ++ appended_records path_exists convert s)
            _ events _ s _ Hexec).
  - intros s1 e s2 H1 Hstep. by eapply step_dataset.
  - unfold appended_records, started. cbn [start pc history controller].
    destruct (loop_head_cases self []) as [-> | ->]; cbn; by rewrite app_nil_r.
Qed.

Lemma exec_in_order self papers_metadata events s :
  exec path_exists convert (start mkdtemp gsutil_cp self papers_metadata) events = Some s ->
  in_order s = fetched_papers mkdtemp gsutil_cp papers_metadata.
Proof.
  intros Hexec.
  refine (exec_invariant
            (fun s => in_order s = fetched_papers mkdtemp gsutil_cp papers_metadata)
            _ events _ s _ Hexec).
  - intros s1 e s2 H1 Hstep. by rewrite (in_order_step _ _ _ Hstep).
  - apply in_order_start.
Qed.

Lemma converted_papers_sublist history :
  converted_papers history `sublist_of` concat (map fst history).
Proof.
  induction history as [|[batch ex] history IH]; [done|].
  cbn [converted_papers flat_map map concat fst snd].
  destruct ex as [batch_error|? ?| |?]; cbn [app];
    try (by apply sublist_inserts_l).
  apply sublist_app; [apply delivered_items_sublist|done].
Qed.

Lemma started_sublist s : started s `sublist_of` history s.
Proof.
  unfold started. destruct (pc s); try done.
  induction (history s) as [|entry l _] using rev_ind; [done|].
  rewrite removelast_last. by apply sublist_inserts_r.
Qed.

Lemma concat_sublist {A} (l1 l2 : list (list A)) :
  l1 `sublist_of` l2 -> concat l1 `sublist_of` concat l2.
Proof.
  induction 1 as [|x l1 l2 _ IH|x l1 l2 _ IH]; cbn [concat]; [done| |].
  - by apply sublist_app.
  - by apply sublist_inserts_l.
Qed.

Lemma map_sublist {A B} (f : A -> B) (l1 l2 : list A) :
  l1 `sublist_of` l2 -> map f l1 `sublist_of` map f l2.
Proof.
  induction 1 as [|x l1 l2 _ IH|x l1 l2 _ IH]; cbn [map]; [done| |].
  - by apply sublist_skip.
  - by apply sublist_cons.
Qed.

Lemma sublist_elem {A} (l1 l2 : list A) (x : A) :
  l1 `sublist_of` l2 -> x ∈ l1 -> x ∈ l2.
Proof.
  induction 1 as [|y l1 l2 _ IH|y l1 l2 _ IH]; [done| |].
  - intros Hin. apply elem_of_cons in Hin as [->|Hin]; [left|right; auto].
  - intros Hin. right. auto.
Qed.

(** The papers whose conversion results were recorded are among the fetched
    papers, in their order. *)
Lemma converted_fetched self papers_metadata events s :
  exec path_exists convert (start mkdtemp gsutil_cp self papers_metadata) events = Some s ->
  converted_papers (started s) `sublist_of` fetched_papers mkdtemp gsutil_cp papers_metadata.
Proof.
  intros Hexec. rewrite <- (exec_in_order _ _ _ _ Hexec).
  etrans; [apply converted_papers_sublist|].
  etrans; [apply concat_sublist, map_sublist, started_sublist|].
  unfold in_order, submitted. by apply sublist_inserts_r.
Qed.

Lemma appended_records_ids self papers_metadata events s :
  exec path_exists convert (start mkdtemp gsutil_cp self papers_metadata) events = Some s ->
  logged_ids (appended_records path_exists convert s)
  `sublist_of` map paper_id papers_metadata.
Proof.
  intros Hexec. unfold appended_records.
  etrans; [apply logged_ids_sublist, results_logged_sublist|].
  rewrite logged_ids_converted.
  etrans; [apply map_sublist, (converted_fetched _ _ _ _ Hexec)|].
  apply fetched_ids_sublist.
Qed.

(** X2: the dataset after a run is the dataset before it followed by the
    Successes among the results the workers delivered, in the order of
    submission: all results of a batch, or, when the worker's list ends with
    a batch-level error marker, the results gathered before the marker.
    Each of these records carries the
    identifier of a listed paper whose download succeeded and the markdown
    the conversion of its downloaded file returned. *)
Theorem dataset_records_are_conversions
    (self : processor) (papers_metadata : list Py.dict) (events : list event) (s : pipeline) :
  exec path_exists convert (start mkdtemp gsutil_cp self papers_metadata) events = Some s ->
  dataset_file (controller s) = dataset_file self ++ appended_records path_exists convert s
  /\ (forall record,
        record ∈ appended_records path_exists convert s ->
        exists paper paper_data local_path markdown,
          paper ∈ papers_metadata
          /\ download_paper mkdtemp gsutil_cp paper = Some paper_data
          /\ paper_data !! "local_path" = Some local_path
          /\ convert (paper_id paper) local_path = Converted markdown
          /\ record = success (paper_id paper) markdown).
Proof.
  intros Hexec. split; [by eapply exec_dataset|].
  intros record Hin. unfold appended_records in Hin.
  apply results_logged_elem in Hin as [Hin Herr].
  apply list_elem_of_fmap in Hin as (paper_data & -> & Hin).
  apply (sublist_elem _ _ _ (converted_fetched _ _ _ _ Hexec)) in Hin.
  apply fetched_papers_elem in Hin as (paper & Hpaper & Hd).
  destruct (convert_paper_logged _ Herr) as (local_path & markdown & Hl & Hc & ->).
  rewrite (download_paper_id _ _ Hd) in Hc |- *.
  by exists paper, paper_data, local_path, markdown.
Qed.

(** ** The lines a run appends to the checkpoint file *)

Lemma appended_lines_elem ex batch line :
  line ∈ appended_lines ex batch -> line ∈ map paper_id batch.
Proof.
  destruct ex as [batch_error|? ?| |?]; cbn [appended_lines]; intros Hin.
  - eapply sublist_elem; [|exact Hin]. apply map_sublist, delivered_items_sublist.
  - by apply elem_of_app in Hin as [Hin|Hin].
  - by apply elem_of_app in Hin as [Hin|Hin].
  - by apply elem_of_app in Hin as [Hin|Hin].
Qed.

Lemma run_batch_lines self batch start_error proc ex self' r :
  run_batch path_exists convert self batch start_error proc ex = (self', r) ->
  exists lines,
    checkpoint_file self' = checkpoint_file self ++ lines
    /\ (forall line, line ∈ lines -> line ∈ map paper_id batch).
Proof.
  destruct start_error as [e|].
  - rewrite run_batch_spawn_failure. intros [= <- <-]. exists []. cbn.
    split; [by rewrite app_nil_r|]. intros line Hin. by apply elem_of_nil in Hin.
  - destruct (run_batch_spec self batch proc ex) as (self1 & n & -> & C & _).
    intros [= <- <-]. exists (appended_lines ex batch). split; [done|].
    apply appended_lines_elem.
Qed.

Lemma step_lines (ids : list string) s e s' :
  (forall arxiv_id, CheckpointAppend arxiv_id ∈ downloader s -> arxiv_id ∈ ids) ->
  (forall paper_data, paper_data ∈ pc_batch (pc s) -> paper_id paper_data ∈ ids) ->
  step path_exists convert s e = Some s' ->
  (forall arxiv_id, CheckpointAppend arxiv_id ∈ downloader s' -> arxiv_id ∈ ids)
  /\ exists lines,
       checkpoint_file (controller s') = checkpoint_file (controller s) ++ lines
       /\ (forall line, line ∈ lines -> line ∈ ids).
Proof.
  destruct s as [self d q p h]. intros Hd Hb H.
  assert (Hnone : forall self0 : processor,
            exists lines : list string,
              checkpoint_file self0 = checkpoint_file self0 ++ lines
              /\ (forall line, line ∈ lines -> line ∈ ids)).
  { intros self0. exists []. split; [by rewrite app_nil_r|].
    intros line Hin. by apply elem_of_nil in Hin. }
  step_cases H; cbn [pc_batch] in Hb.
  all: try (split; [exact Hd|apply Hnone]).
  all: try (split; [intros arxiv_id Hin; apply Hd; by right|apply Hnone]).
  all: try (split; [intros arxiv_id Hin; apply Hd; by right|];
            eexists [_]; split; [reflexivity|];
            intros line Hin; apply list_elem_of_singleton in Hin as ->;
            apply Hd; left).
  all: split; [exact Hd|].
  all: match goal with
       | Hr : run_batch _ _ _ _ _ _ _ = _ |- _ =>
           destruct (run_batch_lines _ _ _ _ _ _ _ Hr) as (lines & Hc & Hl)
       end.
  all: exists lines; split; [exact Hc|].
  all: intros line Hin; apply Hl in Hin;
    apply list_elem_of_fmap in Hin as (paper_data & -> & Hin); by apply Hb.
Qed.

Lemma exec_lines self papers_metadata events s :
  exec path_exists convert (start mkdtemp gsutil_cp self papers_metadata) events = Some s ->
  exists lines,
    checkpoint_file (controller s) = checkpoint_file self ++ lines
    /\ (forall line, line ∈ lines -> line ∈ map paper_id papers_metadata).
Proof.
  intros Hexec.
  set (ids := map paper_id papers_metadata).
  set (inv := fun s : pipeline =>
         in_order s = fetched_papers mkdtemp gsutil_cp papers_metadata
         /\ (forall arxiv_id, CheckpointAppend arxiv_id ∈ downloader s -> arxiv_id ∈ ids)
         /\ exists lines,
              checkpoint_file (controller s) = checkpoint_file self ++ lines
              /\ (forall line, line ∈ lines -> line ∈ ids)).
  assert (Hinv : inv s).
  { refine (exec_invariant inv _ events _ s _ Hexec).
    - intros s1 e s2 (Ho & Hd & lines & Hc & Hl) Hstep.
      assert (Hb : forall paper_data,
                paper_data ∈ pc_batch (pc s1) -> paper_id paper_data ∈ ids).
      { intros paper_data Hin.
        apply (sublist_elem _ _ _ (fetched_ids_sublist papers_metadata)).
        apply list_elem_of_fmap. exists paper_data. split; [done|].
        rewrite <- Ho. unfold in_order. apply elem_of_app. right.
        apply elem_of_app. by left. }
      destruct (step_lines ids _ _ _ Hd Hb Hstep) as (Hd' & lines' & Hc' & Hl').
      split_and!; [by rewrite (in_order_step _ _ _ Hstep)|exact Hd'|].
      exists (lines ++ lines'). split; [by rewrite Hc', Hc, app_assoc|].
      intros line Hin. apply elem_of_app in Hin as [Hin|Hin]; auto.
    - split_and!; [apply in_order_start| |].
      + intros arxiv_id Hin. unfold ids. rewrite <- downloader_thread_ids.
        apply list_elem_of_omap. by exists (CheckpointAppend arxiv_id).
      + exists []. split; [by rewrite app_nil_r|].
        intros line Hin. by apply elem_of_nil in Hin. }
  by destruct Hinv as (_ & _ & Hlines).
Qed.

(** X3: every line a run appends to the checkpoint file is the identifier of
    a paper of the listing the run started from. *)
Theorem checkpoint_lines_are_listed
    (self : processor) (papers_metadata : list Py.dict) (events : list event) (s : pipeline) :
  exec path_exists convert (start mkdtemp gsutil_cp self papers_metadata) events = Some s ->
  exists lines,
    checkpoint_file (controller s) = checkpoint_file self ++ lines
    /\ (forall line, line ∈ lines -> exists paper, paper ∈ papers_metadata /\ line = paper_id paper).
Proof.
  intros Hexec. destruct (exec_lines _ _ _ _ Hexec) as (lines & Hc & Hl).
  exists lines. split; [exact Hc|]. intros line Hin.
  apply Hl, list_elem_of_fmap in Hin as (paper & -> & Hin). by exists paper.
Qed.

(** ** Every identifier is accounted for *)










(** ** What the checkpoint file makes [list_papers] skip *)

Lemma lstrip_head s :
  Py.lstrip s = "" \/ exists c r, Py.lstrip s = String c r /\ Py.is_space c = false.
Proof.
  induction s as [|c s IH]; [by left|]. cbn [Py.lstrip].
  destruct (Py.is_space c) eqn:E; [exact IH|]. right. by exists c, s.
Qed.

Lemma rstrip_rstrip s : Py.rstrip (Py.rstrip s) = Py.rstrip s.
Proof.
  induction s as [|c s IH]; [done|]. cbn [Py.rstrip].
  destruct (Py.rstrip s) as [|c' r] eqn:E.
  - destruct (Py.is_space c) eqn:Ec; [done|]. cbn [Py.rstrip]. by rewrite Ec.
  - cbn [Py.rstrip] in IH |- *. by rewrite IH.
Qed.

Lemma rstrip_head c r :
  Py.is_space c = false -> exists r', Py.rstrip (String c r) = String c r'.
Proof.
  intros Ec. cbn [Py.rstrip]. destruct (Py.rstrip r) as [|c' r'].
  - rewrite Ec. by eexists.
  - by eexists.
Qed.

Lemma strip_strip s : Py.strip (Py.strip s) = Py.strip s.
Proof.
  unfold Py.strip. destruct (lstrip_head s) as [->|(c & r & -> & Ec)]; [done|].
  destruct (rstrip_head c r Ec) as [r' Hr]. rewrite Hr. cbn [Py.lstrip]. rewrite Ec.
  rewrite <- Hr. apply rstrip_rstrip.
Qed.

Lemma load_checkpoint_elem self arxiv_id :
  arxiv_id ∈ processed_ids (load_checkpoint self)
  <-> exists line, line ∈ checkpoint_file self /\ Py.strip line = arxiv_id.
Proof.
  unfold load_checkpoint. cbn [processed_ids set_processed_ids].
  rewrite elem_of_list_to_set. split.
  - intros Hin. apply list_elem_of_fmap in Hin as (line & -> & Hin). by exists line.
  - intros (line & Hin & <-). apply list_elem_of_fmap. by exists line.
Qed.

Lemma list_papers_fresh self returncode stdout :
  NoDup (map paper_id (list_papers py_int self returncode stdout))
  /\ (forall arxiv_id,
        arxiv_id ∈ map paper_id (list_papers py_int self returncode stdout) ->
        arxiv_id ∉ processed_ids self).
Proof.
  destruct (decide (returncode = 0%Z)) as [->|Hrc].
  - destruct (list_papers_versions self stdout) as (paper_versions & Hv & ->).
    rewrite select_new_ids. cbn [map app]. split.
    + apply NoDup_map_filter. by eapply versions_full_ids_NoDup.
    + intros arxiv_id Hin. apply list_elem_of_fmap in Hin as (item & -> & Hin).
      apply list_elem_of_In, filter_In in Hin as [_ Hf].
      apply negb_true_iff, bool_decide_eq_false in Hf. exact Hf.
  - unfold list_papers. rewrite bool_decide_eq_false_2 by done. cbn [map]. split.
    + constructor.
    + intros arxiv_id Hin. by apply elem_of_nil in Hin.
Qed.

(** X4: [load_checkpoint] marks as processed exactly the lines of the
    checkpoint file with the surrounding whitespace removed (the characters
    [str.isspace] holds for: 9 to 13, 28 to 32, U+0085 and U+00A0 among the
    code points below 256), so no element of [processed_ids] starts or ends
    with whitespace.  [list_papers]
    compares the identifier it cut out of the listed URL as it is: the entry
    kept for a paper whose identifier carries leading or trailing whitespace
    is returned whatever the checkpoint file holds. *)
Theorem load_checkpoint_strips_lines (self : processor) :
  (forall arxiv_id,
     arxiv_id ∈ processed_ids (load_checkpoint self)
     <-> exists line, line ∈ checkpoint_file self /\ Py.strip line = arxiv_id)
  /\ (forall arxiv_id,
        arxiv_id ∈ processed_ids (load_checkpoint self) -> Py.strip arxiv_id = arxiv_id)
  /\ (forall stdout base_id url version_num arxiv_id,
        kept py_int (listed_urls stdout) base_id url version_num arxiv_id ->
        Py.strip arxiv_id <> arxiv_id ->
        new_paper arxiv_id url ∈ list_papers py_int (load_checkpoint self) 0 stdout).
Proof.
  assert (Hstripped : forall arxiv_id,
            arxiv_id ∈ processed_ids (load_checkpoint self) -> Py.strip arxiv_id = arxiv_id).
  { intros arxiv_id Hin. apply load_checkpoint_elem in Hin as (line & _ & <-).
    apply strip_strip. }
  split_and!; [apply load_checkpoint_elem|exact Hstripped|].
  intros stdout base_id url version_num arxiv_id Hk Hws.
  destruct (list_papers_versions (load_checkpoint self) stdout)
    as (paper_versions & Hv & ->).
  pose proof Hv as (Hnd & Hkept & Hall).
  apply select_new_elem. right.
  pose proof Hk as (before & after & Hsplit & Hp & _).
  assert (Hin : url ∈ listed_urls stdout).
  { rewrite Hsplit. apply elem_of_app. right. left. }
  destruct (Hall _ _ _ _ Hin Hp) as [e He].
  destruct (kept_unique _ _ _ _ _ _ _ _ (Hkept _ _ He) Hk) as (Hu & _ & Hid).
  exists base_id, e. rewrite Hu, Hid. split_and!; [by apply versions_lookup_elem| |done].
  intros Hproc. by apply Hws, Hstripped.
Qed.

(** X5: a run that resumes from a checkpoint file writes nothing for a
    paper the file marks as processed.  The lines it appends to the
    checkpoint file and the identifiers of the records it appends to the
    dataset differ from every line of the checkpoint file it started from
    (compared as [load_checkpoint] reads them, stripped), and the dataset
    gets at most one record per identifier. *)
Theorem resumed_run_skips_processed
    (batch_size prefetch_factor timeout : Z) (checkpoint : list string)
    (dataset : list Py.dict) (returncode : Z) (stdout : string)
    (s0 : pipeline) (events : list event) (s : pipeline) :
  run_begin mkdtemp gsutil_cp py_int
    (init batch_size prefetch_factor timeout checkpoint dataset) returncode stdout = Some s0 ->
  exec path_exists convert s0 events = Some s ->
  exists lines,
    checkpoint_file (controller s) = checkpoint ++ lines
    /\ dataset_file (controller s) = dataset ++ appended_records path_exists convert s
    /\ NoDup (logged_ids (appended_records path_exists convert s))
    /\ (forall arxiv_id line,
          arxiv_id ∈ lines ++ logged_ids (appended_records path_exists convert s) ->
          line ∈ checkpoint ->
          Py.strip line <> arxiv_id).
Proof.
  set (self := init batch_size prefetch_factor timeout checkpoint dataset).
  unfold run_begin.
  destruct (list_papers py_int self returncode stdout) as [|paper rest] eqn:E; [done|].
  rewrite <- E. intros [= <-] Hexec.
  destruct (list_papers_fresh self returncode stdout) as [Hnd Hfresh].
  destruct (exec_lines _ _ _ _ Hexec) as (lines & Hc & Hl).
  pose proof (appended_records_ids _ _ _ _ Hexec) as Hsub.
  exists lines. split_and!.
  - exact Hc.
  - exact (exec_dataset _ _ _ _ Hexec).
  - eapply sublist_NoDup; [exact Hnd|exact Hsub].
  - intros arxiv_id line Hin Hline Heq.
    assert (Hlisted : arxiv_id ∈ map paper_id (list_papers py_int self returncode stdout)).
    { apply elem_of_app in Hin as [Hin|Hin]; [by apply Hl|].
      by apply (sublist_elem _ _ _ Hsub). }
    apply (Hfresh _ Hlisted). apply load_checkpoint_elem. by exists line.
Qed.

(** ** The loop of [run] can always come to its end *)

Lemma put_ready_empty maxsize : put_ready maxsize [] = true.
Proof.
  unfold put_ready. cbn [length].
  destruct (decide (maxsize <= 0)%Z) as [H|H].
  - by rewrite (bool_decide_eq_true_2 _ H).
  - rewrite (bool_decide_eq_false_2 _ H). cbn [orb]. apply bool_decide_eq_true_2. lia.
Qed.

Lemma loop_head_nil self :
  (0 < batch_size self)%Z -> loop_head self [] = Gathering [].
Proof. intros Hpos. unfold loop_head. cbn [length]. by rewrite bool_decide_eq_true_2 by lia. Qed.

Lemma exec_cons s e s1 events s' :
  step path_exists convert s e = Some s1 ->
  exec path_exists convert s1 events = Some s' ->
  exec path_exists convert s (e :: events) = Some s'.
Proof. intros Hs He. cbn [exec]. by rewrite Hs. Qed.

Lemma run_body_step s current_batch_info batch_full done_downloading :
  pc s = Gathered current_batch_info batch_full done_downloading ->
  exists s',
    step path_exists convert s
      (RunBody None (mkChild false false) (WorkerPuts None)) = Some s'
    /\ downloader s' = downloader s
    /\ paper_queue s' = paper_queue s
    /\ batch_size (controller s') = batch_size (controller s)
    /\ pc s' = if negb batch_full && done_downloading then Complete
               else loop_head (controller s) [].
Proof.
  destruct s as [self d q p h]. cbn [pc]. intros ->. unfold step. cbn [pc controller history
    downloader paper_queue].
  destruct current_batch_info as [|paper_data rest]; [by eexists|].
  destruct (run_batch_spec self (paper_data :: rest) (mkChild false false) (WorkerPuts None))
    as (self' & n & -> & _ & _ & F).
  eexists. split; [reflexivity|]. cbn. split_and!; try done. by destruct F as (-> & _).
Qed.

Lemma gathering_completes n :
  forall s current_batch_info,
    (2 * length (downloader s) + length (paper_queue s) < n)%nat ->
    (0 < batch_size (controller s))%Z ->
    pc s = Gathering current_batch_info ->
    exists events s', exec path_exists convert s events = Some s' /\ pc s' = Complete.
Proof.
  induction n as [|n IH]; intros [self d q p h] batch; cbn [downloader paper_queue controller pc];
    intros Hn Hpos ->; [lia|].
  destruct q as [|[paper_data|] q].
  - destruct d as [|[item|arxiv_id] d].
    + set (s1 := mkPipeline self [] [] (Gathered batch false true) h).
      destruct (run_body_step s1 batch false true eq_refl) as (s2 & Hs & _ & _ & _ & Hpc).
      exists [QueueGetTimeout; LivenessCheck;
              RunBody None (mkChild false false) (WorkerPuts None)], s2.
      split; [|exact Hpc].
      apply (exec_cons _ _ (mkPipeline self [] [] (TimedOut batch) h)); [done|].
      apply (exec_cons _ _ s1); [done|]. by apply (exec_cons _ _ s2).
    + destruct (IH (mkPipeline self d [item] (Gathering batch) h) batch)
        as (events & s' & He & Hc); cbn [downloader paper_queue controller pc length] in *;
        [lia|done|done|].
      exists (Download :: events), s'. split; [|exact Hc]. cbn [exec]. unfold step at 1.
      cbn [pc downloader controller paper_queue history]. rewrite put_ready_empty. exact He.
    + destruct (IH (mkPipeline (update_checkpoint self arxiv_id) d [] (Gathering batch) h) batch)
        as (events & s' & He & Hc); cbn [downloader paper_queue controller pc length] in *;
        [lia|done|done|].
      exists (Download :: events), s'. split; [|exact Hc]. cbn [exec]. unfold step at 1.
      cbn [pc downloader controller paper_queue history]. exact He.
  - set (s1 := mkPipeline self d q (loop_head self (batch ++ [paper_data])) h).
    assert (Hs1 : step path_exists convert
                    (mkPipeline self d (Some paper_data :: q) (Gathering batch) h) QueueGet
                  = Some s1) by done.
    destruct (loop_head_cases self (batch ++ [paper_data])) as [Hl|Hl].
    + destruct (IH s1 (batch ++ [paper_data])) as (events & s' & He & Hc);
        cbn [s1 downloader paper_queue controller pc length] in *; [lia|done|done|].
      exists (QueueGet :: events), s'. split; [|exact Hc]. cbn [exec]. by rewrite Hs1.
    + destruct (run_body_step s1 (batch ++ [paper_data]) true false Hl)
        as (s2 & Hs & Hd & Hq & Hb & Hpc).
      cbn [negb andb] in Hpc. cbn [s1 controller downloader paper_queue] in Hd, Hq, Hb, Hpc.
      rewrite (loop_head_nil self Hpos) in Hpc.
      destruct (IH s2 []) as (events & s' & He & Hc);
        [rewrite Hd, Hq; cbn [length] in Hn; lia|by rewrite Hb|exact Hpc|].
      exists (QueueGet :: RunBody None (mkChild false false) (WorkerPuts None) :: events), s'.
      split; [|exact Hc]. cbn [exec]. by rewrite Hs1, Hs.
  - set (s1 := mkPipeline self d q (Gathered batch false true) h).
    destruct (run_body_step s1 batch false true eq_refl) as (s2 & Hs & _ & _ & _ & Hpc).
    exists [QueueGet; RunBody None (mkChild false false) (WorkerPuts None)], s2.
    split; [|exact Hpc].
    apply (exec_cons _ _ s1); [done|]. by apply (exec_cons _ _ s2).
Qed.

Lemma gathered_completes s current_batch_info batch_full done_downloading :
  (0 < batch_size (controller s))%Z ->
  pc s = Gathered current_batch_info batch_full done_downloading ->
  exists events s', exec path_exists convert s events = Some s' /\ pc s' = Complete.
Proof.
  intros Hpos Hpc.
  destruct (run_body_step s _ _ _ Hpc) as (s1 & Hs & Hd & Hq & Hb & Hpc1).
  destruct (negb batch_full && done_downloading).
  - exists [RunBody None (mkChild false false) (WorkerPuts None)], s1.
    split; [|exact Hpc1]. cbn [exec]. by rewrite Hs.
  - rewrite (loop_head_nil _ Hpos) in Hpc1.
    destruct (gathering_completes
                (S (2 * length (downloader s1) + length (paper_queue s1))) s1 [])
      as (events & s' & He & Hc); [lia|by rewrite Hb|exact Hpc1|].
    exists (RunBody None (mkChild false false) (WorkerPuts None) :: events), s'.
    split; [|exact Hc]. cbn [exec]. by rewrite Hs.
Qed.

(** X6: the downloader thread and the controller cannot block each other
    for good.  From every state in which the controller is still in its loop
    and the batch size is positive, some schedule of the downloader's
    operations, the controller's [get]s and the batches leads [run] to
    [processing_complete]. *)
Theorem run_can_complete (s : pipeline) :
  (0 < batch_size (controller s))%Z ->
  terminal (pc s) = false ->
  exists events s', exec path_exists convert s events = Some s' /\ pc s' = Complete.
Proof.
  intros Hpos Hlive. destruct (pc s) as [batch|batch|batch full done| |msg] eqn:Hpc;
    try discriminate.
  - eapply (gathering_completes
              (S (2 * length (downloader s) + length (paper_queue s)))); [lia|done|done].
  - set (s1 := mkPipeline (controller s) (downloader s) (paper_queue s)
                 (Gathered batch false
                    (negb (negb (bool_decide (downloader s = [])))
                     && bool_decide (paper_queue s = []))) (history s)).
    assert (Hs1 : step path_exists convert s LivenessCheck = Some s1).
    { unfold step. by rewrite Hpc. }
    destruct (gathered_completes s1 _ _ _ Hpos eq_refl) as (events & s' & He & Hc).
    exists (LivenessCheck :: events), s'. split; [|exact Hc]. cbn [exec]. by rewrite Hs1.
  - by eapply gathered_completes.
Qed.

(** ** A batch size that is not positive *)

(** X7: with a batch size of zero or less the loop of [_gather_batch] is
    not entered and reports a full, empty batch, so [run] never reaches
    [processing_complete]: in every state the pipeline reaches the
    controller is about to gather again, no batch has been submitted and the
    dataset is as it was. *)
Theorem nonpositive_batch_size_never_completes
    (self : processor) (papers_metadata : list Py.dict) (events : list event) (s : pipeline) :
  (batch_size self <= 0)%Z ->
  exec path_exists convert (start mkdtemp gsutil_cp self papers_metadata) events = Some s ->
  pc s = Gathered [] true false
  /\ history s = []
  /\ dataset_file (controller s) = dataset_file self.
Proof.
  intros Hsize Hexec.
  assert (Hhead : forall self', batch_size self' = batch_size self ->
            loop_head self' [] = Gathered [] true false).
  { intros self' Hb. unfold loop_head. cbn [length]. rewrite Hb.
    by rewrite bool_decide_eq_false_2 by lia. }
  set (inv := fun s : pipeline =>
         batch_size (controller s) = batch_size self
         /\ pc s = Gathered [] true false
         /\ history s = []
         /\ dataset_file (controller s) = dataset_file self).
  assert (Hinv : inv s).
  { refine (exec_invariant inv _ events _ s _ Hexec).
    - intros [self1 d q p h] e s2. unfold inv. cbn [controller pc history].
      intros (Hb & -> & -> & Hd) Hstep. step_cases Hstep; simplify_eq;
        cbn [negb andb] in *; try discriminate; split_and!; try done.
      all: by apply Hhead.
    - unfold inv. cbn [start controller pc history]. split_and!; try done. by apply Hhead. }
  by destruct Hinv as (_ & ? & ? & ?).
Qed.

(** ** The count [_process_batch_results] returns *)

Lemma results_logged_length results : (length (results_logged results) <= length results)%nat.
Proof. unfold results_logged. apply filter_length_le. Qed.

(** X8: the count [_process_batch_results] returns is the number of records
    it has appended to the dataset: the results with a ["markdown"] and no
    ["error"], at most one per result.  For a value that is not a list it
    returns 0, leaves the dataset alone and checkpoints every item of the
    batch. *)
Theorem process_batch_results_count
    (self : processor) (batch_results : Py.value) (current_batch_info : list Py.dict) :
  let out := _process_batch_results self batch_results current_batch_info in
  (0 <= snd out)%Z
  /\ length (dataset_file (fst out)) = (length (dataset_file self) + Z.to_nat (snd out))%nat
  /\ match batch_results with
     | Py.List results =>
         dataset_file (fst out) = dataset_file self ++ results_logged results
         /\ snd out = Z.of_nat (length (results_logged results))
         /\ (snd out <= Z.of_nat (length results))%Z
     | Py.Other =>
         snd out = 0%Z
         /\ dataset_file (fst out) = dataset_file self
         /\ checkpoint_file (fst out)
            = checkpoint_file self
              ++ map (Py.get "arxiv_id" "unknown_batch_error") current_batch_info
     end.
Proof.
  cbn zeta. destruct batch_results as [results|].
  - unfold _process_batch_results.
    destruct (process_results_spec results self 0) as (_ & D & N & _).
    rewrite D, N, length_app, Z.add_0_l, Nat2Z.id.
    pose proof (results_logged_length results). split_and!; try done; lia.
  - rewrite process_batch_results_other. cbn [fst snd].
    rewrite checkpoint_all_dataset, checkpoint_all_file. split_and!; try done.
    all: cbn; lia.
Qed.

(** ** From the download to the worker *)

Lemma append_nonempty s1 c s2 : s1 +:+ String c s2 <> "".
Proof. by destruct s1. Qed.

(** X9: a paper [download_paper] returns is the listed paper with the two
    keys ["local_path"] and ["temp_dir"] added, and the worker converts it
    from the file gsutil has written: the path is not empty, so the result
    is a Failure for a missing PDF only when the file is not there, and
    otherwise what the conversion of that file gives. *)
Theorem fetched_paper_is_converted_from_its_file (paper paper_data : Py.dict) :
  download_paper mkdtemp gsutil_cp paper = Some paper_data ->
  exists arxiv_id url stderr,
    let paper_dir := mkdtemp (arxiv_id +:+ "_") in
    let pdf_path := paper_dir +:+ "/" +:+ arxiv_id +:+ ".pdf" in
    paper !! "arxiv_id" = Some arxiv_id
    /\ paper !! "url" = Some url
    /\ gsutil_cp url pdf_path = CpExit 0 stderr
    /\ paper_data = <[ "temp_dir" := paper_dir ]> (<[ "local_path" := pdf_path ]> paper)
    /\ convert_paper path_exists convert paper_data
       = if path_exists pdf_path
         then match convert arxiv_id pdf_path with
              | Converted markdown => success arxiv_id markdown
              | ConversionRaised e => failure arxiv_id e
              end
         else failure arxiv_id "PDF path missing or invalid.".
Proof.
  unfold download_paper.
  destruct (paper !! "arxiv_id") as [arxiv_id|] eqn:Hid; [|done].
  destruct (paper !! "url") as [url|] eqn:Hurl; [|done].
  destruct (gsutil_cp url _) as [returncode stderr| |msg] eqn:Hcp; try done.
  case_bool_decide as Hrc; [|done]. subst returncode. intros [= <-].
  exists arxiv_id, url, stderr. cbn zeta. split_and!; try done.
  unfold convert_paper, Py.get.
  rewrite lookup_insert_ne by done. rewrite lookup_insert_eq.
  rewrite !lookup_insert_ne by done. rewrite Hid. cbn [default from_option id].
  assert (Hne : mkdtemp (arxiv_id +:+ "_") +:+ "/" +:+ arxiv_id +:+ ".pdf" <> "")
    by apply (append_nonempty _ "/"%char).
  rewrite (bool_decide_eq_false_2 _ Hne). cbn [orb].
  by destruct (path_exists _).
Qed.

(** ** Worker identifiers *)

Lemma run_batch_counter self batch start_error proc ex self' r :
  run_batch path_exists convert self batch start_error proc ex = (self', r) ->
  worker_process_counter self' = (worker_process_counter self + 1)%Z.
Proof.
  destruct start_error as [e|].
  { rewrite run_batch_spawn_failure. by intros [= <- <-]. }
  set (self1 := set_worker_process_counter (worker_process_counter self + 1) self).
  assert (Hlist : forall self2 results self3 n,
            worker_process_counter self2 = (worker_process_counter self + 1)%Z ->
            _process_batch_results self2 (Py.List results) batch = (self3, n) ->
            worker_process_counter self3 = (worker_process_counter self + 1)%Z).
  { intros self2 results self3 n H2 H3. unfold _process_batch_results in H3.
    destruct (process_results_spec results self2 0) as (_ & _ & _ & _ & W).
    rewrite H3 in W. cbn [fst] in W. by rewrite W. }
  destruct (convert_batch_cases self batch (batch_timeout self) proc)
    as (Hempty & Hraised & Hjoin & Hdelivered).
  fold self1 in Hempty, Hraised, Hjoin, Hdelivered.
  unfold run_batch.
  destruct ex as [init_error|init_error msg| |msg]; cbn [executor_wait];
    rewrite ?Hdelivered, ?Hjoin, ?Hempty, ?Hraised;
    destruct (_process_batch_results _ _ _) as [self3 n] eqn:E; intros [= <- <-];
    (eapply Hlist; [|exact E]); by rewrite ?checkpoint_all_counter.
Qed.

Lemma step_counter s e s' :
  worker_process_counter (controller s) = Z.of_nat (length (history s)) ->
  step path_exists convert s e = Some s' ->
  worker_process_counter (controller s') = Z.of_nat (length (history s')).
Proof.
  destruct s as [self d q p h]. cbn [controller history]. intros Hinv H.
  step_cases H; try exact Hinv.
  all: match goal with
       | Hr : run_batch _ _ _ _ _ _ _ = _ |- _ => apply run_batch_counter in Hr; rewrite Hr
       end.
  all: rewrite length_app; cbn [length]; lia.
Qed.

(** X10: the worker identifiers count the batches.  Every call of
    [convert_batch_with_process_timeout] increments
    [worker_process_counter] once, whatever the executor does, and nothing
    else assigns it: in a run of a fresh controller the counter is the number
    of batches handed over so far, so the n-th batch runs as worker n. *)
Theorem worker_ids_count_batches
    (batch_size prefetch_factor timeout : Z) (checkpoint : list string)
    (dataset : list Py.dict) (papers_metadata : list Py.dict)
    (events : list event) (s : pipeline) :
  exec path_exists convert
    (start mkdtemp gsutil_cp
       (init batch_size prefetch_factor timeout checkpoint dataset) papers_metadata)
    events = Some s ->
  worker_process_counter (controller s) = Z.of_nat (length (submitted s)).
Proof.
  intros Hexec. unfold submitted. rewrite length_map.
  refine (exec_invariant
            (fun s => worker_process_counter (controller s) = Z.of_nat (length (history s)))
            _ events _ s _ Hexec).
  - intros s1 e s2 H1 Hstep. by eapply step_counter.
  - done.
Qed.

(** ** Figures in the markdown *)

Lemma has_char_app (c : ascii) (s r : string) : has_char c (s +:+ String c r) = true.
Proof.
  induction s as [|c' s IH]; rewrite ?string_app_nil_l, ?string_app_cons; cbn.
  - by rewrite bool_decide_eq_true_2.
  - rewrite IH. apply orb_true_r.
Qed.

Lemma last_char_app (c : ascii) (s : string) : last_char (s +:+ String c "") = Some c.
Proof.
  induction s as [|c' s IH]; [done|]. rewrite string_app_cons; cbn [last_char]. rewrite IH.
  by destruct (s +:+ String c "") eqn:E; [destruct s|].
Qed.

Lemma replace_first_eq (old new s : string) :
  replace_first old new s
  = if String.prefix old s then new +:+ skip (String.length old) s
    else match s with
         | EmptyString => EmptyString
         | String c s' => String c (replace_first old new s')
         end.
Proof. by destruct s. Qed.

Lemma contains_nil (old : string) : contains old "" = false -> old <> "".
Proof. by destruct old. Qed.

Lemma contains_prefix (old s : string) :
  contains old s = false -> String.prefix old s = false.
Proof. destruct s; cbn [contains]; intros H; by apply orb_false_elim in H as [? _]. Qed.

(** No occurrence: nothing is replaced. *)
Lemma replace_first_none (old new s : string) :
  contains old s = false -> replace_first old new s = s.
Proof.
  induction s as [|c s IH]; intros Hc; rewrite replace_first_eq, (contains_prefix _ _ Hc);
    [done|].
  rewrite contains_cons in Hc. apply orb_false_elim in Hc as [_ Hc]. by rewrite IH.
Qed.

(** An occurrence cannot reach over a character the pattern does not have. *)
Lemma prefix_blocked (p k : string) (c : ascii) (x : string) :
  String.prefix p k = false -> has_char c p = false ->
  String.prefix p (k +:+ String c x) = false.
Proof.
  intros Hk Hc. destruct (String.prefix p (k +:+ String c x)) eqn:E; [|done].
  apply prefix_app_cases in E as [E|(q & -> & Hq)]; [congruence|].
  destruct q as [|b q].
  - by rewrite string_app_nil_r, prefix_refl in Hk.
  - cbn in Hq. destruct (ascii_dec b c) as [->|]; [|done].
    by rewrite has_char_app in Hc.
Qed.

Lemma contains_blocked (p a b : string) (c : ascii) :
  contains p a = false -> contains p b = false -> has_char c p = false ->
  contains p (a +:+ String c b) = false.
Proof.
  intros Ha Hb Hc. induction a as [|k a IH].
  - rewrite string_app_nil_l, contains_cons, Hb, orb_false_r.
    apply (prefix_blocked p "" c b); [by apply contains_prefix|done].
  - change (String k a +:+ String c b) with (String k (a +:+ String c b)).
    rewrite contains_cons. rewrite contains_cons in Ha.
    apply orb_false_elim in Ha as [Hp Ha]. rewrite (IH Ha), orb_false_r.
    by apply (prefix_blocked p (String k a) c b).
Qed.

Lemma replace_first_past (p new k : string) (c : ascii) (x : string) :
  contains p k = false -> has_char c p = false ->
  replace_first p new (k +:+ String c x) = k +:+ String c (replace_first p new x).
Proof.
  intros Hk Hc. induction k as [|b k IH].
  - rewrite string_app_nil_l, replace_first_eq.
    pose proof (prefix_blocked p "" c x (contains_prefix _ _ Hk) Hc) as Hb.
    rewrite string_app_nil_l in Hb. by rewrite Hb.
  - change (String b k +:+ String c x) with (String b (k +:+ String c x)).
    rewrite replace_first_eq.
    rewrite contains_cons in Hk. apply orb_false_elim in Hk as [Hp Hk].
    change (String b (k +:+ String c x)) with (String b k +:+ String c x) at 1.
    rewrite (prefix_blocked p (String b k) c x Hp Hc). by rewrite (IH Hk).
Qed.

(** An occurrence ends with the last character of the pattern. *)
Lemma prefix_end (p k : string) (c : ascii) :
  String.prefix p k = false -> last_char p <> Some c ->
  String.prefix p (k +:+ String c "") = false.
Proof.
  intros Hk Hc. destruct (String.prefix p (k +:+ String c "")) eqn:E; [|done].
  apply prefix_app_cases in E as [E|(q & -> & Hq)]; [congruence|].
  destruct q as [|b q].
  - by rewrite string_app_nil_r, prefix_refl in Hk.
  - cbn in Hq. destruct (ascii_dec b c) as [->|]; [|done].
    apply prefix_nil_r in Hq as ->. by rewrite last_char_app in Hc.
Qed.

Lemma contains_end (p a : string) (c : ascii) :
  contains p a = false -> last_char p <> Some c ->
  contains p (a +:+ String c "") = false.
Proof.
  intros Ha Hc. induction a as [|k a IH].
  - rewrite string_app_nil_l, contains_cons, Ha, orb_false_r.
    apply (prefix_end p "" c); [by apply contains_prefix|done].
  - change (String k a +:+ String c "") with (String k (a +:+ String c "")).
    rewrite contains_cons. rewrite contains_cons in Ha.
    apply orb_false_elim in Ha as [Hp Ha]. rewrite (IH Ha), orb_false_r.
    by apply (prefix_end p (String k a) c).
Qed.

(** The leftmost occurrence of a pattern whose first character does not
    occur again in it. *)
Lemma replace_first_at (a : ascii) (p new t r : string) :
  has_char a p = false -> contains (String a p) t = false ->
  replace_first (String a p) new (t +:+ String a p +:+ r) = t +:+ new +:+ r.
Proof.
  intros Ha Ht. induction t as [|b t IH].
  - rewrite ?string_app_nil_l, ?string_app_cons. rewrite replace_first_eq.
    change (String a (p +:+ r)) with (String a p +:+ r).
    by rewrite prefix_app_self, skip_app.
  - change (String b t +:+ String a p +:+ r) with (String b (t +:+ String a p +:+ r)).
    rewrite replace_first_eq.
    rewrite contains_cons in Ht. apply orb_false_elim in Ht as [Hp Ht].
    change (String b (t +:+ String a p +:+ r)) with (String b t +:+ String a (p +:+ r)) at 1.
    destruct (String.prefix (String a p) (String b t +:+ String a (p +:+ r))) eqn:E.
    + apply prefix_app_cases in E as [E|(q & Hq & Hpre)]; [congruence|].
      destruct q as [|c q].
      * rewrite string_app_nil_r in Hq. by rewrite Hq, prefix_refl in Hp.
      * cbn in Hpre. destruct (ascii_dec c a) as [->|]; [|done].
        cbn in Hq. injection Hq as _ ->. by rewrite has_char_app in Ha.
    + by rewrite (IH Ht).
Qed.

Lemma embed_images_none (markdown : string) (image_urls : list string) :
  contains image_placeholder markdown = false ->
  embed_images markdown image_urls = markdown.
Proof.
  intros Hc. induction image_urls as [|url urls IH]; [done|].
  unfold embed_images in *. cbn [fold_left]. by rewrite replace_first_none.
Qed.

Lemma image_link_closed (head url : string) :
  contains image_placeholder head = false ->
  contains image_placeholder url = false ->
  contains image_placeholder (head +:+ "![image](" +:+ url) = false.
Proof.
  intros Hh Hu.
  replace (head +:+ "![image](" +:+ url)
    with ((head +:+ "!") +:+ String "[" ("image" +:+ String "]" ("" +:+ String "(" url)))
    by (by rewrite string_app_assoc).
  apply contains_blocked; [by apply contains_end| |done].
  apply contains_blocked; [done| |done].
  by apply contains_blocked.
Qed.

Lemma embed_images_past (k : string) (c : ascii) (x : string) (image_urls : list string) :
  contains image_placeholder k = false -> has_char c image_placeholder = false ->
  embed_images (k +:+ String c x) image_urls = k +:+ String c (embed_images x image_urls).
Proof.
  intros Hk Hc. revert x. induction image_urls as [|url urls IH]; intros x; [done|].
  unfold embed_images in *. cbn [fold_left]. by rewrite replace_first_past, IH.
Qed.

Lemma embed_images_cons (markdown url : string) (image_urls : list string) :
  embed_images markdown (url :: image_urls)
  = embed_images (replace_first image_placeholder (image_link url) markdown) image_urls.
Proof. done. Qed.

Lemma replace_placeholder (t new r : string) :
  contains image_placeholder t = false ->
  replace_first image_placeholder new (t +:+ image_placeholder +:+ r) = t +:+ new +:+ r.
Proof. intros Ht. by apply (replace_first_at "<" "!-- image -->"). Qed.

Lemma image_link_past (head url x : string) (image_urls : list string) :
  contains image_placeholder head = false ->
  contains image_placeholder url = false ->
  embed_images (head +:+ image_link url +:+ x) image_urls
  = head +:+ image_link url +:+ embed_images x image_urls.
Proof.
  intros Hh Hu.
  replace (head +:+ image_link url +:+ x)
    with ((head +:+ "![image](" +:+ url) +:+ String ")" x)
    by (unfold image_link; by rewrite !string_app_assoc).
  rewrite embed_images_past; [|by apply image_link_closed|done].
  unfold image_link. by rewrite !string_app_assoc.
Qed.

Lemma prefix_has_char (a : ascii) (p s : string) :
  has_char a s = false -> String.prefix (String a p) s = false.
Proof.
  destruct s as [|b s]; [done|]. cbn. intros H. apply orb_false_elim in H as [Hb _].
  apply bool_decide_eq_false in Hb. by destruct (ascii_dec a b) as [->|].
Qed.

Lemma contains_has_char (a : ascii) (p s : string) :
  has_char a s = false -> contains (String a p) s = false.
Proof.
  induction s as [|b s IH]; intros H; [done|].
  rewrite contains_cons, (prefix_has_char a p _ H). cbn [has_char] in H.
  apply orb_false_elim in H as [_ H]. by rewrite IH.
Qed.

Lemma embed_images_filled (head : string) (segments image_urls : list string) :
  contains image_placeholder head = false ->
  Forall (fun segment => contains image_placeholder segment = false) segments ->
  Forall (fun url => contains image_placeholder url = false) image_urls ->
  embed_images (head +:+ filled segments []) image_urls = head +:+ filled segments image_urls.
Proof.
  intros Hh Hs Hu. revert head Hh image_urls Hu.
  induction Hs as [|segment segments Hseg _ IH]; intros head Hh image_urls Hu.
  - cbn [filled]. rewrite string_app_nil_r. by apply embed_images_none.
  - destruct Hu as [|url urls Hurl Hu]; [done|].
    cbn [filled]. rewrite embed_images_cons, replace_placeholder by done.
    rewrite image_link_past by done. by rewrite IH.
Qed.

(** X11: the loop that puts the figures into the markdown fills the
    placeholders from the left, one URL each, in the order of the uploads.
    For a markdown text cut at its placeholders and URLs that do not
    contain the placeholder, the k-th placeholder becomes the link to the
    k-th URL; placeholders beyond the number of URLs stay as they are, and
    URLs beyond the number of placeholders are dropped.  The URL
    [upload_to_r2] returns for the file name of a figure contains no
    placeholder when the identifier of the paper and that of the figure
    have no ["<"]. *)
Theorem embed_images_fills_in_order :
  (forall (head : string) (segments image_urls : list string),
     contains image_placeholder head = false ->
     Forall (fun segment => contains image_placeholder segment = false) segments ->
     Forall (fun url => contains image_placeholder url = false) image_urls ->
     embed_images (head +:+ filled segments []) image_urls
     = head +:+ filled segments image_urls)
  /\ (forall arxiv_id figure_id : string,
        has_char "<" arxiv_id = false ->
        has_char "<" figure_id = false ->
        contains image_placeholder (upload_to_r2 (image_filename arxiv_id figure_id)) = false).
Proof.
  split; [apply embed_images_filled|].
  intros arxiv_id figure_id Ha Hf. apply (contains_has_char "<" "!-- image -->").
  unfold upload_to_r2, image_filename. rewrite !has_char_append, Ha, Hf. done.
Qed.

End Properties.


(** * Properties of the upload script *)

Section UploadProperties.

Import Upload.

Variable path_exists : string -> bool.
Variable convert : string -> string -> conversion.
Variable api : list string -> api_outcome.

Set Default Proof Using "Type".

(** ** [get_arxiv_metadata_batch] *)

Lemma copy_entry_insert src dst entry (metadata_map : gmap string metadata) :
  copy_entry src dst (<[ src := entry ]> metadata_map)
  = <[ dst := entry ]> (<[ src := entry ]> metadata_map).
Proof. unfold copy_entry. by rewrite lookup_insert_eq. Qed.

Lemma store_result_eq (metadata_map : gmap string metadata) result :
  store_result metadata_map result
  = <[ get_short_id result := result_metadata result ]>
      (<[ base_key result := result_metadata result ]> metadata_map).
Proof. unfold store_result. cbn zeta. by rewrite copy_entry_insert. Qed.

Lemma store_default_eq (metadata_map : gmap string metadata) an_id :
  store_default metadata_map an_id
  = <[ an_id := empty_metadata ]> (<[ before_v an_id := empty_metadata ]> metadata_map).
Proof. unfold store_default. cbn zeta. by rewrite copy_entry_insert. Qed.

Lemma store_results_other results (metadata_map : gmap string metadata) k :
  (forall result, result ∈ results -> k <> base_key result /\ k <> get_short_id result) ->
  fold_left store_result results metadata_map !! k = metadata_map !! k.
Proof.
  revert metadata_map. induction results as [|result results IH]; intros metadata_map Hk;
    [done|].
  cbn [fold_left]. rewrite IH by (intros r Hr; apply Hk; by right).
  destruct (Hk result) as [Hb Hs]; [left|].
  rewrite store_result_eq. by rewrite !lookup_insert_ne.
Qed.

Lemma store_result_key (metadata_map : gmap string metadata) result k :
  k = base_key result \/ k = get_short_id result ->
  store_result metadata_map result !! k = Some (result_metadata result).
Proof.
  intros Hk. rewrite store_result_eq.
  destruct (decide (k = get_short_id result)) as [->|Hne]; [by rewrite lookup_insert_eq|].
  destruct Hk as [->| ->]; [|done]. rewrite lookup_insert_ne by done.
  by rewrite lookup_insert_eq.
Qed.

Lemma store_results_values (P : metadata -> Prop) results (metadata_map : gmap string metadata) :
  (forall result, result ∈ results -> P (result_metadata result)) ->
  (forall k entry, metadata_map !! k = Some entry -> P entry) ->
  forall k entry, fold_left store_result results metadata_map !! k = Some entry -> P entry.
Proof.
  revert metadata_map. induction results as [|result results IH]; intros metadata_map Hr Hm;
    [exact Hm|].
  cbn [fold_left]. apply IH; [intros r Hin; apply Hr; by right|].
  intros k entry. rewrite store_result_eq.
  destruct (decide (k = get_short_id result)) as [->|Hs].
  { rewrite lookup_insert_eq. intros [= <-]. apply Hr. left. }
  rewrite lookup_insert_ne by done.
  destruct (decide (k = base_key result)) as [->|Hb].
  { rewrite lookup_insert_eq. intros [= <-]. apply Hr. left. }
  rewrite lookup_insert_ne by done. apply Hm.
Qed.

Lemma store_defaults_values arxiv_ids (metadata_map : gmap string metadata) :
  (forall k entry, metadata_map !! k = Some entry -> entry = empty_metadata) ->
  forall k entry,
    fold_left store_default arxiv_ids metadata_map !! k = Some entry ->
    entry = empty_metadata.
Proof.
  revert metadata_map. induction arxiv_ids as [|an_id arxiv_ids IH]; intros metadata_map Hm;
    [exact Hm|].
  cbn [fold_left]. apply IH. intros k entry. rewrite store_default_eq.
  destruct (decide (k = an_id)) as [->|Hs].
  { rewrite lookup_insert_eq. by intros [= <-]. }
  rewrite lookup_insert_ne by done.
  destruct (decide (k = before_v an_id)) as [->|Hb].
  { rewrite lookup_insert_eq. by intros [= <-]. }
  rewrite lookup_insert_ne by done. apply Hm.
Qed.

(** What [ensure_entry] does to the map. *)
Lemma ensure_entry_cases (metadata_map : gmap string metadata) an_id :
  let base_entry := default empty_metadata (metadata_map !! before_v an_id) in
  let with_base :=
    match metadata_map !! before_v an_id with
    | Some _ => metadata_map
    | None => <[ before_v an_id := empty_metadata ]> metadata_map
    end in
  ensure_entry metadata_map an_id
  = match with_base !! an_id with
    | Some _ => with_base
    | None => <[ an_id := base_entry ]> with_base
    end.
Proof.
  cbn zeta. unfold ensure_entry, copy_entry.
  destruct (metadata_map !! before_v an_id) as [entry|] eqn:Hb.
  - rewrite (bool_decide_eq_true_2 (is_Some (Some entry))) by (by eexists).
    destruct (metadata_map !! an_id) as [entry'|] eqn:Ha.
    + by rewrite (bool_decide_eq_true_2 (is_Some (Some entry'))) by (by eexists).
    + rewrite (bool_decide_eq_false_2 (is_Some None)) by (by intros [? ?]). by rewrite Hb.
  - rewrite (bool_decide_eq_false_2 (is_Some None)) by (by intros [? ?]).
    destruct (<[ before_v an_id := empty_metadata ]> metadata_map !! an_id)
      as [entry'|] eqn:Ha.
    + by rewrite (bool_decide_eq_true_2 (is_Some (Some entry'))) by (by eexists).
    + rewrite (bool_decide_eq_false_2 (is_Some None)) by (by intros [? ?]).
      by rewrite lookup_insert_eq.
Qed.

Lemma ensure_entry_lookup (metadata_map : gmap string metadata) an_id k :
  ensure_entry metadata_map an_id !! k
  = match metadata_map !! k with
    | Some entry => Some entry
    | None =>
        if bool_decide (k = before_v an_id) then Some empty_metadata
        else if bool_decide (k = an_id)
             then Some (default empty_metadata (metadata_map !! before_v an_id))
             else None
    end.
Proof.
  rewrite ensure_entry_cases. cbn zeta.
  destruct (metadata_map !! before_v an_id) as [base_entry|] eqn:Hb; cbn [default].
  - destruct (metadata_map !! an_id) as [entry|] eqn:Ha.
    + destruct (metadata_map !! k) as [entry'|] eqn:Hk; [done|].
      rewrite bool_decide_eq_false_2 by congruence.
      by rewrite bool_decide_eq_false_2 by congruence.
    + destruct (decide (k = an_id)) as [->|Hne].
      * rewrite lookup_insert_eq, Ha. rewrite bool_decide_eq_false_2 by congruence.
        by rewrite bool_decide_eq_true_2.
      * rewrite lookup_insert_ne by done.
        destruct (metadata_map !! k) as [entry'|] eqn:Hk; [done|].
        rewrite bool_decide_eq_false_2 by congruence.
        by rewrite bool_decide_eq_false_2.
  - destruct (decide (an_id = before_v an_id)) as [Heq|Hne].
    + rewrite <- Heq. rewrite lookup_insert_eq.
      destruct (decide (k = an_id)) as [->|Hk].
      * rewrite lookup_insert_eq. rewrite <- Heq in Hb. rewrite Hb.
        by rewrite bool_decide_eq_true_2.
      * rewrite lookup_insert_ne by done.
        destruct (metadata_map !! k) as [entry'|] eqn:Hk'; [done|].
        by rewrite !bool_decide_eq_false_2.
    + rewrite lookup_insert_ne by done.
      destruct (metadata_map !! an_id) as [entry|] eqn:Ha.
      * destruct (decide (k = before_v an_id)) as [->|Hk].
        { rewrite lookup_insert_eq, Hb. by rewrite bool_decide_eq_true_2. }
        rewrite lookup_insert_ne by done.
        destruct (metadata_map !! k) as [entry'|] eqn:Hk'; [done|].
        rewrite bool_decide_eq_false_2 by done.
        by rewrite bool_decide_eq_false_2 by congruence.
      * destruct (decide (k = an_id)) as [->|Hk].
        { rewrite lookup_insert_eq, Ha. rewrite bool_decide_eq_false_2 by done.
          by rewrite bool_decide_eq_true_2. }
        rewrite lookup_insert_ne by done.
        destruct (decide (k = before_v an_id)) as [->|Hk'].
        { rewrite lookup_insert_eq, Hb. by rewrite bool_decide_eq_true_2. }
        rewrite lookup_insert_ne by done.
        destruct (metadata_map !! k) as [entry'|] eqn:Hk''; [done|].
        by rewrite !bool_decide_eq_false_2.
Qed.

Lemma ensure_entries_keep arxiv_ids (metadata_map : gmap string metadata) k entry :
  metadata_map !! k = Some entry ->
  fold_left ensure_entry arxiv_ids metadata_map !! k = Some entry.
Proof.
  revert metadata_map. induction arxiv_ids as [|an_id arxiv_ids IH]; intros metadata_map Hk;
    [done|].
  cbn [fold_left]. apply IH. by rewrite ensure_entry_lookup, Hk.
Qed.

Lemma ensure_entry_covers (metadata_map : gmap string metadata) an_id :
  is_Some (ensure_entry metadata_map an_id !! an_id)
  /\ is_Some (ensure_entry metadata_map an_id !! before_v an_id).
Proof.
  rewrite !ensure_entry_lookup. split.
  - destruct (metadata_map !! an_id); [by eexists|].
    case_bool_decide; [by eexists|]. rewrite bool_decide_eq_true_2 by done. by eexists.
  - destruct (metadata_map !! before_v an_id); [by eexists|].
    rewrite bool_decide_eq_true_2 by done. by eexists.
Qed.

Lemma ensure_entries_cover arxiv_ids (metadata_map : gmap string metadata) an_id :
  an_id ∈ arxiv_ids ->
  is_Some (fold_left ensure_entry arxiv_ids metadata_map !! an_id)
  /\ is_Some (fold_left ensure_entry arxiv_ids metadata_map !! before_v an_id).
Proof.
  revert metadata_map. induction arxiv_ids as [|an_id' arxiv_ids IH]; intros metadata_map Hin.
  { by apply elem_of_nil in Hin. }
  cbn [fold_left]. apply elem_of_cons in Hin as [->|Hin]; [|by apply IH].
  destruct (ensure_entry_covers metadata_map an_id') as [[e1 H1] [e2 H2]].
  split; eexists; by apply ensure_entries_keep.
Qed.

Lemma ensure_entries_values (P : metadata -> Prop) arxiv_ids
    (metadata_map : gmap string metadata) :
  P empty_metadata ->
  (forall k entry, metadata_map !! k = Some entry -> P entry) ->
  forall k entry, fold_left ensure_entry arxiv_ids metadata_map !! k = Some entry -> P entry.
Proof.
  intros Hempty. revert metadata_map.
  induction arxiv_ids as [|an_id arxiv_ids IH]; intros metadata_map Hm; [exact Hm|].
  cbn [fold_left]. apply IH. intros k entry. rewrite ensure_entry_lookup.
  destruct (metadata_map !! k) as [entry'|] eqn:Hk; [intros [= <-]; by eapply Hm|].
  case_bool_decide; [by intros [= <-]|]. case_bool_decide; [|done].
  destruct (metadata_map !! before_v an_id) as [base_entry|] eqn:Hb; cbn [default];
    intros [= <-]; [by eapply Hm|done].
Qed.


Lemma split_nonempty sep s : Py.split sep s <> [].
Proof.
  destruct s as [|c s]; cbn [Py.split]; [done|]. case_bool_decide; [done|].
  by destruct (Py.split sep s).
Qed.

Lemma before_v_cons c s :
  before_v (String c s) = if bool_decide (c = "v"%char) then "" else String c (before_v s).
Proof.
  unfold before_v. cbn [Py.split]. case_bool_decide; [done|].
  pose proof (split_nonempty "v" s). by destruct (Py.split "v" s).
Qed.

Lemma before_v_no_v s : has_char "v" (before_v s) = false.
Proof.
  induction s as [|c s IH]; [done|]. rewrite before_v_cons.
  case_bool_decide as Hc; [done|]. cbn [has_char]. by rewrite IH, bool_decide_eq_false_2.
Qed.

Lemma before_v_fixed s : has_char "v" s = false -> before_v s = s.
Proof.
  induction s as [|c s IH]; [done|]. cbn [has_char]. intros H.
  apply orb_false_elim in H as [Hc Hs]. rewrite before_v_cons, Hc. by rewrite IH.
Qed.

Lemma before_v_idemp s : before_v (before_v s) = before_v s.
Proof. apply before_v_fixed, before_v_no_v. Qed.

Lemma ensure_entry_unset (metadata_map : gmap string metadata) an_id k :
  unset metadata_map k -> unset metadata_map (before_v k) ->
  unset (ensure_entry metadata_map an_id) k
  /\ unset (ensure_entry metadata_map an_id) (before_v k).
Proof.
  unfold unset. intros Hk Hb. rewrite !ensure_entry_lookup. split.
  - destruct Hk as [-> | ->]; [|by right].
    case_bool_decide; [by right|]. case_bool_decide as Hid; [|by left]. subst an_id.
    right. by destruct Hb as [-> | ->].
  - destruct Hb as [-> | ->]; [|by right].
    case_bool_decide as H1; [by right|]. case_bool_decide as H2; [|by left].
    subst an_id. by rewrite before_v_idemp in H1.
Qed.

Lemma ensure_entries_unset arxiv_ids (metadata_map : gmap string metadata) k :
  unset metadata_map k -> unset metadata_map (before_v k) ->
  k ∈ arxiv_ids ->
  fold_left ensure_entry arxiv_ids metadata_map !! k = Some empty_metadata.
Proof.
  revert metadata_map. induction arxiv_ids as [|an_id arxiv_ids IH];
    intros metadata_map Hk Hb Hin.
  { by apply elem_of_nil in Hin. }
  cbn [fold_left]. destruct (decide (k = an_id)) as [<-|Hne].
  - apply ensure_entries_keep. rewrite ensure_entry_lookup.
    destruct Hk as [-> | ->]; [|done].
    case_bool_decide; [done|]. rewrite bool_decide_eq_true_2 by done.
    by destruct Hb as [-> | ->].
  - apply elem_of_cons in Hin as [?|Hin]; [done|].
    destruct (ensure_entry_unset metadata_map an_id k Hk Hb) as [Hk' Hb'].
    by apply IH.
Qed.

Lemma store_results_keys results (metadata_map : gmap string metadata) k :
  is_Some (fold_left store_result results metadata_map !! k) ->
  is_Some (metadata_map !! k)
  \/ exists result, result ∈ results /\ (k = base_key result \/ k = get_short_id result).
Proof.
  revert metadata_map. induction results as [|result results IH]; intros metadata_map Hk;
    [by left|].
  cbn [fold_left] in Hk. apply IH in Hk as [Hk|(r & Hr & Hkey)].
  - rewrite store_result_eq in Hk.
    destruct (decide (k = get_short_id result)) as [->|Hs].
    { right. exists result. split; [left|by right]. }
    rewrite lookup_insert_ne in Hk by done.
    destruct (decide (k = base_key result)) as [->|Hb].
    { right. exists result. split; [left|by left]. }
    rewrite lookup_insert_ne in Hk by done. by left.
  - right. exists r. split; [by right|done].
Qed.

(** The last loop links every key it adds to the text before the first
    ['v'] of the key: the two have the same entry. *)
Lemma ensure_entries_linked (results : list api_result) arxiv_ids
    (metadata_map : gmap string metadata) :
  (forall k,
     is_Some (metadata_map !! k) ->
     (exists result, result ∈ results /\ (k = base_key result \/ k = get_short_id result))
     \/ metadata_map !! k = metadata_map !! before_v k) ->
  forall k,
    is_Some (fold_left ensure_entry arxiv_ids metadata_map !! k) ->
    (exists result, result ∈ results /\ (k = base_key result \/ k = get_short_id result))
    \/ fold_left ensure_entry arxiv_ids metadata_map !! k
       = fold_left ensure_entry arxiv_ids metadata_map !! before_v k.
Proof.
  revert metadata_map. induction arxiv_ids as [|an_id arxiv_ids IH]; intros metadata_map Hm;
    [exact Hm|].
  cbn [fold_left]. apply IH. intros k Hk.
  rewrite ensure_entry_lookup in Hk. rewrite (ensure_entry_lookup _ _ k).
  destruct (metadata_map !! k) as [entry|] eqn:Ek.
  - destruct (Hm k) as [Hres|Heq]; [rewrite Ek; by eexists|by left|].
    right. rewrite ensure_entry_lookup, <- Heq, Ek. done.
  - case_bool_decide as H1.
    { subst k. right. rewrite ensure_entry_lookup, before_v_idemp, Ek.
      by rewrite bool_decide_eq_true_2. }
    case_bool_decide as H2; [|by destruct Hk]. subst k. right.
    rewrite ensure_entry_lookup.
    destruct (metadata_map !! before_v an_id) as [base_entry|]; [done|].
    by rewrite bool_decide_eq_true_2.
Qed.

(** X12: [get_arxiv_metadata_batch] answers for every identifier it is asked
    about, and for the text before its first ['v'], whatever the arXiv
    client does.  When the client raises, every entry is the empty metadata.
    When it returns results, every entry is the empty metadata or the
    metadata of a result; the last result stored under a key decides its
    entry; a requested identifier that no result is stored under gets the
    entry of the text before its first ['v'], which is a result's metadata
    when a result is stored under that text; and it gets the empty metadata
    when no result is stored under that text either. *)
Theorem get_arxiv_metadata_batch_covers (outcome : api_outcome) (arxiv_ids : list string) :
  let metadata_map := get_arxiv_metadata_batch outcome arxiv_ids in
  (forall an_id,
     an_id ∈ arxiv_ids ->
     is_Some (metadata_map !! an_id) /\ is_Some (metadata_map !! before_v an_id))
  /\ (outcome = ApiRaised ->
      forall k entry, metadata_map !! k = Some entry -> entry = empty_metadata)
  /\ (forall results,
        outcome = ApiResults results ->
        (forall k entry,
           metadata_map !! k = Some entry ->
           entry = empty_metadata
           \/ exists result, result ∈ results /\ entry = result_metadata result)
        /\ (forall before result after k,
              results = before ++ result :: after ->
              k = base_key result \/ k = get_short_id result ->
              (forall r, r ∈ after -> k <> base_key r /\ k <> get_short_id r) ->
              metadata_map !! k = Some (result_metadata result))
        /\ (forall an_id,
              an_id ∈ arxiv_ids ->
              (forall r, r ∈ results ->
                 (an_id <> base_key r /\ an_id <> get_short_id r)
                 /\ (before_v an_id <> base_key r /\ before_v an_id <> get_short_id r)) ->
              metadata_map !! an_id = Some empty_metadata)
        /\ (forall an_id,
              an_id ∈ arxiv_ids ->
              (forall r, r ∈ results -> an_id <> base_key r /\ an_id <> get_short_id r) ->
              metadata_map !! an_id = metadata_map !! before_v an_id)).
Proof.
  clear path_exists convert api.
  cbn zeta. unfold get_arxiv_metadata_batch. split_and!.
  - intros an_id Hin. by apply ensure_entries_cover.
  - intros -> k entry. apply (ensure_entries_values (fun entry => entry = empty_metadata));
      [done|].
    apply store_defaults_values. intros k' entry'. by rewrite lookup_empty.
  - intros results ->. split_and!.
    + intros k entry.
      apply (ensure_entries_values
               (fun entry => entry = empty_metadata
                             \/ exists result, result ∈ results /\ entry = result_metadata result));
        [by left|].
      apply (store_results_values
               (fun entry => entry = empty_metadata
                             \/ exists result, result ∈ results /\ entry = result_metadata result)).
      * intros result Hin. right. by exists result.
      * intros k' entry'. by rewrite lookup_empty.
    + intros before result after k -> Hk Hafter. apply ensure_entries_keep.
      rewrite fold_left_app. cbn [fold_left].
      rewrite (store_results_other after _ k Hafter). by apply store_result_key.
    + intros an_id Hin Hno. apply ensure_entries_unset; [| |done]; left;
        rewrite store_results_other; try apply lookup_empty; intros r Hr;
        by destruct (Hno r Hr).
    + intros an_id Hin Hno.
      destruct (ensure_entries_linked results arxiv_ids (fold_left store_result results ∅))
        with (k := an_id) as [(r & Hr & Hkey)|Heq].
      * intros k Hk. apply store_results_keys in Hk as [Hk|Hk]; [|by left].
        rewrite lookup_empty in Hk. by destruct Hk.
      * by apply ensure_entries_cover.
      * destruct (Hno r Hr). by destruct Hkey.
      * exact Heq.
Qed.

(** ** The slices of the fetch loop *)

Lemma slices_concat {A} (step n : nat) (l : list A) :
  concat (map (fun k => take step (drop (k * step) l)) (seq 0 n)) = take (n * step) l.
Proof.
  induction n as [|n IH]; [done|].
  rewrite seq_S, map_app, concat_app, IH. cbn [map concat plus]. rewrite app_nil_r.
  rewrite take_take_drop. f_equal. lia.
Qed.

Lemma py_range_slices {A} (step : nat) (l : list A) :
  map (fun i => take step (drop i l)) (py_range (length l) step)
  = map (fun k => take step (drop (k * step) l)) (seq 0 ((length l + step - 1) / step)).
Proof. unfold py_range. by rewrite map_map. Qed.

Lemma id_batches_concat (missing : list string) :
  concat (id_batches missing) = missing.
Proof.
  unfold id_batches. rewrite py_range_slices, slices_concat. apply take_ge.
  unfold BATCH_SIZE_ARXIV_API.
  pose proof (Nat.div_mod_eq (length missing + 100 - 1) 100) as Hd.
  pose proof (Nat.mod_upper_bound (length missing + 100 - 1) 100). lia.
Qed.

(** X13: the fetch loop asks for every missing identifier once: its slices,
    read one after the other, are the list of missing identifiers, no slice
    is empty and none has more than [BATCH_SIZE_ARXIV_API] identifiers. *)
Theorem id_batches_partition (missing : list string) :
  concat (id_batches missing) = missing
  /\ Forall (fun batch_ids => (1 <= length batch_ids <= BATCH_SIZE_ARXIV_API)%nat)
       (id_batches missing).
Proof.
  split; [apply id_batches_concat|].
  unfold id_batches. rewrite py_range_slices. unfold BATCH_SIZE_ARXIV_API.
  apply Forall_forall. intros batch_ids Hin.
  apply list_elem_of_fmap in Hin as (k & -> & Hk).
  apply list_elem_of_In, in_seq in Hk as [_ Hk]. cbn [plus] in Hk.
  rewrite length_take, length_drop.
  pose proof (Nat.div_mod_eq (length missing + 100 - 1) 100) as Hd.
  pose proof (Nat.mod_upper_bound (length missing + 100 - 1) 100). lia.
Qed.


(** ** Reading, fetching, enriching *)

Lemma read_line_Some line record :
  read_line line = Some record ->
  exists raw arxiv_id markdown,
    line = Some raw
    /\ raw !! "arxiv_id" = Some arxiv_id
    /\ raw !! "markdown" = Some markdown
    /\ record = <[ "clean_arxiv_id" := before_v arxiv_id ]> raw.
Proof.
  destruct line as [raw|]; [|done]. cbn [read_line].
  destruct (raw !! "arxiv_id") as [arxiv_id|] eqn:Hid; [|done].
  destruct (raw !! "markdown") as [markdown|] eqn:Hmd; [|done].
  intros [= <-]. by exists raw, arxiv_id, markdown.
Qed.

Lemma read_records_elem jsonl_files record :
  record ∈ read_records jsonl_files ->
  exists arxiv_id markdown,
    record !! "clean_arxiv_id" = Some (before_v arxiv_id)
    /\ record !! "arxiv_id" = Some arxiv_id
    /\ record !! "markdown" = Some markdown.
Proof.
  unfold read_records. intros Hin.
  apply list_elem_of_In, in_flat_map in Hin as (file & _ & Hin).
  apply list_elem_of_In, list_elem_of_omap in Hin as (line & _ & Hline).
  apply read_line_Some in Hline as (raw & arxiv_id & markdown & _ & Hid & Hmd & ->).
  exists arxiv_id, markdown. rewrite lookup_insert_eq, !lookup_insert_ne by done. done.
Qed.

Lemma unique_arxiv_ids_elem all_data clean_arxiv_id :
  clean_arxiv_id ∈ unique_arxiv_ids all_data
  <-> exists record, record ∈ all_data /\ record !! "clean_arxiv_id" = Some clean_arxiv_id.
Proof.
  unfold unique_arxiv_ids. rewrite merge_sort_Permutation, elem_of_remove_dups.
  apply list_elem_of_omap.
Qed.

Lemma missing_ids_elem (all_metadata : gmap string metadata) ids k :
  k ∈ ids -> is_Some (all_metadata !! k) \/ k ∈ missing_ids all_metadata ids.
Proof.
  intros Hin. destruct (all_metadata !! k) as [entry|] eqn:Hk; [left; by eexists|].
  right. unfold missing_ids. apply list_elem_of_In, filter_In. split.
  - by apply list_elem_of_In.
  - rewrite Hk. by rewrite bool_decide_eq_false_2 by (by intros [? ?]).
Qed.

Lemma batch_values (P : metadata -> Prop) outcome arxiv_ids :
  P empty_metadata ->
  (forall result, P (result_metadata result)) ->
  forall k entry, get_arxiv_metadata_batch outcome arxiv_ids !! k = Some entry -> P entry.
Proof.
  intros Hempty Hresult. unfold get_arxiv_metadata_batch.
  apply ensure_entries_values; [done|]. destruct outcome as [results|].
  - apply store_results_values; [intros; apply Hresult|].
    intros k entry. by rewrite lookup_empty.
  - intros k entry Hk. apply store_defaults_values in Hk as ->; [done|].
    intros k' entry'. by rewrite lookup_empty.
Qed.

Lemma fetch_keeps batches (all_metadata : gmap string metadata) k :
  is_Some (all_metadata !! k) ->
  is_Some (fold_left
             (fun all_metadata batch_ids =>
                get_arxiv_metadata_batch (api batch_ids) batch_ids ∪ all_metadata)
             batches all_metadata !! k).
Proof.
  revert all_metadata. induction batches as [|batch_ids batches IH]; intros all_metadata Hk;
    [done|].
  cbn [fold_left]. apply IH. apply lookup_union_is_Some. by right.
Qed.

Lemma fetch_covers batches (all_metadata : gmap string metadata) k :
  k ∈ concat batches ->
  is_Some (fold_left
             (fun all_metadata batch_ids =>
                get_arxiv_metadata_batch (api batch_ids) batch_ids ∪ all_metadata)
             batches all_metadata !! k).
Proof.
  revert all_metadata. induction batches as [|batch_ids batches IH]; intros all_metadata Hin.
  { by apply elem_of_nil in Hin. }
  cbn [concat fold_left] in *. apply elem_of_app in Hin as [Hin|Hin]; [|by apply IH].
  apply fetch_keeps. apply lookup_union_is_Some. left.
  unfold get_arxiv_metadata_batch. by apply ensure_entries_cover.
Qed.

Lemma fetch_values (P : metadata -> Prop) batches (all_metadata : gmap string metadata) :
  P empty_metadata ->
  (forall result, P (result_metadata result)) ->
  (forall k entry, all_metadata !! k = Some entry -> P entry) ->
  forall k entry,
    fold_left
      (fun all_metadata batch_ids =>
         get_arxiv_metadata_batch (api batch_ids) batch_ids ∪ all_metadata)
      batches all_metadata !! k = Some entry ->
    P entry.
Proof.
  intros Hempty Hresult. revert all_metadata.
  induction batches as [|batch_ids batches IH]; intros all_metadata Hm; [exact Hm|].
  cbn [fold_left]. apply IH. intros k entry Hk.
  apply lookup_union_Some_raw in Hk as [Hk|[_ Hk]].
  - by eapply batch_values.
  - by eapply Hm.
Qed.

Lemma no_record_keys :
  (empty_metadata !! "arxiv_id" = None /\ empty_metadata !! "markdown" = None)
  /\ (forall result,
        result_metadata result !! "arxiv_id" = None
        /\ result_metadata result !! "markdown" = None).
Proof. split; [|intros result]; split; by vm_compute. Qed.

(** X14: the script enriches every record it has read, in order, and never
    with the fallback of the lookup: after the fetch loop the metadata map
    has an entry for the clean identifier of every record, whatever the
    client returned or raised.  The enriched record is that entry with the
    two keys of the record; it keeps the identifier and the markdown of the
    record unless a metadata dictionary of the cache has such a key. *)
Theorem enriched_data_complete
    (jsonl_files : list (list (option Py.dict))) (cache : gmap string metadata) :
  read_records jsonl_files <> [] ->
  exists all_metadata enriched,
    enriched_data api jsonl_files cache = Some (all_metadata, enriched)
    /\ Forall2
         (fun record enriched_record =>
            exists arxiv_id markdown entry,
              record !! "arxiv_id" = Some arxiv_id
              /\ record !! "markdown" = Some markdown
              /\ all_metadata !! before_v arxiv_id = Some entry
              /\ enriched_record
                 = entry ∪ {[ "arxiv_id" := JStr arxiv_id; "markdown" := JStr markdown ]}
              /\ ((forall k cached,
                     cache !! k = Some cached ->
                     cached !! "arxiv_id" = None /\ cached !! "markdown" = None) ->
                  enriched_record !! "arxiv_id" = Some (JStr arxiv_id)
                  /\ enriched_record !! "markdown" = Some (JStr markdown)))
         (read_records jsonl_files) enriched.
Proof.
  clear path_exists convert.
  intros Hdata. unfold enriched_data.
  set (all_data := read_records jsonl_files) in *.
  set (all_metadata :=
         fetch_missing api cache (missing_ids cache (unique_arxiv_ids all_data))).
  assert (Hcover : forall record arxiv_id,
            record ∈ all_data ->
            record !! "clean_arxiv_id" = Some (before_v arxiv_id) ->
            is_Some (all_metadata !! before_v arxiv_id)).
  { intros record arxiv_id Hin Hclean. unfold all_metadata, fetch_missing.
    assert (Hu : before_v arxiv_id ∈ unique_arxiv_ids all_data).
    { apply unique_arxiv_ids_elem. by exists record. }
    destruct (missing_ids_elem cache _ _ Hu) as [Hc|Hm].
    - by apply fetch_keeps.
    - apply fetch_covers.
      by rewrite id_batches_concat. }
  assert (Henrich : Forall
            (fun record =>
               exists arxiv_id markdown entry,
                 record !! "arxiv_id" = Some arxiv_id
                 /\ record !! "markdown" = Some markdown
                 /\ all_metadata !! before_v arxiv_id = Some entry
                 /\ enrich all_metadata record
                    = Some (entry ∪ {[ "arxiv_id" := JStr arxiv_id;
                                       "markdown" := JStr markdown ]}))
            all_data).
  { apply Forall_forall. intros record Hin.
    destruct (read_records_elem _ _ Hin) as (arxiv_id & markdown & Hclean & Hid & Hmd).
    destruct (Hcover record arxiv_id Hin Hclean) as [entry Hentry].
    exists arxiv_id, markdown, entry. split_and!; try done.
    unfold enrich. by rewrite Hclean, Hid, Hmd, Hentry. }
  unfold fetch_missing. fold (fetch_missing api cache
                                (missing_ids cache (unique_arxiv_ids all_data))).
  fold all_metadata.
  assert (Hvalues : (forall k cached,
                       cache !! k = Some cached ->
                       cached !! "arxiv_id" = None /\ cached !! "markdown" = None) ->
                    forall k entry,
                      all_metadata !! k = Some entry ->
                      entry !! "arxiv_id" = None /\ entry !! "markdown" = None).
  { intros Hcache k entry Hentry. destruct no_record_keys as [Hempty Hresult].
    apply (fetch_values
             (fun entry => entry !! "arxiv_id" = None /\ entry !! "markdown" = None)
             _ cache Hempty Hresult Hcache _ _ Hentry). }
  clearbody all_metadata. clearbody all_data. clear Hcover.
  assert (Hmap : exists enriched,
            Forall2 (fun record enriched_record =>
                       enrich all_metadata record = Some enriched_record)
              all_data enriched).
  { clear Hdata. induction Henrich as [|record rest (? & ? & ? & _ & _ & _ & He) _ IH].
    - exists []. constructor.
    - destruct IH as (enriched & Hf). eexists (_ :: enriched).
      constructor; [exact He|exact Hf]. }
  destruct Hmap as (enriched & Hf).
  exists all_metadata, enriched. split.
  { apply mapM_Some_2 in Hf as Hm. destruct all_data; [done|]. by rewrite Hm. }
  clear Hdata.
  induction Hf as [|record enriched_record rest enriched He Hf IH]; [constructor|].
  apply Forall_cons in Henrich as [(arxiv_id & markdown & entry & Hid & Hmd & Hentry & He')
                                   Henrich].
  constructor.
  - rewrite He in He'. injection He' as ->.
    exists arxiv_id, markdown, entry. split_and!; try done.
    intros Hcache. destruct (Hvalues Hcache _ _ Hentry) as [H1 H2]. split.
    + apply lookup_union_Some_raw. right. split; [done|]. by vm_compute.
    + apply lookup_union_Some_raw. right. split; [done|]. by vm_compute.
  - by apply IH.
Qed.


(** ** From the pipeline to the upload *)

Lemma rsplit_v_before s base_id version_str :
  Py.rsplit_v s = Some (base_id, version_str) ->
  has_char "v" base_id = false ->
  before_v s = base_id.
Proof.
  revert base_id. induction s as [|c s IH]; intros base_id; [done|].
  cbn [Py.rsplit_v]. rewrite before_v_cons.
  destruct (Py.rsplit_v s) as [[b v]|].
  - intros [= <- <-]. cbn [has_char]. intros H. apply orb_false_elim in H as [Hc Hb].
    rewrite Hc. by rewrite (IH b).
  - case_bool_decide; [|done]. by intros [= <- <-].
Qed.

Lemma rsplit_v_none s : Py.rsplit_v s = None -> before_v s = s.
Proof.
  induction s as [|c s IH]; [done|]. cbn [Py.rsplit_v]. rewrite before_v_cons.
  destruct (Py.rsplit_v s) as [[b v]|]; [done|]. case_bool_decide; [done|].
  intros _. by rewrite IH.
Qed.

(** X15: no record the pipeline writes is skipped by the upload script.  A
    record a run has appended to the dataset is a Success, so the script
    keeps it and adds the text before the first ['v'] of its identifier as
    the clean identifier.  This is the base identifier [list_papers] grouped
    the versions by whenever that base identifier has no ['v'] itself. *)
Theorem pipeline_records_are_read (s : pipeline) (record : Py.dict) :
  record ∈ appended_records path_exists convert s ->
  exists arxiv_id markdown,
    record = success arxiv_id markdown
    /\ read_line (Some record) = Some (<[ "clean_arxiv_id" := before_v arxiv_id ]> record)
    /\ (has_char "v" (base_of arxiv_id) = false -> before_v arxiv_id = base_of arxiv_id).
Proof.
  clear api.
  unfold appended_records. intros Hin.
  apply results_logged_elem in Hin as [Hin Herr].
  apply list_elem_of_fmap in Hin as (paper_data & -> & _).
  destruct (convert_paper_logged path_exists convert _ Herr)
    as (local_path & markdown & _ & _ & ->).
  exists (paper_id paper_data), markdown. split_and!; [done|done|].
  unfold base_of. destruct (Py.rsplit_v (paper_id paper_data)) as [[b v]|] eqn:E.
  - intros Hb. by eapply rsplit_v_before.
  - intros _. by apply rsplit_v_none.
Qed.

End UploadProperties.


(** * Closed instances

    The amended statements at the concrete environment of [Example], and
    the inputs at which the statements of the specification fail. *)



(** C2, counterexample: a batch of one paper whose executor stays silent
    until the deadline.  The failure handler appends the identifier, and the
    processing of the Failure it returns appends it again. *)
Lemma timed_out_batch_checkpointed_twice :
  let batch := [Example.fetched "2101.00001v1"] in
  let self' :=
    fst (run_batch Example.path_exists Example.convert Example.self batch None
           Example.proc WorkerSilent) in
  checkpoint_file Example.self = []
  /\ checkpoint_file self' = ["2101.00001v1"; "2101.00001v1"]
  /\ occurrences "2101.00001v1" (checkpoint_file self') = 2.
Proof. cbn zeta. split_and!; vm_compute; reflexivity. Qed.

(** C3, counterexample: a batch of two papers whose worker fails to
    initialise the converter and delivers its marker in time.  The
    controller returns that one-element list: two items, one result, and
    the result names no item. *)
Lemma delivered_marker_is_not_one_result_per_item :
  let batch := [Example.fetched "2101.00001v1"; Example.fetched "2101.00004v1"] in
  snd (convert_batch_with_process_timeout Example.self batch 600 None Example.proc
         (executor_wait Example.path_exists Example.convert
            (WorkerPuts (Some (0%nat, "CUDA out of memory"))) batch))
  = inr (Py.List [batch_marker "CUDA out of memory"])
  /\ length [batch_marker "CUDA out of memory"] <> length batch
  /\ batch_marker "CUDA out of memory" !! "arxiv_id" = None.
Proof. cbn zeta. split_and!; [vm_compute; reflexivity|discriminate|reflexivity]. Qed.

(** C4, counterexample: the same batch inside the worker.  The failed
    initialisation yields one marker, not one Failure per item. *)
Lemma worker_init_failure_one_marker :
  let batch := [Example.fetched "2101.00001v1"; Example.fetched "2101.00004v1"] in
  let results :=
    batch_convert_worker Example.path_exists Example.convert
      (Some (0%nat, "CUDA out of memory")) batch in
  results = [batch_marker "CUDA out of memory"]
  /\ length results <> length batch.
Proof. cbn zeta. split; [reflexivity|discriminate]. Qed.

(** C4 at a batch of three papers whose second conversion raises: the
    third paper is converted all the same.  A paper without a downloaded
    file gets a Failure.  When an exception ends the batch after the first
    result, the worker delivers that result and the marker. *)
Lemma batch_convert_worker_results_witness :
  let failing := Example.fetched "2101.00005v1" in
  let local_path := "/tmp/arxiv_processing_0/2101.00005v1_/2101.00005v1.pdf" in
  let batch := [Example.fetched "2101.00001v1"; failing; Example.fetched "2101.00004v1"] in
  failing !! "local_path" = Some local_path
  /\ local_path <> ""
  /\ Example.path_exists local_path = true
  /\ convert_paper Example.path_exists Example.convert failing
     = failure "2101.00005v1" "docling failed"
  /\ Example.paper "2101.00006v1" !! "local_path" = None
  /\ convert_paper Example.path_exists Example.convert (Example.paper "2101.00006v1")
     = failure "2101.00006v1" "PDF path missing or invalid."
  /\ batch_convert_worker Example.path_exists Example.convert None batch
     = [success "2101.00001v1" "# 2101.00001v1";
        failure "2101.00005v1" "docling failed";
        success "2101.00004v1" "# 2101.00004v1"]
  /\ batch_convert_worker Example.path_exists Example.convert
       (Some (0%nat, "CUDA out of memory")) batch
     = [batch_marker "CUDA out of memory"]
  /\ batch_convert_worker Example.path_exists Example.convert
       (Some (1%nat, "[Errno 32] Broken pipe")) batch
     = [success "2101.00001v1" "# 2101.00001v1"; batch_marker "[Errno 32] Broken pipe"].
Proof.
  cbn zeta.
  assert (H1 : Example.fetched "2101.00005v1" !! "local_path"
               = Some "/tmp/arxiv_processing_0/2101.00005v1_/2101.00005v1.pdf").
  { vm_compute. reflexivity. }
  assert (H2 : "/tmp/arxiv_processing_0/2101.00005v1_/2101.00005v1.pdf" <> "").
  { discriminate. }
  assert (H3 : Example.path_exists "/tmp/arxiv_processing_0/2101.00005v1_/2101.00005v1.pdf"
               = true).
  { reflexivity. }
  assert (H4 : Example.paper "2101.00006v1" !! "local_path" = None).
  { vm_compute. reflexivity. }
  destruct (batch_convert_worker_results Example.path_exists Example.convert
              [Example.fetched "2101.00001v1"; Example.fetched "2101.00005v1";
               Example.fetched "2101.00004v1"])
    as (Hall & Hone & Hmissing & Hinit & Hpartial).
  split; [exact H1|]. split; [exact H2|]. split; [exact H3|]. split.
  { rewrite (Hone _ _ H1 H2 H3). vm_compute. reflexivity. }
  split; [exact H4|]. split.
  { rewrite (Hmissing _ (or_introl H4)). vm_compute. reflexivity. }
  split.
  { rewrite Hall. vm_compute. reflexivity. }
  split.
  { exact (Hinit "CUDA out of memory"). }
  rewrite (Hpartial 1%nat "[Errno 32] Broken pipe"). vm_compute. reflexivity.
Defined.

(** C5 at one Success and one Failure. *)
Lemma process_batch_results_commits_witness :
  let results :=
    [success "2101.00001v1" "# 2101.00001v1"; failure "2101.00005v1" "docling failed"] in
  let self' := fst (_process_batch_results Example.self (Py.List results) []) in
  Forall conversion_result results
  /\ logged_ids (dataset_file Example.self) ⊆ checkpoint_file Example.self
  /\ logged_ids (dataset_file self') ⊆ checkpoint_file self'
  /\ checkpoint_file self' = ["2101.00001v1"; "2101.00005v1"]
  /\ logged_ids (dataset_file self') = ["2101.00001v1"].
Proof.
  cbn zeta.
  assert (Hshape : Forall conversion_result
                     [success "2101.00001v1" "# 2101.00001v1";
                      failure "2101.00005v1" "docling failed"]).
  { constructor; [left; eauto|]. constructor; [right; left; eauto|]. constructor. }
  assert (Hlog : logged_ids (dataset_file Example.self) ⊆ checkpoint_file Example.self).
  { intros x Hx. exact Hx. }
  split; [exact Hshape|]. split; [exact Hlog|]. split.
  - exact (proj1 (proj2 (proj2 (process_batch_results_commits Example.self)))
             _ [] Hshape Hlog).
  - split; vm_compute; reflexivity.
Defined.

(** C6, counterexample: batch size 2.  After the first paper the downloads
    of five papers time out one after the other, so the [get] of the
    controller times out while the downloader is alive; the batch of one
    paper gathered so far is submitted, and a full batch follows it. *)
Lemma idle_timeout_submits_short_batch :
  exists s,
    exec Example.path_exists Example.convert
      (start Example.mkdtemp Example.gsutil_cp Example.self Example.papers_slow)
      Example.events_slow = Some s
    /\ pc s = Complete
    /\ batch_size Example.self = 2%Z
    /\ map (map paper_id) (submitted s)
       = [["2101.00001v1"]; ["2101.00003v1"; "2101.00004v1"]].
Proof.
  eexists. split_and!.
  - vm_compute. reflexivity.
  - reflexivity.
  - reflexivity.
  - vm_compute. reflexivity.
Qed.

(** C6 at the complete run [Example.events_many], in which no [get] times
    out: two full batches are followed by a last batch of one paper. *)
Lemma submitted_batch_sizes_witness :
  exec Example.path_exists Example.convert
    (start Example.mkdtemp Example.gsutil_cp Example.self Example.papers_many)
    Example.events_many
  = Some Example.pipeline_many_end
  /\ pc Example.pipeline_many_end = Complete
  /\ (QueueGetTimeout ∉ Example.events_many)
  /\ batch_size Example.self = 2%Z
  /\ Forall (fun batch => (1 <= length batch)%nat
                          /\ (Z.of_nat (length batch) <= batch_size Example.self)%Z)
       (submitted Example.pipeline_many_end)
  /\ Forall (fun batch => Z.of_nat (length batch) = batch_size Example.self)
       (removelast (submitted Example.pipeline_many_end))
  /\ map (map paper_id) (submitted Example.pipeline_many_end)
     = [["2101.00001v1"; "2101.00003v1"]; ["2101.00004v1"; "2101.00005v1"];
        ["2101.00006v1"]]
  /\ map (map paper_id) (removelast (submitted Example.pipeline_many_end))
     = [["2101.00001v1"; "2101.00003v1"]; ["2101.00004v1"; "2101.00005v1"]].
Proof.
  assert (Hexec : exec Example.path_exists Example.convert
                    (start Example.mkdtemp Example.gsutil_cp Example.self Example.papers_many)
                    Example.events_many = Some Example.pipeline_many_end).
  { vm_compute. reflexivity. }
  assert (Hno : QueueGetTimeout ∉ Example.events_many).
  { unfold Example.events_many.
    repeat (apply not_elem_of_cons; split; [discriminate|]). apply not_elem_of_nil. }
  destruct (submitted_batch_sizes Example.path_exists Example.convert Example.mkdtemp
              Example.gsutil_cp Example.self Example.papers_many Example.events_many
              Example.pipeline_many_end Hexec) as [Hsize Hfull].
  split; [exact Hexec|]. split; [reflexivity|]. split; [exact Hno|]. split; [reflexivity|].
  split; [exact Hsize|]. split; [exact (Hfull Hno)|].
  split; vm_compute; reflexivity.
Defined.

(** C7 at [Example.papers]: the first download succeeds although gsutil
    writes to its standard error, and the paper is put with its two new
    keys; the failed download of the second paper is checkpointed between
    the two puts, and the sentinel comes last. *)
Lemma downloader_thread_operations_witness :
  let succeeding := Example.paper "2101.00001v1" in
  let pdf_path := "/tmp/arxiv_processing_0/2101.00001v1_/2101.00001v1.pdf" in
  succeeding !! "arxiv_id" = Some "2101.00001v1"
  /\ succeeding !! "url" = Some "gs://b/2101.00001v1.pdf"
  /\ Example.gsutil_cp "gs://b/2101.00001v1.pdf"
       (Example.mkdtemp ("2101.00001v1" +:+ "_") +:+ "/" +:+ "2101.00001v1" +:+ ".pdf")
     = CpExit 0 "Operation completed over 1 objects."
  /\ download_paper Example.mkdtemp Example.gsutil_cp succeeding
     = Some (<[ "temp_dir" := "/tmp/arxiv_processing_0/2101.00001v1_" ]>
               (<[ "local_path" := pdf_path ]> succeeding))
  /\ download_paper Example.mkdtemp Example.gsutil_cp succeeding
     = Some (Example.fetched "2101.00001v1")
  /\ (exists arxiv_id url stderr,
        succeeding !! "arxiv_id" = Some arxiv_id
        /\ succeeding !! "url" = Some url
        /\ Example.gsutil_cp url
             (Example.mkdtemp (arxiv_id +:+ "_") +:+ "/" +:+ arxiv_id +:+ ".pdf")
           = CpExit 0 stderr
        /\ paper_id (Example.fetched "2101.00001v1") = arxiv_id
        /\ Example.fetched "2101.00001v1"
           = <[ "temp_dir" := Example.mkdtemp (arxiv_id +:+ "_") ]>
               (<[ "local_path" :=
                     Example.mkdtemp (arxiv_id +:+ "_") +:+ "/" +:+ arxiv_id +:+ ".pdf" ]>
                  succeeding))
  /\ downloader_thread Example.mkdtemp Example.gsutil_cp Example.papers
     = [QueuePut (Some (Example.fetched "2101.00001v1"));
        CheckpointAppend "2101.00002v1";
        QueuePut (Some (Example.fetched "2101.00003v1"));
        QueuePut None]
  /\ download_paper Example.mkdtemp Example.gsutil_cp (Example.paper "2101.00002v1") = None
  /\ paper_id (Example.paper "2101.00002v1")
     ∈ checkpoint_file (controller Example.pipeline_end).
Proof.
  cbn zeta.
  assert (Hexec : exec Example.path_exists Example.convert Example.pipeline_start
                    Example.events = Some Example.pipeline_end).
  { vm_compute. reflexivity. }
  assert (Hfail : download_paper Example.mkdtemp Example.gsutil_cp
                    (Example.paper "2101.00002v1") = None).
  { vm_compute. reflexivity. }
  assert (Hin : Example.paper "2101.00002v1" ∈ Example.papers).
  { right. left. }
  assert (Ha : Example.paper "2101.00001v1" !! "arxiv_id" = Some "2101.00001v1").
  { vm_compute. reflexivity. }
  assert (Hu : Example.paper "2101.00001v1" !! "url" = Some "gs://b/2101.00001v1.pdf").
  { vm_compute. reflexivity. }
  assert (Hcp : Example.gsutil_cp "gs://b/2101.00001v1.pdf"
                  (Example.mkdtemp ("2101.00001v1" +:+ "_") +:+ "/" +:+ "2101.00001v1"
                   +:+ ".pdf")
                = CpExit 0 "Operation completed over 1 objects.").
  { vm_compute. reflexivity. }
  destruct (downloader_thread_operations Example.path_exists Example.convert
              Example.mkdtemp Example.gsutil_cp Example.papers)
    as (Hops & Hsucceeds & Hok & _ & Hdone).
  pose proof (Hsucceeds _ _ _ _ Ha Hu Hcp) as Hfetch.
  assert (Hfetched : download_paper Example.mkdtemp Example.gsutil_cp
                       (Example.paper "2101.00001v1")
                     = Some (Example.fetched "2101.00001v1")).
  { rewrite Hfetch. reflexivity. }
  split; [exact Ha|]. split; [exact Hu|]. split; [exact Hcp|]. split.
  { rewrite Hfetch. vm_compute. reflexivity. }
  split; [exact Hfetched|]. split; [exact (Hok _ _ Hfetched)|]. split.
  - rewrite Hops. vm_compute. reflexivity.
  - split; [exact Hfail|].
    exact (Hdone Example.self Example.events Example.pipeline_end _ Hexec eq_refl Hin Hfail).
Defined.

(** C8, counterexample: prefetch factor 0 and batch size 1, so the queue is
    built with [maxsize = 0].  Both papers are put without blocking and the
    queue holds two entries, more than 0 x 1. *)
Lemma zero_prefetch_queue_unbounded :
  let self := init 1 0 300 [] [] in
  exists s,
    exec Example.path_exists Example.convert
      (start Example.mkdtemp Example.gsutil_cp self
         [Example.paper "2101.00001v1"; Example.paper "2101.00003v1"])
      [Download; Download] = Some s
    /\ (prefetch_factor self * batch_size self = 0)%Z
    /\ length (paper_queue s) = 2.
Proof.
  cbn zeta. eexists. split_and!.
  - vm_compute. reflexivity.
  - reflexivity.
  - reflexivity.
Qed.

(** C8 at capacity 1 x 2: after two puts the queue is full and the put of
    the sentinel does not go through. *)
Lemma paper_queue_bounded_witness :
  (0 < prefetch_factor Example.self * batch_size Example.self)%Z
  /\ exec Example.path_exists Example.convert Example.pipeline_start
       [Download; Download; Download] = Some Example.pipeline_full
  /\ (Z.of_nat (length (paper_queue Example.pipeline_full))
      <= prefetch_factor Example.self * batch_size Example.self)%Z
  /\ downloader Example.pipeline_full = [QueuePut None]
  /\ length (paper_queue Example.pipeline_full) = 2
  /\ step Example.path_exists Example.convert Example.pipeline_full Download = None.
Proof.
  assert (Hpos : (0 < prefetch_factor Example.self * batch_size Example.self)%Z).
  { reflexivity. }
  assert (Hexec : exec Example.path_exists Example.convert Example.pipeline_start
                    [Download; Download; Download] = Some Example.pipeline_full).
  { vm_compute. reflexivity. }
  destruct (paper_queue_bounded Example.path_exists Example.convert Example.mkdtemp
              Example.gsutil_cp Example.self Example.papers
              [Download; Download; Download] Example.pipeline_full Hpos Hexec)
    as [Hbound Hblocks].
  split; [exact Hpos|]. split; [exact Hexec|]. split; [exact Hbound|].
  split; [reflexivity|]. split; [reflexivity|].
  apply (Hblocks None []); reflexivity.
Defined.

(** C9 at a listing with two versions of one paper and a file name without
    a version.  With an empty checkpoint the newer version is returned and
    the older one is not; with the older version checkpointed the newer one
    is returned all the same. *)
Lemma list_papers_latest_versions_witness :
  let older := new_paper "2101.00001v1" "gs://b/2101.00001v1.pdf" in
  let newer := new_paper "2101.00001v2" "gs://b/2101.00001v2.pdf" in
  listed_urls Example.listing
  = ["gs://b/2101.00001v1.pdf"; "gs://b/2101.00001v2.pdf"; "gs://b/2101.00007.pdf"]
  /\ parse_url Example.py_int "gs://b/2101.00001v1.pdf" = ("2101.00001", 1%Z, "2101.00001v1")
  /\ parse_url Example.py_int "gs://b/2101.00001v2.pdf" = ("2101.00001", 2%Z, "2101.00001v2")
  /\ parse_url Example.py_int "gs://b/2101.00007.pdf" = ("2101.00007", 1%Z, "2101.00007")
  /\ processed_ids Example.self = ∅
  /\ list_papers Example.py_int Example.self 0 Example.listing
     = [newer; new_paper "2101.00007" "gs://b/2101.00007.pdf"]
  /\ (older ∉ list_papers Example.py_int Example.self 0 Example.listing)
  /\ processed_ids Example.resumed = {[ "2101.00001v1" ]}
  /\ list_papers Example.py_int Example.resumed 0 Example.listing
     = [newer; new_paper "2101.00007" "gs://b/2101.00007.pdf"]
  /\ newer ∈ list_papers Example.py_int Example.resumed 0 Example.listing
  /\ exists base_id url version_num arxiv_id,
       kept Example.py_int (listed_urls Example.listing) base_id url version_num arxiv_id
       /\ (arxiv_id ∉ processed_ids Example.resumed)
       /\ newer = new_paper arxiv_id url.
Proof.
  cbn zeta.
  assert (Hurls : listed_urls Example.listing
                  = ["gs://b/2101.00001v1.pdf"; "gs://b/2101.00001v2.pdf";
                     "gs://b/2101.00007.pdf"]).
  { vm_compute. reflexivity. }
  assert (Hlist : list_papers Example.py_int Example.resumed 0 Example.listing
                  = [new_paper "2101.00001v2" "gs://b/2101.00001v2.pdf";
                     new_paper "2101.00007" "gs://b/2101.00007.pdf"]).
  { vm_compute. reflexivity. }
  assert (Hin : new_paper "2101.00001v2" "gs://b/2101.00001v2.pdf"
                ∈ list_papers Example.py_int Example.resumed 0 Example.listing).
  { rewrite Hlist. left. }
  destruct (list_papers_latest_versions Example.py_int Example.self Example.listing)
    as (_ & _ & _ & _ & _ & Hversioned & Hplain & Hlower).
  assert (Hp1 : parse_url Example.py_int "gs://b/2101.00001v1.pdf"
                = ("2101.00001", 1%Z, "2101.00001v1")).
  { exact (Hversioned "gs:/" "2101.00001" "1" eq_refl eq_refl eq_refl). }
  assert (Hp2 : parse_url Example.py_int "gs://b/2101.00001v2.pdf"
                = ("2101.00001", 2%Z, "2101.00001v2")).
  { exact (Hversioned "gs:/" "2101.00001" "2" eq_refl eq_refl eq_refl). }
  assert (Hp3 : parse_url Example.py_int "gs://b/2101.00007.pdf"
                = ("2101.00007", 1%Z, "2101.00007")).
  { exact (Hplain "gs:/" "2101.00007" eq_refl eq_refl eq_refl). }
  assert (Hin1 : "gs://b/2101.00001v1.pdf" ∈ listed_urls Example.listing).
  { rewrite Hurls. left. }
  assert (Hin2 : "gs://b/2101.00001v2.pdf" ∈ listed_urls Example.listing).
  { rewrite Hurls. right. left. }
  assert (Hlt : (1 < 2)%Z).
  { reflexivity. }
  split; [exact Hurls|]. split; [exact Hp1|]. split; [exact Hp2|]. split; [exact Hp3|].
  split; [vm_compute; reflexivity|]. split; [vm_compute; reflexivity|].
  split; [exact (Hlower _ _ _ _ _ _ _ Hin1 Hin2 Hp1 Hp2 Hlt)|].
  split; [vm_compute; reflexivity|]. split; [exact Hlist|]. split; [exact Hin|].
  exact (proj1 (proj1 (list_papers_latest_versions Example.py_int Example.resumed
                         Example.listing) _) Hin).
Defined.

(** C10 at a resumed run: two identifiers are appended to the checkpoint
    file while [processed_ids] stays the set loaded at construction. *)
Lemma update_checkpoint_leaves_processed_ids_witness :
  exec Example.path_exists Example.convert Example.resumed_start Example.events_resumed
  = Some Example.resumed_end
  /\ pc Example.resumed_end = Complete
  /\ checkpoint_file (controller Example.resumed_end)
     = ["2101.00001v1"; "2101.00001v2"; "2101.00007"]
  /\ processed_ids (controller Example.resumed_end)
     = list_to_set (map Py.strip ["2101.00001v1"]).
Proof.
  assert (Hexec : exec Example.path_exists Example.convert Example.resumed_start
                    Example.events_resumed = Some Example.resumed_end).
  { vm_compute. reflexivity. }
  split; [exact Hexec|]. split; [reflexivity|]. split; [reflexivity|].
  exact (proj2 (update_checkpoint_leaves_processed_ids Example.path_exists Example.convert
                  Example.mkdtemp Example.gsutil_cp)
           2%Z 1%Z 300%Z ["2101.00001v1"] []
           (list_papers Example.py_int Example.resumed 0 Example.listing)
           Example.events_resumed Example.resumed_end Hexec).
Defined.

(** ** The further properties at concrete inputs *)

(** X1 at the complete run [Example.events]: the two fetched papers were
    submitted, in the order of the listing. *)
Lemma pipeline_first_in_first_out_witness :
  exec Example.path_exists Example.convert Example.pipeline_start Example.events
  = Some Example.pipeline_end
  /\ in_order Example.pipeline_end
     = fetched_papers Example.mkdtemp Example.gsutil_cp Example.papers
  /\ concat (submitted Example.pipeline_end)
     = [Example.fetched "2101.00001v1"; Example.fetched "2101.00003v1"].
Proof.
  assert (Hexec : exec Example.path_exists Example.convert Example.pipeline_start
                    Example.events = Some Example.pipeline_end).
  { vm_compute. reflexivity. }
  destruct (pipeline_first_in_first_out Example.path_exists Example.convert
              Example.mkdtemp Example.gsutil_cp Example.self Example.papers
              Example.events Example.pipeline_end Hexec) as [Hin Hdone].
  split; [exact Hexec|]. split; [exact Hin|].
  rewrite (Hdone eq_refl). vm_compute. reflexivity.
Defined.

(** X2 at the run [Example.events_partial]: the dataset holds the Success
    the worker had gathered when it delivered its marker. *)
Lemma dataset_records_are_conversions_witness :
  exec Example.path_exists Example.convert Example.pipeline_start Example.events_partial
  = Some Example.pipeline_partial_end
  /\ history Example.pipeline_partial_end
     = [([Example.fetched "2101.00001v1"; Example.fetched "2101.00003v1"],
         WorkerPuts (Some (1%nat, "[Errno 32] Broken pipe")))]
  /\ dataset_file (controller Example.pipeline_partial_end)
     = dataset_file Example.self
       ++ appended_records Example.path_exists Example.convert Example.pipeline_partial_end
  /\ dataset_file (controller Example.pipeline_partial_end)
     = [success "2101.00001v1" "# 2101.00001v1"]
  /\ appended_records Example.path_exists Example.convert Example.pipeline_partial_end
     = [success "2101.00001v1" "# 2101.00001v1"]
  /\ (forall record,
        record
        ∈ appended_records Example.path_exists Example.convert Example.pipeline_partial_end ->
        exists paper paper_data local_path markdown,
          paper ∈ Example.papers
          /\ download_paper Example.mkdtemp Example.gsutil_cp paper = Some paper_data
          /\ paper_data !! "local_path" = Some local_path
          /\ Example.convert (paper_id paper) local_path = Converted markdown
          /\ record = success (paper_id paper) markdown).
Proof.
  assert (Hexec : exec Example.path_exists Example.convert Example.pipeline_start
                    Example.events_partial = Some Example.pipeline_partial_end).
  { vm_compute. reflexivity. }
  destruct (dataset_records_are_conversions Example.path_exists Example.convert
              Example.mkdtemp Example.gsutil_cp Example.self Example.papers
              Example.events_partial Example.pipeline_partial_end Hexec) as [Hd Hr].
  split; [exact Hexec|]. split; [reflexivity|]. split; [exact Hd|].
  split; [vm_compute; reflexivity|]. split; [vm_compute; reflexivity|exact Hr].
Defined.

(** X3 at the complete run [Example.events]: three lines were appended, one
    per listed paper. *)
Lemma checkpoint_lines_are_listed_witness :
  exec Example.path_exists Example.convert Example.pipeline_start Example.events
  = Some Example.pipeline_end
  /\ checkpoint_file (controller Example.pipeline_end)
     = ["2101.00002v1"; "2101.00001v1"; "2101.00003v1"]
  /\ exists lines,
       checkpoint_file (controller Example.pipeline_end)
       = checkpoint_file Example.self ++ lines
       /\ (forall line,
             line ∈ lines -> exists paper, paper ∈ Example.papers /\ line = paper_id paper).
Proof.
  assert (Hexec : exec Example.path_exists Example.convert Example.pipeline_start
                    Example.events = Some Example.pipeline_end).
  { vm_compute. reflexivity. }
  split; [exact Hexec|]. split; [vm_compute; reflexivity|].
  exact (checkpoint_lines_are_listed Example.path_exists Example.convert
           Example.mkdtemp Example.gsutil_cp Example.self Example.papers
           Example.events Example.pipeline_end Hexec).
Defined.

(** X4 at a listing whose first line ends with a blank: the identifier cut
    out of it ends with the blank, the checkpoint file holds it, and the
    paper is listed all the same, because [processed_ids] holds the
    identifier without the blank.  A no-break space at the end of a line of
    the checkpoint file is removed as well. *)
Lemma load_checkpoint_strips_lines_witness :
  let url := "gs://b/2101.00001v1.pdf " in
  let arxiv_id := "2101.00001v1 " in
  kept Example.py_int (listed_urls Scenario.spaced_listing) "2101.00001" url 1 arxiv_id
  /\ Py.strip arxiv_id <> arxiv_id
  /\ arxiv_id ∈ checkpoint_file Scenario.spaced
  /\ "2101.00001v1" ∈ processed_ids (load_checkpoint Scenario.spaced)
  /\ new_paper arxiv_id url
     ∈ list_papers Example.py_int (load_checkpoint Scenario.spaced) 0 Scenario.spaced_listing
  /\ "2101.00003v1" +:+ Scenario.nbsp ∈ checkpoint_file Scenario.spaced
  /\ Py.strip ("2101.00003v1" +:+ Scenario.nbsp) = "2101.00003v1"
  /\ "2101.00003v1" ∈ processed_ids (load_checkpoint Scenario.spaced).
Proof.
  cbn zeta.
  assert (Hkept : kept Example.py_int (listed_urls Scenario.spaced_listing)
                    "2101.00001" "gs://b/2101.00001v1.pdf " 1 "2101.00001v1 ").
  { exists [], ["gs://b/2101.00003v1.pdf"]. split; [vm_compute; reflexivity|].
    split; [vm_compute; reflexivity|]. split.
    - intros url' version' paper_id' Hin. by apply elem_of_nil in Hin.
    - intros url' version' paper_id' Hin Hp.
      apply list_elem_of_singleton in Hin. subst url'. vm_compute in Hp. discriminate Hp. }
  assert (Hws : Py.strip "2101.00001v1 " <> "2101.00001v1 ").
  { vm_compute. discriminate. }
  assert (Hnbsp : Py.strip ("2101.00003v1" +:+ Scenario.nbsp) = "2101.00003v1").
  { vm_compute. reflexivity. }
  assert (Hline : "2101.00003v1" +:+ Scenario.nbsp ∈ checkpoint_file Scenario.spaced).
  { right. left. }
  destruct (load_checkpoint_strips_lines Example.py_int Scenario.spaced)
    as (Hiff & _ & Hlisted).
  split; [exact Hkept|]. split; [exact Hws|]. split; [left|]. split.
  { apply Hiff. exists "2101.00001v1 ". split; [left|vm_compute; reflexivity]. }
  split; [exact (Hlisted _ _ _ _ _ Hkept Hws)|].
  split; [exact Hline|]. split; [exact Hnbsp|].
  apply Hiff. exists ("2101.00003v1" +:+ Scenario.nbsp). split; [exact Hline|exact Hnbsp].
Defined.

(** X5 at the resumed run of [Example.resumed]: the first version is in
    the checkpoint file, and nothing is written for it. *)
Lemma resumed_run_skips_processed_witness :
  run_begin Example.mkdtemp Example.gsutil_cp Example.py_int
    (init 2 1 300 ["2101.00001v1"] []) 0 Example.listing = Some Example.resumed_start
  /\ exec Example.path_exists Example.convert Example.resumed_start Example.events_resumed
     = Some Example.resumed_end
  /\ exists lines,
       checkpoint_file (controller Example.resumed_end) = ["2101.00001v1"] ++ lines
       /\ dataset_file (controller Example.resumed_end)
          = [] ++ appended_records Example.path_exists Example.convert Example.resumed_end
       /\ NoDup (logged_ids
                   (appended_records Example.path_exists Example.convert Example.resumed_end))
       /\ (forall arxiv_id line,
             arxiv_id
             ∈ lines ++ logged_ids (appended_records Example.path_exists Example.convert
                                      Example.resumed_end) ->
             line ∈ ["2101.00001v1"] ->
             Py.strip line <> arxiv_id).
Proof.
  assert (Hbegin : run_begin Example.mkdtemp Example.gsutil_cp Example.py_int
                     (init 2 1 300 ["2101.00001v1"] []) 0 Example.listing
                   = Some Example.resumed_start).
  { vm_compute. reflexivity. }
  assert (Hexec : exec Example.path_exists Example.convert Example.resumed_start
                    Example.events_resumed = Some Example.resumed_end).
  { vm_compute. reflexivity. }
  split; [exact Hbegin|]. split; [exact Hexec|].
  exact (resumed_run_skips_processed Example.path_exists Example.convert
           Example.mkdtemp Example.gsutil_cp Example.py_int
           2%Z 1%Z 300%Z ["2101.00001v1"] [] 0%Z Example.listing
           Example.resumed_start Example.events_resumed Example.resumed_end Hbegin Hexec).
Defined.

(** X6 at the state in which the queue is full and the put of the sentinel
    blocks: the run can still complete. *)
Lemma run_can_complete_witness :
  (0 < batch_size (controller Example.pipeline_full))%Z
  /\ terminal (pc Example.pipeline_full) = false
  /\ step Example.path_exists Example.convert Example.pipeline_full Download = None
  /\ exists events s',
       exec Example.path_exists Example.convert Example.pipeline_full events = Some s'
       /\ pc s' = Complete.
Proof.
  assert (Hpos : (0 < batch_size (controller Example.pipeline_full))%Z).
  { reflexivity. }
  assert (Hlive : terminal (pc Example.pipeline_full) = false).
  { reflexivity. }
  split; [exact Hpos|]. split; [exact Hlive|]. split; [vm_compute; reflexivity|].
  exact (run_can_complete Example.path_exists Example.convert Example.pipeline_full
           Hpos Hlive).
Defined.

(** X7 at batch size 0: after two downloads and two passes through the
    loop the controller is where it started, with both papers in the
    queue. *)
Lemma nonpositive_batch_size_never_completes_witness :
  (batch_size Scenario.idle <= 0)%Z
  /\ exec Example.path_exists Example.convert
       (start Example.mkdtemp Example.gsutil_cp Scenario.idle Example.papers)
       Scenario.events_idle = Some Scenario.idle_end
  /\ pc Scenario.idle_end = Gathered [] true false
  /\ history Scenario.idle_end = []
  /\ dataset_file (controller Scenario.idle_end) = dataset_file Scenario.idle
  /\ length (paper_queue Scenario.idle_end) = 1.
Proof.
  assert (Hsize : (batch_size Scenario.idle <= 0)%Z).
  { vm_compute. discriminate. }
  assert (Hexec : exec Example.path_exists Example.convert
                    (start Example.mkdtemp Example.gsutil_cp Scenario.idle Example.papers)
                    Scenario.events_idle = Some Scenario.idle_end).
  { vm_compute. reflexivity. }
  destruct (nonpositive_batch_size_never_completes Example.path_exists Example.convert
              Example.mkdtemp Example.gsutil_cp Scenario.idle Example.papers
              Scenario.events_idle Scenario.idle_end Hsize Hexec) as (Hpc & Hh & Hd).
  split; [exact Hsize|]. split; [exact Hexec|]. split; [exact Hpc|]. split; [exact Hh|].
  split; [exact Hd|]. reflexivity.
Defined.

(** X9 at the first paper of [Example.papers]. *)
Lemma fetched_paper_is_converted_from_its_file_witness :
  download_paper Example.mkdtemp Example.gsutil_cp (Example.paper "2101.00001v1")
  = Some (Example.fetched "2101.00001v1")
  /\ convert_paper Example.path_exists Example.convert (Example.fetched "2101.00001v1")
     = success "2101.00001v1" "# 2101.00001v1"
  /\ exists arxiv_id url stderr,
       let paper_dir := Example.mkdtemp (arxiv_id +:+ "_") in
       let pdf_path := paper_dir +:+ "/" +:+ arxiv_id +:+ ".pdf" in
       Example.paper "2101.00001v1" !! "arxiv_id" = Some arxiv_id
       /\ Example.paper "2101.00001v1" !! "url" = Some url
       /\ Example.gsutil_cp url pdf_path = CpExit 0 stderr
       /\ Example.fetched "2101.00001v1"
          = <[ "temp_dir" := paper_dir ]>
              (<[ "local_path" := pdf_path ]> (Example.paper "2101.00001v1"))
       /\ convert_paper Example.path_exists Example.convert (Example.fetched "2101.00001v1")
          = if Example.path_exists pdf_path
            then match Example.convert arxiv_id pdf_path with
                 | Converted markdown => success arxiv_id markdown
                 | ConversionRaised e => failure arxiv_id e
                 end
            else failure arxiv_id "PDF path missing or invalid.".
Proof.
  assert (Hfetch : download_paper Example.mkdtemp Example.gsutil_cp
                     (Example.paper "2101.00001v1")
                   = Some (Example.fetched "2101.00001v1")).
  { vm_compute. reflexivity. }
  split; [exact Hfetch|]. split; [vm_compute; reflexivity|].
  exact (fetched_paper_is_converted_from_its_file Example.path_exists Example.convert
           Example.mkdtemp Example.gsutil_cp _ _ Hfetch).
Defined.

(** X10 at the complete run [Example.events]: one batch, worker 1. *)
Lemma worker_ids_count_batches_witness :
  exec Example.path_exists Example.convert
    (start Example.mkdtemp Example.gsutil_cp (init 2 1 300 [] []) Example.papers)
    Example.events = Some Example.pipeline_end
  /\ worker_process_counter (controller Example.pipeline_end)
     = Z.of_nat (length (submitted Example.pipeline_end))
  /\ worker_process_counter (controller Example.pipeline_end) = 1%Z.
Proof.
  assert (Hexec : exec Example.path_exists Example.convert
                    (start Example.mkdtemp Example.gsutil_cp (init 2 1 300 [] [])
                       Example.papers)
                    Example.events = Some Example.pipeline_end).
  { vm_compute. reflexivity. }
  split; [exact Hexec|]. split; [|reflexivity].
  exact (worker_ids_count_batches Example.path_exists Example.convert
           Example.mkdtemp Example.gsutil_cp 2%Z 1%Z 300%Z [] [] Example.papers
           Example.events Example.pipeline_end Hexec).
Defined.

(** X11 at a text with two placeholders and one figure: the first
    placeholder becomes the link, the second one stays. *)
Lemma embed_images_fills_in_order_witness :
  contains image_placeholder "# Title " = false
  /\ Forall (fun segment => contains image_placeholder segment = false) [" a "; " b"]
  /\ has_char "<" "2101.00001v1" = false
  /\ has_char "<" "0b9f6c1e" = false
  /\ Forall (fun url => contains image_placeholder url = false) [Scenario.figure_url]
  /\ embed_images "# Title <!-- image --> a <!-- image --> b" [Scenario.figure_url]
     = "# Title ![image](https://ac.marcodsn.me/arxiv-markdown-images/2101.00001v1-figure-0b9f6c1e.jpg) a <!-- image --> b".
Proof.
  assert (Hh : contains image_placeholder "# Title " = false).
  { reflexivity. }
  assert (Hs : Forall (fun segment => contains image_placeholder segment = false)
                 [" a "; " b"]).
  { constructor; [reflexivity|]. constructor; [reflexivity|]. constructor. }
  assert (Ha : has_char "<" "2101.00001v1" = false).
  { reflexivity. }
  assert (Hf : has_char "<" "0b9f6c1e" = false).
  { reflexivity. }
  destruct embed_images_fills_in_order as [Hfill Hurl].
  assert (Hu : Forall (fun url => contains image_placeholder url = false)
                 [Scenario.figure_url]).
  { constructor; [exact (Hurl _ _ Ha Hf)|]. constructor. }
  split; [exact Hh|]. split; [exact Hs|]. split; [exact Ha|]. split; [exact Hf|].
  split; [exact Hu|].
  exact (Hfill "# Title " [" a "; " b"] [Scenario.figure_url] Hh Hs Hu).
Defined.

(** X12 at a request for the first version of one paper and for a second
    paper, answered by the client with the second version of the first
    paper.  The result is stored under the identifier without version and
    under its own short identifier; the requested first version, which no
    result is stored under, gets the metadata of the result through the
    identifier without version; the second paper gets the empty metadata. *)
Lemma get_arxiv_metadata_batch_covers_witness :
  let arxiv_ids := ["2101.00001v1"; "2101.00009"] in
  let metadata_map :=
    Upload.get_arxiv_metadata_batch (Upload.ApiResults [Scenario.api_result]) arxiv_ids in
  is_Some (metadata_map !! "2101.00009")
  /\ Upload.base_key Scenario.api_result = "2101.00001"
  /\ Upload.get_short_id Scenario.api_result = "2101.00001v2"
  /\ Upload.before_v "2101.00001v1" = "2101.00001"
  /\ metadata_map !! "2101.00001" = Some (Upload.result_metadata Scenario.api_result)
  /\ metadata_map !! "2101.00001v2" = Some (Upload.result_metadata Scenario.api_result)
  /\ metadata_map !! "2101.00001v1" = Some (Upload.result_metadata Scenario.api_result)
  /\ metadata_map !! "2101.00009" = Some Upload.empty_metadata.
Proof.
  cbn zeta.
  destruct (get_arxiv_metadata_batch_covers (Upload.ApiResults [Scenario.api_result])
              ["2101.00001v1"; "2101.00009"]) as (Hcover & _ & Hresults).
  destruct (Hresults [Scenario.api_result] eq_refl) as (_ & Hlast & Hnone & Hlinked).
  assert (Hin : "2101.00009" ∈ ["2101.00001v1"; "2101.00009"]).
  { right. left. }
  assert (Hin1 : "2101.00001v1" ∈ ["2101.00001v1"; "2101.00009"]).
  { left. }
  assert (Hbase : Upload.get_arxiv_metadata_batch (Upload.ApiResults [Scenario.api_result])
                    ["2101.00001v1"; "2101.00009"] !! "2101.00001"
                  = Some (Upload.result_metadata Scenario.api_result)).
  { apply (Hlast [] Scenario.api_result [] "2101.00001" eq_refl).
    - left. vm_compute. reflexivity.
    - intros r Hr. by apply elem_of_nil in Hr. }
  split; [exact (proj1 (Hcover _ Hin))|]. split; [vm_compute; reflexivity|].
  split; [reflexivity|]. split; [vm_compute; reflexivity|]. split; [exact Hbase|].
  split; [|split].
  - apply (Hlast [] Scenario.api_result [] "2101.00001v2" eq_refl).
    + right. reflexivity.
    + intros r Hr. by apply elem_of_nil in Hr.
  - rewrite (Hlinked _ Hin1).
    + exact Hbase.
    + intros r Hr. apply list_elem_of_singleton in Hr. subst r.
      vm_compute. split; discriminate.
  - apply (Hnone _ Hin). intros r Hr. apply list_elem_of_singleton in Hr. subst r.
    vm_compute. repeat split; discriminate.
Defined.

(** X14 at one file with a record of the pipeline and a damaged line, an
    empty cache and a client that raises: the record is enriched with the
    empty metadata. *)
Lemma enriched_data_complete_witness :
  Upload.read_records Scenario.jsonl_files <> []
  /\ exists all_metadata enriched,
       Upload.enriched_data Scenario.api_down Scenario.jsonl_files ∅
       = Some (all_metadata, enriched)
       /\ Forall2
            (fun record enriched_record =>
               exists arxiv_id markdown entry,
                 record !! "arxiv_id" = Some arxiv_id
                 /\ record !! "markdown" = Some markdown
                 /\ all_metadata !! Upload.before_v arxiv_id = Some entry
                 /\ enriched_record
                    = entry ∪ {[ "arxiv_id" := Upload.JStr arxiv_id;
                                 "markdown" := Upload.JStr markdown ]}
                 /\ ((forall k cached,
                        (∅ : gmap string Upload.metadata) !! k = Some cached ->
                        cached !! "arxiv_id" = None /\ cached !! "markdown" = None) ->
                     enriched_record !! "arxiv_id" = Some (Upload.JStr arxiv_id)
                     /\ enriched_record !! "markdown" = Some (Upload.JStr markdown)))
            (Upload.read_records Scenario.jsonl_files) enriched.
Proof.
  assert (Hdata : Upload.read_records Scenario.jsonl_files <> []).
  { vm_compute. discriminate. }
  split; [exact Hdata|].
  exact (enriched_data_complete Scenario.api_down Scenario.jsonl_files ∅ Hdata).
Defined.

(** X15 at the first record of the complete run [Example.events]. *)
Lemma pipeline_records_are_read_witness :
  success "2101.00001v1" "# 2101.00001v1"
  ∈ appended_records Example.path_exists Example.convert Example.pipeline_end
  /\ Upload.before_v "2101.00001v1" = "2101.00001"
  /\ exists arxiv_id markdown,
       success "2101.00001v1" "# 2101.00001v1" = success arxiv_id markdown
       /\ Upload.read_line (Some (success "2101.00001v1" "# 2101.00001v1"))
          = Some (<[ "clean_arxiv_id" := Upload.before_v arxiv_id ]>
                    (success "2101.00001v1" "# 2101.00001v1"))
       /\ (has_char "v" (base_of arxiv_id) = false ->
           Upload.before_v arxiv_id = base_of arxiv_id).
Proof.
  assert (Hin : success "2101.00001v1" "# 2101.00001v1"
                ∈ appended_records Example.path_exists Example.convert
                    Example.pipeline_end).
  { replace (appended_records Example.path_exists Example.convert Example.pipeline_end)
      with [success "2101.00001v1" "# 2101.00001v1";
            success "2101.00003v1" "# 2101.00003v1"]
      by (vm_compute; reflexivity).
    left. }
  split; [exact Hin|]. split; [vm_compute; reflexivity|].
  exact (pipeline_records_are_read Example.path_exists Example.convert
           Example.pipeline_end _ Hin).
Defined.
